(** * Table-session lifecycle of the restaurant back end

    A shallow embedding of the order, bill and table controllers and of the
    socket handlers, with the Mongo collections, the Redis store and the
    socket emissions as explicit state.  JavaScript numbers are IEEE 754
    doubles and are modelled by Rocq's primitive floats; ObjectIds and cache
    keys are strings. *)

From Stdlib Require Import ZArith List String Bool Floats Lia.
From stdpp Require Import base option list gmap strings.
Import ListNotations.

Open Scope string_scope.
Open Scope list_scope.

(** ** Data model *)

Definition Id := string.
Definition Time := Z.
Bind Scope Z_scope with Time.

(** JavaScript truthiness of an optional string ([undefined] and the empty
    string are falsy) and of an optional number ([undefined], [0], [-0] and
    [NaN] are falsy). *)
Definition truthy (x : option string) : bool :=
  match x with
  | Some s => negb (String.eqb s "")
  | None => false
  end.

Definition truthyNum (x : option float) : bool :=
  match x with
  | Some q => negb (PrimFloat.eqb q 0%float || PrimFloat.is_nan q)
  | None => false
  end.

(** A stored reference (an ObjectId) is truthy as soon as it is not null. *)
Definition present (x : option Id) : bool :=
  match x with
  | Some _ => true
  | None => false
  end.

(** [a || b] on optional strings. *)
Definition orElse (x : option string) (d : string) : string :=
  match x with
  | Some s => if String.eqb s "" then d else s
  | None => d
  end.

(** [Array.prototype.includes] on strings. *)
Definition includes (l : list string) (s : string) : bool :=
  existsb (String.eqb s) l.

Arguments includes : simpl never.

Module Address.
Record t := mk {
    address : option string;
    apartment : option string;
    landmark : option string;
    latitude : option float;
    longitude : option float }.
End Address.

Module OrderItem.
Record t := mk {
    menuItem : Id;
    name : string;
    price : float;
    quantity : float;
    total : float;
    specialInstructions : string;
    productId : string }.
End OrderItem.

Module Order.
Record t := mk {
    _id : Id;
    user : option Id;
    items : list OrderItem.t;
    TableId : option Id;
    deviceId : option string;
    subtotal : float;
    deliveryFee : float;
    total : float;
    orderType : string;
    status : string;
    paymentStatus : string;
    paymentMethod : string;
    paymentId : option string;
    deliveryAddress : Address.t;
    deliveryInstructions : string;
    updatedAt : Time }.

Definition with_status (s : string) (o : t) : t :=
    mk (_id o) (user o) (items o) (TableId o) (deviceId o) (subtotal o)
       (deliveryFee o) (total o) (orderType o) s (paymentStatus o)
       (paymentMethod o) (paymentId o) (deliveryAddress o)
       (deliveryInstructions o) (updatedAt o).

Definition with_paymentStatus (s : string) (o : t) : t :=
    mk (_id o) (user o) (items o) (TableId o) (deviceId o) (subtotal o)
       (deliveryFee o) (total o) (orderType o) (status o) s
       (paymentMethod o) (paymentId o) (deliveryAddress o)
       (deliveryInstructions o) (updatedAt o).

Definition with_paymentId (p : option string) (o : t) : t :=
    mk (_id o) (user o) (items o) (TableId o) (deviceId o) (subtotal o)
       (deliveryFee o) (total o) (orderType o) (status o) (paymentStatus o)
       (paymentMethod o) p (deliveryAddress o)
       (deliveryInstructions o) (updatedAt o).

Definition with_updatedAt (u : Time) (o : t) : t :=
    mk (_id o) (user o) (items o) (TableId o) (deviceId o) (subtotal o)
       (deliveryFee o) (total o) (orderType o) (status o) (paymentStatus o)
       (paymentMethod o) (paymentId o) (deliveryAddress o)
       (deliveryInstructions o) u.
End Order.

(** The Table, TableSession, Bill, MenuItem and User schemas are not part of
    the sources at hand: the records carry every field the handlers read or
    write.  A session carries both [table] (written by [startTableSession],
    read by [endTableSession]) and [tableId] (written by the socket handlers,
    read by the payment and bill cascades). *)
Module Table.
Record t := mk {
    _id : Id;
    tableId : string;
    deviceId : option string;
    status : string;
    isActive : bool;
    currentSession : option Id }.

Definition with_status (s : string) (x : t) : t :=
    mk (_id x) (tableId x) (deviceId x) s (isActive x) (currentSession x).

Definition with_currentSession (c : option Id) (x : t) : t :=
    mk (_id x) (tableId x) (deviceId x) (status x) (isActive x) c.
End Table.

Module TableSession.
Record t := mk {
    _id : Id;
    table : option Id;
    tableId : option Id;
    clientId : option Id;
    status : string;
    startTime : Time;
    endTime : option Time;
    orders : list Id }.

Definition with_status (s : string) (x : t) : t :=
    mk (_id x) (table x) (tableId x) (clientId x) s (startTime x) (endTime x)
       (orders x).

Definition with_endTime (e : option Time) (x : t) : t :=
    mk (_id x) (table x) (tableId x) (clientId x) (status x) (startTime x) e
       (orders x).

Definition with_orders (l : list Id) (x : t) : t :=
    mk (_id x) (table x) (tableId x) (clientId x) (status x) (startTime x)
       (endTime x) l.
End TableSession.

Module Bill.
Record t := mk {
    _id : Id;
    tableSessionId : Id;
    total : float;
    paymentStatus : string;
    paymentMethod : option string;
    processedBy : option Id }.
End Bill.

Module MenuItem.
Record t := mk {
    _id : Id;
    name : string;
    price : float;
    isAvailable : bool }.
End MenuItem.

Module User.
Record t := mk {
    _id : Id;
    fullName : option string }.
End User.

(** Modelled from the spec: the Redis service (services/redis.service.js) is
    not under src/.  It is a key/value store with get, set and delete that
    degrades to pass-through when unavailable: lookups answer nothing and
    deletions are skipped while the backend is not connected. *)
Module Redis.
Record t := mk {
    connected : bool;
    store : gmap string string }.
End Redis.

(** ** Observable effects, in program order *)

Inductive Target :=
| to_caller
| to_room (room : string).

Inductive Event :=
| ev_error (message : string) (sessionId tableId : option Id)
| ev_session_started (sessionId : Id) (tableId : string)
    (clientId : option Id) (startTime : Time) (status : string)
    (customerName : option string)
| ev_session_created (sessionId : Id) (tableId : string) (startTime : Time)
    (status : string)
| ev_new_order (sessionId orderId : Id) (items : list OrderItem.t)
    (total : float) (status : string)
| ev_new_kitchen_order (id : Id) (items : list OrderItem.t)
    (orderType : string) (tableId : option string) (status : string)
| ev_order_status_updated (id : Id) (status previousStatus : string)
    (updatedAt : Time)
| ev_session_ended (sessionId billId : Id) (total : float)
    (paymentStatus : string)
| ev_session_ended_confirmation (sessionId billId : Id) (total : float)
    (paymentStatus : string).

Inductive Effect :=
| DbWrite (collection : string) (id : Id)
| CacheDelete (key : string)
| Emit (target : Target) (event : Event).

Record State := mkState {
  tables : list Table.t;
  sessions : list TableSession.t;
  orders : list Order.t;
  bills : list Bill.t;
  menuItems : list MenuItem.t;
  users : list User.t;
  redis : Redis.t;
  trace : list Effect }.

(** ** HTTP replies *)

Inductive Error :=
| ValidationError (path : string).

Inductive Body :=
| b_message (message : string)
| b_failure (message : string)
| b_validation_error (path : string)
| b_order (message : string) (order : Order.t)
| b_payment (message : string) (id : Id) (paymentStatus : string)
    (paymentId : option string) (sessionUpdated : bool)
| b_bill_exists (message : string) (billId : Id)
| b_bill (message : string) (id : Id) (total : float) (paymentStatus : string)
| b_bill_payment (message : string) (id : Id) (paymentStatus : string)
    (paymentMethod : option string)
| b_table (message : string) (id : Id) (deviceId : option string)
    (status : string)
| b_session_started (message : string) (id tableId : Id)
    (deviceId : option string) (startTime : Time) (status : string)
| b_session_ended (message : string) (id : Id) (tableId : option Id)
    (endTime : option Time) (status : string).

Inductive Reply :=
| Json (code : Z) (body : Body)
| Next (error : Error).

(** ** The handler monad: state, early return and exceptions *)

Inductive Outcome (R A : Type) :=
| Ok (a : A)
| Exit (r : R)
| Throw (e : Error).
Arguments Ok {R A} a.
Arguments Exit {R A} r.
Arguments Throw {R A} e.

Definition Handler (R A : Type) := State -> Outcome R A * State.

Definition ret {R A} (a : A) : Handler R A := fun st => (Ok a, st).

Definition bind {R A B} (m : Handler R A) (k : A -> Handler R B) : Handler R B :=
  fun st =>
    match m st with
    | (Ok a, st') => k a st'
    | (Exit r, st') => (Exit r, st')
    | (Throw e, st') => (Throw e, st')
    end.

Notation "'do' x <- m ; k" := (bind m (fun x => k))
  (at level 10, x name, m at level 100, k at level 200,
   format "'[v' 'do'  x  <-  m ; '/' k ']'").
Notation "'run' m ; k" := (bind m (fun _ => k))
  (at level 10, m at level 100, k at level 200,
   format "'[v' 'run'  m ; '/' k ']'").

Definition exit {R A} (r : R) : Handler R A := fun st => (Exit r, st).
Definition throw {R A} (e : Error) : Handler R A := fun st => (Throw e, st).
Definition gets {R A} (f : State -> A) : Handler R A := fun st => (Ok (f st), st).
Definition modify {R} (f : State -> State) : Handler R unit :=
  fun st => (Ok tt, f st).
Definition when {R} (b : bool) (m : Handler R unit) : Handler R unit :=
  if b then m else ret tt.

(** [try { body } catch (error) { handler }] around an HTTP handler. *)
Definition try_catch (body : Handler Reply Reply) (catch : Error -> Reply)
  : State -> Reply * State :=
  fun st =>
    match body st with
    | (Ok r, st') => (r, st')
    | (Exit r, st') => (r, st')
    | (Throw e, st') => (catch e, st')
    end.

(** The same around a socket handler, whose only results are its effects. *)
Definition try_socket (body : Handler unit unit) (catch : Error -> Handler unit unit)
  : State -> State :=
  fun st =>
    match body st with
    | (Ok _, st') => st'
    | (Exit _, st') => st'
    | (Throw e, st') => snd (catch e st')
    end.

Definition log {R} (e : Effect) : Handler R unit :=
  modify (fun st =>
    mkState (tables st) (sessions st) (orders st) (bills st) (menuItems st)
            (users st) (redis st) (trace st ++ [e])).

Definition emit {R} (t : Target) (e : Event) : Handler R unit := log (Emit t e).

Definition set_tables (l : list Table.t) (st : State) : State :=
  mkState l (sessions st) (orders st) (bills st) (menuItems st) (users st)
          (redis st) (trace st).
Definition set_sessions (l : list TableSession.t) (st : State) : State :=
  mkState (tables st) l (orders st) (bills st) (menuItems st) (users st)
          (redis st) (trace st).
Definition set_orders (l : list Order.t) (st : State) : State :=
  mkState (tables st) (sessions st) l (bills st) (menuItems st) (users st)
          (redis st) (trace st).
Definition set_bills (l : list Bill.t) (st : State) : State :=
  mkState (tables st) (sessions st) (orders st) l (menuItems st) (users st)
          (redis st) (trace st).
Definition set_redis (r : Redis.t) (st : State) : State :=
  mkState (tables st) (sessions st) (orders st) (bills st) (menuItems st)
          (users st) r (trace st).

(** ** Collections: documents in natural (insertion) order *)

Section Collection.
Context {D : Type} (key : D -> Id).

Definition findOne (p : D -> bool) (c : list D) : option D := List.find p c.

Definition findById (id : Id) (c : list D) : option D :=
    findOne (fun d => String.eqb (key d) id) c.

  (** [doc.save()]: the stored document with the same [_id] is replaced in
      place, a new document is appended. *)
Definition save (d : D) (c : list D) : list D :=
    if existsb (fun x => String.eqb (key x) (key d)) c
    then map (fun x => if String.eqb (key x) (key d) then d else x) c
    else c ++ [d].
End Collection.

Arguments findOne : simpl never.
Arguments findById : simpl never.
Arguments save : simpl never.

(** ** The Order schema (models/order.model.js) *)

Definition statusEnum : list string :=
  ["pending"; "confirmed"; "preparing"; "cancelled"; "ready_for_pickup"].
Definition paymentStatusEnum : list string := ["pending"; "paid"; "failed"].
Definition paymentMethodEnum : list string := ["card"; "cash"; "wallet"].
Definition orderTypeEnum : list string := ["Take Away"; "Delivery"; "Dine In"].

(** A path of type Number refuses NaN. *)
Definition castNumber (x : float) : bool := negb (PrimFloat.is_nan x).

Definition validateItem (i : OrderItem.t) : bool :=
  negb (String.eqb (OrderItem.name i) "")
  && castNumber (OrderItem.price i)
  && castNumber (OrderItem.quantity i)
  && castNumber (OrderItem.total i).

Definition validateStatus (o : Order.t) : option string :=
  if includes statusEnum (Order.status o) then None else Some "status".

Definition validatePayment (o : Order.t) : option string :=
  if includes paymentStatusEnum (Order.paymentStatus o) then None
  else Some "paymentStatus".

(** Validation of a new document: every path of the schema. *)
Definition validateOrder (o : Order.t) : option string :=
  if negb (forallb validateItem (Order.items o)) then Some "items"
  else if negb (castNumber (Order.subtotal o)) then Some "subtotal"
  else if negb (castNumber (Order.deliveryFee o)) then Some "deliveryFee"
  else if negb (castNumber (Order.total o)) then Some "total"
  else if negb (includes orderTypeEnum (Order.orderType o)) then Some "orderType"
  else if negb (includes statusEnum (Order.status o)) then Some "status"
  else if negb (includes paymentStatusEnum (Order.paymentStatus o))
       then Some "paymentStatus"
  else if negb (includes paymentMethodEnum (Order.paymentMethod o))
       then Some "paymentMethod"
  else if negb (truthy (Address.address (Order.deliveryAddress o)))
       then Some "deliveryAddress.address"
  else None.

(** [order.save()]: the paths given by [check] are validated, the document is
    stamped ([timestamps: true]) and written. *)
Definition saveOrder {R} (now : Time) (check : Order.t -> option string)
    (o : Order.t) : Handler R Order.t :=
  match check o with
  | Some path => throw (ValidationError path)
  | None =>
      let o' := Order.with_updatedAt now o in
      run modify (fun st => set_orders (save Order._id o' (orders st)) st);
      run log (DbWrite "orders" (Order._id o'));
      ret o'
  end.

Definition saveSession {R} (s : TableSession.t) : Handler R unit :=
  run modify (fun st => set_sessions (save TableSession._id s (sessions st)) st);
  log (DbWrite "tablesessions" (TableSession._id s)).

Definition saveTable {R} (t : Table.t) : Handler R unit :=
  run modify (fun st => set_tables (save Table._id t (tables st)) st);
  log (DbWrite "tables" (Table._id t)).

Definition saveBill {R} (b : Bill.t) : Handler R unit :=
  run modify (fun st => set_bills (save Bill._id b (bills st)) st);
  log (DbWrite "bills" (Bill._id b)).

(** ** Redis service *)

Definition isConnected {R} : Handler R bool :=
  gets (fun st => Redis.connected (redis st)).

Definition getValue {R} (key : string) : Handler R (option string) :=
  gets (fun st =>
    if Redis.connected (redis st) then Redis.store (redis st) !! key else None).

Definition deleteCache {R} (key : string) : Handler R unit :=
  do up <- isConnected;
  when up (
    run modify (fun st =>
      set_redis (Redis.mk true (delete key (Redis.store (redis st)))) st);
    log (CacheDelete key)).

(** ** socket.js: kitchen notifications *)

Definition KITCHEN_SOCKET_KEY := "kitchen:socket_id".
Definition KITCHEN_ORDERS_CACHE := "kitchen:active_orders".
Definition COMPLETED_ORDERS_CACHE := "kitchen:completed_orders".
Definition ORDER_DETAILS_CACHE_PREFIX := "order:details:".
Definition USER_ORDERS_CACHE_PREFIX := "order:user:".
Definition SESSION_ORDERS_CACHE_PREFIX := "order:session:".

(** [order.TableId?.toString() || order.deviceId || null]. *)
Definition kitchenTableId (order : Order.t) : option string :=
  if present (Order.TableId order) then Order.TableId order
  else if truthy (Order.deviceId order) then Order.deviceId order
  else None.

Definition notifyKitchenAboutNewOrder {R} (order : Order.t) : Handler R bool :=
  do kitchenSocketId <- getValue KITCHEN_SOCKET_KEY;
  if negb (truthy kitchenSocketId) then ret false
  else
    run emit (to_room (orElse kitchenSocketId ""))
          (ev_new_kitchen_order (Order._id order) (Order.items order)
             (Order.orderType order)
             (kitchenTableId order)
             (Order.status order));
    run deleteCache KITCHEN_ORDERS_CACHE;
    ret true.

Definition notifyKitchenAboutOrderUpdate {R} (order : Order.t)
    (previousStatus : string) : Handler R bool :=
  do kitchenSocketId <- getValue KITCHEN_SOCKET_KEY;
  if negb (truthy kitchenSocketId) then ret false
  else
    run emit (to_room (orElse kitchenSocketId ""))
          (ev_order_status_updated (Order._id order) (Order.status order)
             previousStatus (Order.updatedAt order));
    run deleteCache KITCHEN_ORDERS_CACHE;
    ret true.

(** ** controllers/order.controller.js *)

Module ItemReq.
Record t := mk {
    menuItemId : option Id;
    quantity : option float;
    specialInstructions : option string }.
End ItemReq.

Module CreateOrder.
  (** [req.body] and the presence of [req.io]; a missing [items] array is the
      empty list. *)
Record req := mk {
    userId : option Id;
    items : list ItemReq.t;
    deliveryAddress : option Address.t;
    deliveryInstructions : option string;
    paymentMethod : option string;
    sessionId : option Id;
    tableId : option string;
    orderType : option string;
    deviceId : option string;
    io : bool }.
End CreateOrder.

(** The loop over [items]: every line is checked against the menu, priced
    with the menu item's current price and added to [subtotal]. *)
Fixpoint orderLines (items : list ItemReq.t) (subtotal : float)
    (orderItems : list OrderItem.t)
  : Handler Reply (float * list OrderItem.t) :=
  match items with
  | [] => ret (subtotal, orderItems)
  | item :: rest =>
      match ItemReq.menuItemId item, ItemReq.quantity item with
      | Some menuItemId, Some quantity =>
          if negb (truthy (Some menuItemId)) || negb (truthyNum (Some quantity))
          then exit (Json 400
                 (b_message "Menu item ID and quantity are required for each item"))
          else
            do menuItem <- gets (fun st =>
                 findById MenuItem._id menuItemId (menuItems st));
            match menuItem with
            | None =>
                exit (Json 404 (b_message
                  ("Menu item with ID " ++ menuItemId ++ " not found")))
            | Some menuItem =>
                if negb (MenuItem.isAvailable menuItem)
                then exit (Json 400 (b_message
                       ("Menu item " ++ MenuItem.name menuItem
                        ++ " is not available")))
                else
                  let itemPrice := MenuItem.price menuItem in
                  let total := PrimFloat.mul itemPrice quantity in
                  orderLines rest (PrimFloat.add subtotal total)
                    (orderItems ++
                     [OrderItem.mk menuItemId (MenuItem.name menuItem)
                        itemPrice quantity total
                        (orElse (ItemReq.specialInstructions item) "")
                        ("prod_" ++ MenuItem.name menuItem)])
            end
      | _, _ =>
          exit (Json 400
            (b_message "Menu item ID and quantity are required for each item"))
      end
  end.

Definition deliveryFeeOf (orderType : string) : float :=
  if String.eqb orderType "Delivery" then 2%float else 0%float.

Definition defaultAddress (orderType : string) : Address.t :=
  Address.mk
    (Some (if String.eqb orderType "Dine In" then "Dine-in"
           else "Pick up at restaurant"))
    (Some "") (Some "") (Some 0%float) (Some 0%float).

Definition activeStatuses : list string := ["pending"; "confirmed"; "preparing"].
Definition completedStatuses : list string :=
  ["ready_for_pickup"; "completed"; "cancelled"].
Definition kitchenRelevantStatuses : list string :=
  ["pending"; "confirmed"; "preparing"; "ready_for_pickup"; "completed";
   "cancelled"].

(** The order document built by [createOrder], before it is saved.  A falsy
    [userId] is stored as no user. *)
Definition newOrder (now : Time) (newId : Id) (req : CreateOrder.req)
    (tableDbId : option Id) (subtotal : float) (orderItems : list OrderItem.t)
  : Order.t :=
  let orderType := orElse (CreateOrder.orderType req) "" in
  let deliveryFee := deliveryFeeOf orderType in
  let total := PrimFloat.add subtotal deliveryFee in
  Order.mk newId
    (if truthy (CreateOrder.userId req) then CreateOrder.userId req else None)
    orderItems tableDbId
    (CreateOrder.deviceId req) subtotal deliveryFee total orderType
    "pending" "pending" (orElse (CreateOrder.paymentMethod req) "cash") None
    (match CreateOrder.deliveryAddress req with
     | Some a => a
     | None => defaultAddress orderType
     end)
    (orElse (CreateOrder.deliveryInstructions req) "") now.

(** [session.orders.push(order._id)]. *)
Definition attach (orderId : Id) (session : TableSession.t) : TableSession.t :=
  TableSession.with_orders (TableSession.orders session ++ [orderId]) session.

(** The first half of [createOrder]: the request is validated, the lines are
    priced and the order document is built; nothing is written yet. *)
Definition prepareOrder (now : Time) (newId : Id) (req : CreateOrder.req)
  : Handler Reply Order.t :=
  let tableId := CreateOrder.tableId req in
  let orderType := orElse (CreateOrder.orderType req) "" in
  run when (match CreateOrder.items req with [] => true | _ => false end
            || negb (truthy (CreateOrder.orderType req)))
        (exit (Json 400 (b_message "Items and order type are required")));
  run when (String.eqb orderType "Dine In" && negb (truthy tableId)
            && negb (truthy (CreateOrder.deviceId req)))
        (exit (Json 400
           (b_message "Table ID or Device ID is required for Dine In orders")));
  run when (truthy (CreateOrder.userId req)) (
        do user <- gets (fun st =>
             findById User._id (orElse (CreateOrder.userId req) "") (users st));
        match user with
        | None => exit (Json 404 (b_message "User not found"))
        | Some _ => ret tt
        end);
  do lines <- orderLines (CreateOrder.items req) 0%float [];
  do tableDbId <-
     (if truthy tableId
      then gets (fun st =>
             option_map Table._id
               (findOne (fun t => String.eqb (Table.tableId t) (orElse tableId ""))
                  (tables st)))
      else ret None);
  ret (newOrder now newId req tableDbId (fst lines) (snd lines)).

(** After the save: the order is attached to the session named by the
    request and announced to the table room and to the kitchen. *)
Definition attachAndNotify (req : CreateOrder.req) (order : Order.t)
  : Handler Reply Reply :=
  let tableId := CreateOrder.tableId req in
  run match CreateOrder.sessionId req with
      | Some sessionId =>
          when (truthy (Some sessionId)) (
            do session <- gets (fun st =>
                 findById TableSession._id sessionId (sessions st));
            match session with
            | None => exit (Json 404 (b_message "Session not found"))
            | Some session =>
                let session := attach (Order._id order) session in
                run saveSession session;
                when (CreateOrder.io req && truthy tableId)
                  (emit (to_room ("table_" ++ orElse tableId ""))
                     (ev_new_order (TableSession._id session) (Order._id order)
                        (Order.items order) (Order.total order)
                        (Order.status order)))
            end)
      | None => ret tt
      end;
  run when (CreateOrder.io req
            && includes activeStatuses (Order.status order))
        (do _ <- notifyKitchenAboutNewOrder order; ret tt);
  ret (Json 201 (b_order "Order created successfully" order)).

Definition createOrder_body (now : Time) (newId : Id) (req : CreateOrder.req)
  : Handler Reply Reply :=
  do draft <- prepareOrder now newId req;
  do order <- saveOrder now validateOrder draft;
  attachAndNotify req order.

Definition createOrder (now : Time) (newId : Id) (req : CreateOrder.req)
  : State -> Reply * State :=
  try_catch (createOrder_body now newId req)
    (fun e => match e with
              | ValidationError path => Json 400 (b_validation_error path)
              end).

Module UpdateStatus.
Record req := mk {
    orderId : Id;
    status : option string;
    io : bool }.
End UpdateStatus.

(** Step 4 of the cache invalidation of [updateOrderStatus]. *)
Definition invalidateKitchen {R} (previousStatus status : string)
  : Handler R unit :=
  if (includes activeStatuses previousStatus && includes completedStatuses status)
     || (includes completedStatuses previousStatus && includes activeStatuses status)
  then
    run deleteCache KITCHEN_ORDERS_CACHE;
    deleteCache COMPLETED_ORDERS_CACHE
  else if includes activeStatuses previousStatus && includes activeStatuses status
  then deleteCache KITCHEN_ORDERS_CACHE
  else if includes completedStatuses previousStatus
          && includes completedStatuses status
  then deleteCache COMPLETED_ORDERS_CACHE
  else ret tt.

(** [TableSession.findOne({ orders: orderId })]. *)
Definition sessionOfOrder (orderId : Id) (st : State) : option TableSession.t :=
  findOne (fun s => includes (TableSession.orders s) orderId) (sessions st).

(** The cache invalidation block of [updateOrderStatus], steps 1 to 4. *)
Definition invalidateOrderCaches {R} (orderId : Id) (order : Order.t)
    (previousStatus status : string) : Handler R unit :=
  do up <- isConnected;
  when up (
    run deleteCache (ORDER_DETAILS_CACHE_PREFIX ++ orderId);
    run match Order.user order with
        | Some user => deleteCache (USER_ORDERS_CACHE_PREFIX ++ user)
        | None => ret tt
        end;
    do session <- gets (sessionOfOrder orderId);
    run match session with
        | Some session =>
            deleteCache (SESSION_ORDERS_CACHE_PREFIX ++ TableSession._id session)
        | None => ret tt
        end;
    invalidateKitchen previousStatus status).

Definition updateOrderStatus_body (now : Time) (req : UpdateStatus.req)
  : Handler Reply Reply :=
  let orderId := UpdateStatus.orderId req in
  run when (negb (truthy (UpdateStatus.status req)))
        (exit (Json 400 (b_failure "New status is required")));
  let status := orElse (UpdateStatus.status req) "" in
  do found <- gets (fun st => findById Order._id orderId (orders st));
  match found with
  | None => exit (Json 404 (b_failure "Order not found"))
  | Some order =>
      let previousStatus := Order.status order in
      if String.eqb previousStatus status
      then exit (Json 200 (b_order ("Order status is already " ++ status) order))
      else
        do order <- saveOrder now validateStatus
                      (Order.with_updatedAt now (Order.with_status status order));
        run when (UpdateStatus.io req
                  && (includes kitchenRelevantStatuses previousStatus
                      || includes kitchenRelevantStatuses status))
              (do _ <- notifyKitchenAboutOrderUpdate order previousStatus; ret tt);
        run invalidateOrderCaches orderId order previousStatus status;
        ret (Json 200 (b_order "Order status updated successfully" order))
  end.

Definition updateOrderStatus (now : Time) (req : UpdateStatus.req)
  : State -> Reply * State :=
  try_catch (updateOrderStatus_body now req) Next.

Module UpdatePayment.
Record req := mk {
    orderId : Id;
    paymentStatus : option string;
    paymentId : option string }.
End UpdatePayment.

(** [Order.countDocuments({ _id: { $in: ids }, paymentStatus: { $ne: "paid" } })]. *)
Definition countUnpaid (ids : list Id) (st : State) : nat :=
  length (List.filter (fun o => includes ids (Order._id o)
                           && negb (String.eqb (Order.paymentStatus o) "paid"))
            (orders st)).

(** [Table.findById(ref)] on a reference that may be missing. *)
Definition lookupTable (ref : option Id) (st : State) : option Table.t :=
  match ref with
  | Some id => findById Table._id id (tables st)
  | None => None
  end.

(** [if (table) { table.status = "cleaning"; table.currentSession = null;
    await table.save() }]. *)
Definition releaseTable {R} (table : option Table.t) : Handler R unit :=
  match table with
  | Some table =>
      saveTable (Table.with_currentSession None
                   (Table.with_status "cleaning" table))
  | None => ret tt
  end.

Definition updatePaymentStatus_body (now : Time) (req : UpdatePayment.req)
  : Handler Reply Reply :=
  let orderId := UpdatePayment.orderId req in
  run when (negb (truthy (UpdatePayment.paymentStatus req)))
        (exit (Json 400 (b_message "Payment status is required")));
  let paymentStatus := orElse (UpdatePayment.paymentStatus req) "" in
  do found <- gets (fun st => findById Order._id orderId (orders st));
  match found with
  | None => exit (Json 404 (b_message "Order not found"))
  | Some order =>
      let order := Order.with_paymentStatus paymentStatus order in
      let order := if truthy (UpdatePayment.paymentId req)
                   then Order.with_paymentId (UpdatePayment.paymentId req) order
                   else order in
      do order <- saveOrder now validatePayment order;
      do session <- gets (sessionOfOrder orderId);
      do sessionUpdated <-
         match session with
         | Some session =>
             if String.eqb (TableSession.status session) "payment_pending"
             then
               do unpaidOrders <- gets (countUnpaid (TableSession.orders session));
               if Nat.eqb unpaidOrders 0
               then
                 run saveSession (TableSession.with_endTime (Some now)
                                    (TableSession.with_status "closed" session));
                 do table <- gets (lookupTable (TableSession.tableId session));
                 run releaseTable table;
                 ret true
               else ret false
             else ret false
         | None => ret false
         end;
      do up <- isConnected;
      run when up (
            run deleteCache (ORDER_DETAILS_CACHE_PREFIX ++ orderId);
            run match Order.user order with
                | Some user => deleteCache (USER_ORDERS_CACHE_PREFIX ++ user)
                | None => ret tt
                end;
            match session with
            | Some session =>
                deleteCache (SESSION_ORDERS_CACHE_PREFIX
                             ++ TableSession._id session)
            | None => ret tt
            end);
      ret (Json 200 (b_payment "Payment status updated successfully"
                       (Order._id order) (Order.paymentStatus order)
                       (Order.paymentId order) sessionUpdated))
  end.

Definition updatePaymentStatus (now : Time) (req : UpdatePayment.req)
  : State -> Reply * State :=
  try_catch (updatePaymentStatus_body now req) Next.

(** ** controllers/bill.controller.js *)

(** [Bill.findOne({ tableSessionId: sessionId })]. *)
Definition billOfSession (sessionId : Id) (st : State) : option Bill.t :=
  findOne (fun b => String.eqb (Bill.tableSessionId b) sessionId) (bills st).

(** [Order.find({ _id: { $in: ids } })] followed by
    [orders.reduce((sum, order) => sum + order.total, 0)]. *)
Definition sessionTotal (ids : list Id) (st : State) : float :=
  fold_left (fun sum order => PrimFloat.add sum (Order.total order))
    (List.filter (fun o => includes ids (Order._id o)) (orders st)) 0%float.

Module SettleBill.
Record req := mk {
    billId : Id;
    paymentStatus : option string;
    paymentMethod : option string;
    userId : option Id }.
End SettleBill.

Definition updateBillPaymentStatus_body (now : Time) (req : SettleBill.req)
  : Handler Reply Reply :=
  run when (negb (truthy (SettleBill.paymentStatus req)))
        (exit (Json 400 (b_message "Payment status is required")));
  let paymentStatus := orElse (SettleBill.paymentStatus req) "" in
  do found <- gets (fun st => findById Bill._id (SettleBill.billId req) (bills st));
  match found with
  | None => exit (Json 404 (b_message "Bill not found"))
  | Some bill =>
      let bill :=
        Bill.mk (Bill._id bill) (Bill.tableSessionId bill) (Bill.total bill)
          paymentStatus
          (if truthy (SettleBill.paymentMethod req)
           then SettleBill.paymentMethod req else Bill.paymentMethod bill)
          (SettleBill.userId req) in
      run saveBill bill;
      run when (String.eqb paymentStatus "paid") (
            do session <- gets (fun st =>
                 findById TableSession._id (Bill.tableSessionId bill) (sessions st));
            match session with
            | Some session =>
                when (negb (String.eqb (TableSession.status session) "closed")) (
                  run saveSession (TableSession.with_endTime (Some now)
                                     (TableSession.with_status "closed" session));
                  do table <- gets (lookupTable (TableSession.tableId session));
                  releaseTable table)
            | None => ret tt
            end);
      ret (Json 200 (b_bill_payment "Bill payment status updated successfully"
                       (Bill._id bill) (Bill.paymentStatus bill)
                       (Bill.paymentMethod bill)))
  end.

Definition updateBillPaymentStatus (now : Time) (req : SettleBill.req)
  : State -> Reply * State :=
  try_catch (updateBillPaymentStatus_body now req) Next.

Definition generateBillForSession_body (newId : Id) (sessionId : Id)
  : Handler Reply Reply :=
  do existingBill <- gets (billOfSession sessionId);
  match existingBill with
  | Some existingBill =>
      exit (Json 400 (b_bill_exists "Bill already exists for this session"
                        (Bill._id existingBill)))
  | None =>
      do session <- gets (fun st =>
           findById TableSession._id sessionId (sessions st));
      match session with
      | None => exit (Json 404 (b_message "Session not found"))
      | Some session =>
          do total <- gets (sessionTotal (TableSession.orders session));
          let bill := Bill.mk newId sessionId total "pending" None None in
          run saveBill bill;
          run saveSession (TableSession.with_status "payment_pending" session);
          ret (Json 201 (b_bill "Bill generated successfully" (Bill._id bill)
                           (Bill.total bill) (Bill.paymentStatus bill)))
      end
  end.

Definition generateBillForSession (newId : Id) (sessionId : Id)
  : State -> Reply * State :=
  try_catch (generateBillForSession_body newId sessionId) Next.

(** [let bill = await Bill.findOne(...); if (!bill) { ... }]: the stored
    bill of the session, or a new one that is saved. *)
Definition findOrCreateBill {R} (newId : Id) (sessionId : Id)
    (session : TableSession.t) : Handler R Bill.t :=
  do existing <- gets (billOfSession sessionId);
  match existing with
  | Some bill => ret bill
  | None =>
      do total <- gets (sessionTotal (TableSession.orders session));
      let bill := Bill.mk newId sessionId total "pending" None None in
      run saveBill bill;
      ret bill
  end.

Definition endSessionAndGenerateBill_body (newId : Id) (sessionId : Id)
  : Handler Reply Reply :=
  do session <- gets (fun st => findById TableSession._id sessionId (sessions st));
  match session with
  | None => exit (Json 404 (b_message "Session not found"))
  | Some session =>
      if String.eqb (TableSession.status session) "closed"
      then exit (Json 400 (b_message "Session is already closed"))
      else
        do bill <- findOrCreateBill newId sessionId session;
        run saveSession (TableSession.with_status "payment_pending" session);
        ret (Json 200 (b_bill "Session ended and bill generated successfully"
                         (Bill._id bill) (Bill.total bill)
                         (Bill.paymentStatus bill)))
  end.

Definition endSessionAndGenerateBill (newId : Id) (sessionId : Id)
  : State -> Reply * State :=
  try_catch (endSessionAndGenerateBill_body newId sessionId) Next.

(** ** controllers/table.controller.js *)

(** [TableSession.findByIdAndUpdate(id, { status, endTime })]. *)
Definition findSessionByIdAndUpdate {R} (id : Id) (status : string)
    (endTime : Time) : Handler R unit :=
  do session <- gets (fun st => findById TableSession._id id (sessions st));
  match session with
  | Some session =>
      saveSession (TableSession.with_endTime (Some endTime)
                     (TableSession.with_status status session))
  | None => ret tt
  end.

Definition updateTableStatus_body (now : Time) (tableId : Id)
    (status : option string) : Handler Reply Reply :=
  run when (negb (truthy status))
        (exit (Json 400 (b_message "Status is required")));
  let status := orElse status "" in
  do found <- gets (fun st => findById Table._id tableId (tables st));
  match found with
  | None => exit (Json 404 (b_message "Table not found"))
  | Some table =>
      do table <-
         match Table.currentSession table with
         | Some currentSession =>
             if String.eqb status "available"
             then
               run findSessionByIdAndUpdate currentSession "completed" now;
               ret (Table.with_currentSession None table)
             else ret table
         | None => ret table
         end;
      let table := Table.with_status status table in
      run saveTable table;
      ret (Json 200 (b_table "Table status updated successfully"
                       (Table._id table) (Table.deviceId table)
                       (Table.status table)))
  end.

Definition updateTableStatus (now : Time) (tableId : Id)
    (status : option string) : State -> Reply * State :=
  try_catch (updateTableStatus_body now tableId status) Next.

(** Modelled from the spec: the TableSession schema is not under src/; a
    session created without an explicit status is [active]. *)
Definition defaultSessionStatus : string := "active".

Definition startTableSession_body (now : Time) (newId : Id) (tableId : Id)
  : Handler Reply Reply :=
  do found <- gets (fun st => findById Table._id tableId (tables st));
  match found with
  | None => exit (Json 404 (b_message "Table not found"))
  | Some table =>
      if negb (Table.isActive table)
      then exit (Json 400 (b_message "Table is not active"))
      else if negb (String.eqb (Table.status table) "available")
      then exit (Json 400 (b_message "Table is not available"))
      else
        let session :=
          TableSession.mk newId (Some tableId) None None defaultSessionStatus
            now None [] in
        run saveSession session;
        let table := Table.with_currentSession (Some (TableSession._id session))
                       (Table.with_status "occupied" table) in
        run saveTable table;
        ret (Json 201 (b_session_started "Table session started successfully"
                         (TableSession._id session) (Table._id table)
                         (Table.deviceId table) (TableSession.startTime session)
                         (TableSession.status session)))
  end.

Definition startTableSession (now : Time) (newId : Id) (tableId : Id)
  : State -> Reply * State :=
  try_catch (startTableSession_body now newId tableId) Next.

Definition endTableSession_body (now : Time) (sessionId : Id)
  : Handler Reply Reply :=
  do found <- gets (fun st => findById TableSession._id sessionId (sessions st));
  match found with
  | None => exit (Json 404 (b_message "Session not found"))
  | Some session =>
      if negb (String.eqb (TableSession.status session) "active")
      then exit (Json 400 (b_message "Session is not active"))
      else
        let session := TableSession.with_endTime (Some now)
                         (TableSession.with_status "completed" session) in
        run saveSession session;
        do table <- gets (lookupTable (TableSession.table session));
        run releaseTable table;
        ret (Json 200 (b_session_ended "Table session ended successfully"
                         (TableSession._id session) (TableSession.table session)
                         (TableSession.endTime session)
                         (TableSession.status session)))
  end.

Definition endTableSession (now : Time) (sessionId : Id)
  : State -> Reply * State :=
  try_catch (endTableSession_body now sessionId) Next.

(** ** socket.js: session handlers *)

Definition socketError (message : string) : Handler unit unit :=
  run emit to_caller (ev_error message None None);
  exit tt.

(** [TableSession.findOne({ clientId: userId, status: "active" })]. *)
Definition activeSessionOf (userId : Id) (st : State) : option TableSession.t :=
  findOne (fun s =>
             match TableSession.clientId s with
             | Some c => String.eqb c userId
             | None => false
             end && String.eqb (TableSession.status s) "active")
    (sessions st).

(** The common body of the [initiate_session] and [scan_qr_code] handlers;
    they differ in the [customerName] of the [session_started] event only. *)
Definition startSessionSocket (viaQr : bool) (now : Time) (newId : Id)
    (tableId userId : option string) : Handler unit unit :=
  run when (negb (truthy tableId) || negb (truthy userId))
        (socketError "Table ID and User ID are required");
  let tableId := orElse tableId "" in
  let userId := orElse userId "" in
  do found <- gets (fun st =>
       findOne (fun t => String.eqb (Table.tableId t) tableId) (tables st));
  match found with
  | None => socketError "Table not found"
  | Some table =>
      run when (negb (Table.isActive table)) (socketError "Table is not active");
      run when (negb (String.eqb (Table.status table) "available"))
            (socketError "Table is not available");
      do user <- gets (fun st => findById User._id userId (users st));
      match user with
      | None => socketError "User not found"
      | Some user =>
          do existingUserSession <- gets (activeSessionOf userId);
          match existingUserSession with
          | Some existing =>
              run emit to_caller
                    (ev_error "You already have an active session at another table"
                       (Some (TableSession._id existing))
                       (TableSession.tableId existing));
              exit tt
          | None =>
              let session :=
                TableSession.mk newId None (Some (Table._id table))
                  (Some userId) "active" now None [] in
              run saveSession session;
              run saveTable
                    (Table.with_currentSession (Some (TableSession._id session))
                       (Table.with_status "occupied" table));
              run emit (to_room ("table_" ++ tableId))
                    (ev_session_started (TableSession._id session) tableId
                       (TableSession.clientId session)
                       (TableSession.startTime session)
                       (TableSession.status session)
                       (if viaQr
                        then Some (orElse (User.fullName user) "Customer")
                        else None));
              emit to_caller
                (ev_session_created (TableSession._id session) tableId
                   (TableSession.startTime session)
                   (TableSession.status session))
          end
      end
  end.

Definition initiate_session (now : Time) (newId : Id)
    (tableId userId : option string) : State -> State :=
  try_socket (startSessionSocket false now newId tableId userId)
    (fun _ => emit to_caller (ev_error "Failed to initiate session" None None)).

Definition scan_qr_code (now : Time) (newId : Id)
    (tableId userId : option string) : State -> State :=
  try_socket (startSessionSocket true now newId tableId userId)
    (fun _ => emit to_caller (ev_error "Failed to process QR code scan" None None)).

Definition end_session_body (now : Time) (newId : Id)
    (sessionId tableId : option string) : Handler unit unit :=
  run when (negb (truthy sessionId)) (socketError "Session ID is required");
  let sessionId := orElse sessionId "" in
  do found <- gets (fun st => findById TableSession._id sessionId (sessions st));
  match found with
  | None => socketError "Session not found"
  | Some session =>
      run when (String.eqb (TableSession.status session) "closed")
            (socketError "Session is already closed");
      do bill <- findOrCreateBill newId sessionId session;
      run saveSession (TableSession.with_endTime (Some now)
                         (TableSession.with_status "closed" session));
      do table <- gets (lookupTable (TableSession.tableId session));
      run releaseTable table;
      let effectiveTableId :=
        if truthy tableId then tableId
        else match table with
             | Some table => Some (Table.tableId table)
             | None => None
             end in
      run when (truthy effectiveTableId)
            (emit (to_room ("table_" ++ orElse effectiveTableId ""))
               (ev_session_ended sessionId (Bill._id bill) (Bill.total bill)
                  (Bill.paymentStatus bill)));
      emit to_caller
        (ev_session_ended_confirmation sessionId (Bill._id bill)
           (Bill.total bill) (Bill.paymentStatus bill))
  end.

Definition end_session (now : Time) (newId : Id)
    (sessionId tableId : option string) : State -> State :=
  try_socket (end_session_body now newId sessionId tableId)
    (fun _ => emit to_caller (ev_error "Failed to end session" None None)).

(** ** A sample restaurant, used by the examples below *)

Definition burger : MenuItem.t := MenuItem.mk "m1" "Burger" 5%float true.
Definition soda : MenuItem.t := MenuItem.mk "m2" "Soda" 3.5%float true.

Definition table1 : Table.t := Table.mk "t1" "T1" None "available" true None.
Definition table2 : Table.t :=
  Table.mk "t2" "T2" None "occupied" true (Some "s1").

Definition table3 : Table.t := Table.mk "t3" "T3" None "available" false None.

Definition session1 : TableSession.t :=
  TableSession.mk "s1" None (Some "t2") (Some "u1") "active" 100 None ["o1"].

Definition sampleOrder (id : Id) (status paymentStatus : string) : Order.t :=
  Order.mk id (Some "u1") [] (Some "t2") None 10%float 0%float 10%float
    "Dine In" status paymentStatus "cash" None (defaultAddress "Dine In") "" 100.

Definition emptyRedis : Redis.t := Redis.mk true ∅.
Definition kitchenRedis : Redis.t :=
  Redis.mk true {[ KITCHEN_SOCKET_KEY := "sock9" ]}.

Definition restaurant : State :=
  mkState [table1; table2; table3] [session1]
    [sampleOrder "o1" "pending" "pending"] []
    [burger; soda] [User.mk "u1" (Some "Ada")] kitchenRedis [].

Definition twoLines : list ItemReq.t :=
  [ItemReq.mk (Some "m1") (Some 2%float) None;
   ItemReq.mk (Some "m2") (Some 1%float) None].

Definition dineInReq (sessionId : option Id) : CreateOrder.req :=
  CreateOrder.mk (Some "u1") twoLines None None None sessionId (Some "T2")
    (Some "Dine In") None true.

(** ** Specification vocabulary *)

(** A handler respects a relation between the state before and the state
    after when every run of it, whatever its outcome, is within it. *)
Definition respects {R A} (rel : State -> State -> Prop) (m : Handler R A)
  : Prop :=
  forall st, rel st (snd (m st)).

(** What [createOrder] promises about one line: the unit price is the menu
    item's price in the store at order time, the quantity is the requested
    one and the total is their product. *)
Definition lineOf (st : State) (item : ItemReq.t) (line : OrderItem.t) : Prop :=
  exists menuItemId quantity m,
    ItemReq.menuItemId item = Some menuItemId
    /\ ItemReq.quantity item = Some quantity
    /\ findById MenuItem._id menuItemId (menuItems st) = Some m
    /\ OrderItem.price line = MenuItem.price m
    /\ OrderItem.quantity line = quantity
    /\ OrderItem.total line = PrimFloat.mul (MenuItem.price m) quantity.

(** The sum of the line totals, added in line order from [0] as the loop of
    [createOrder] does. *)
Definition sumTotals (from : float) (lines : list OrderItem.t) : float :=
  fold_left (fun sum line => PrimFloat.add sum (OrderItem.total line)) lines from.

Definition moneyInvariant (st : State) (req : CreateOrder.req) (o : Order.t)
  : Prop :=
  Forall2 (lineOf st) (CreateOrder.items req) (Order.items o)
  /\ Order.subtotal o = sumTotals 0%float (Order.items o)
  /\ Order.deliveryFee o
     = (if String.eqb (Order.orderType o) "Delivery" then 2%float else 0%float)
  /\ Order.total o = PrimFloat.add (Order.subtotal o) (Order.deliveryFee o).

(** How many times an id occurs in a list of ids. *)
Definition occurrences (id : Id) (l : list Id) : nat :=
  length (List.filter (String.eqb id) l).

(** A session that has been billed: once awaiting payment, once closed. *)
Definition bill1 : Bill.t := Bill.mk "b1" "s1" 10%float "pending" None None.

Definition billed (sessionStatus : string) : State :=
  mkState [table1; table2]
    [TableSession.with_status sessionStatus session1]
    [sampleOrder "o1" "ready_for_pickup" "pending"] [bill1]
    [burger; soda] [User.mk "u1" (Some "Ada")] kitchenRedis [].

(** The state after one more effect has been recorded and nothing else has
    changed. *)
Definition logged (st : State) (e : Effect) : State :=
  mkState (tables st) (sessions st) (orders st) (bills st) (menuItems st)
          (users st) (redis st) (trace st ++ [e]).

(** Why a table cannot take a new session, in the words of the handlers. *)
Definition tableConflict (table : Table.t) : option string :=
  if negb (Table.isActive table) then Some "Table is not active"
  else if negb (String.eqb (Table.status table) "available")
  then Some "Table is not available"
  else None.

(** The conflicts of a socket request to start a session for client
    [userId] at the table with code [tableId], each with the error event the
    caller receives. *)
Inductive Conflict (st : State) (tableId userId : string) : Event -> Prop :=
| table_conflict table message :
    findOne (fun t => String.eqb (Table.tableId t) tableId) (tables st)
      = Some table ->
    tableConflict table = Some message ->
    Conflict st tableId userId (ev_error message None None)
| client_conflict table user existing :
    findOne (fun t => String.eqb (Table.tableId t) tableId) (tables st)
      = Some table ->
    tableConflict table = None ->
    findById User._id userId (users st) = Some user ->
    activeSessionOf userId st = Some existing ->
    Conflict st tableId userId
      (ev_error "You already have an active session at another table"
         (Some (TableSession._id existing)) (TableSession.tableId existing)).

(** The table invariant of the specification: the current-session reference
    is non-null exactly when the table is occupied. *)
Definition tableInv (t : Table.t) : Prop :=
  Table.currentSession t <> None <-> Table.status t = "occupied".

Definition tablesInv (st : State) : Prop := List.Forall tableInv (tables st).

Definition keepsTablesInv (a b : State) : Prop := tablesInv a -> tablesInv b.

(** The number of orders attached to [session], other than [orderId], whose
    payment status is not [paid]. *)
Definition unpaidOthers (orderId : Id) (session : TableSession.t) (st : State)
  : nat :=
  length (List.filter
            (fun o => includes (TableSession.orders session) (Order._id o)
                      && negb (String.eqb (Order._id o) orderId)
                      && negb (String.eqb (Order.paymentStatus o) "paid"))
            (orders st)).

(** A session awaiting payment with two orders, the first of them paid or
    not. *)
Definition awaiting (firstPayment : string) : State :=
  mkState [table1; table2; table3]
    [TableSession.mk "s1" None (Some "t2") (Some "u1") "payment_pending" 100
       None ["o1"; "o2"]]
    [sampleOrder "o1" "ready_for_pickup" firstPayment;
     sampleOrder "o2" "ready_for_pickup" "pending"]
    [bill1] [burger; soda] [User.mk "u1" (Some "Ada")] kitchenRedis [].

Definition payO2 : UpdatePayment.req := UpdatePayment.mk "o2" (Some "paid") None.

Definition awaitingSession : TableSession.t :=
  TableSession.mk "s1" None (Some "t2") (Some "u1") "payment_pending" 100 None
    ["o1"; "o2"].

(** What a committed status update is expected to leave in the trace after
    the write: the kitchen notice, when [req.io] is there and a kitchen
    socket is registered in Redis, and then the cache keys that are dropped. *)
Definition kitchenSocket (st : State) : option string :=
  if Redis.connected (redis st)
  then Redis.store (redis st) !! KITCHEN_SOCKET_KEY
  else None.

Definition kitchenNotice (io : bool) (st : State) (ev : Event) : list Effect :=
  if io && truthy (kitchenSocket st)
  then [Emit (to_room (orElse (kitchenSocket st) "")) ev;
        CacheDelete KITCHEN_ORDERS_CACHE]
  else [].

Definition kitchenKeys (previousStatus status : string) : list string :=
  if (includes activeStatuses previousStatus && includes completedStatuses status)
     || (includes completedStatuses previousStatus && includes activeStatuses status)
  then [KITCHEN_ORDERS_CACHE; COMPLETED_ORDERS_CACHE]
  else if includes activeStatuses previousStatus && includes activeStatuses status
  then [KITCHEN_ORDERS_CACHE]
  else if includes completedStatuses previousStatus
          && includes completedStatuses status
  then [COMPLETED_ORDERS_CACHE]
  else [].

Definition statusUpdateKeys (st : State) (order : Order.t)
    (previousStatus status : string) : list string :=
  if Redis.connected (redis st)
  then (ORDER_DETAILS_CACHE_PREFIX +:+ Order._id order)
       :: match Order.user order with
          | Some user => [USER_ORDERS_CACHE_PREFIX +:+ user]
          | None => []
          end
       ++ match sessionOfOrder (Order._id order) st with
          | Some session =>
              [SESSION_ORDERS_CACHE_PREFIX +:+ TableSession._id session]
          | None => []
          end
       ++ kitchenKeys previousStatus status
  else [].

(** The collections and the availability of Redis are the same in both
    states. *)
Definition sameData (a b : State) : Prop :=
  tables b = tables a /\ sessions b = sessions a /\ orders b = orders a
  /\ bills b = bills a
  /\ Redis.connected (redis b) = Redis.connected (redis a).

(** Running [m] from [st] completes with [a], touches no collection and
    adds exactly the effects [effs] to the trace. *)
Definition performs {R A} (m : Handler R A) (st : State) (a : A)
    (effs : list Effect) : Prop :=
  fst (m st) = Ok a
  /\ sameData st (snd (m st))
  /\ trace (snd (m st)) = trace st ++ effs.

(** [a] occurs before an occurrence of [b] in the trace [l]. *)
Definition precedes (a b : Effect) (l : list Effect) : Prop :=
  exists l1 l2 l3, l = l1 ++ a :: l2 ++ b :: l3.

Definition cancelO1 : UpdateStatus.req :=
  UpdateStatus.mk "o1" (Some "cancelled") true.

Definition deliverO1 : UpdateStatus.req :=
  UpdateStatus.mk "o1" (Some "delivered") true.

(** The cache key [key] is deleted somewhere in the effects [effs]. *)
Definition dropped (key : string) (effs : list Effect) : Prop :=
  In (CacheDelete key) effs.

(** The status change crosses the boundary between the active and the
    completed statuses, as [updateOrderStatus] tests it. *)
Definition crosses (previousStatus status : string) : bool :=
  (includes activeStatuses previousStatus && includes completedStatuses status)
  || (includes completedStatuses previousStatus && includes activeStatuses status).

(** The order collection is the same in both states. *)
Definition sameOrders (a b : State) : Prop := orders b = orders a.

(** ** Further vocabulary *)

(** A line that the loop of [createOrder] lets through: id and quantity are
    truthy and the menu item exists and is available. *)
Definition lineAcceptable (st : State) (item : ItemReq.t) : bool :=
  match ItemReq.menuItemId item, ItemReq.quantity item with
  | Some menuItemId, Some quantity =>
      truthy (Some menuItemId) && truthyNum (Some quantity)
      && match findById MenuItem._id menuItemId (menuItems st) with
         | Some menuItem => MenuItem.isAvailable menuItem
         | None => false
         end
  | _, _ => false
  end.

(** The trace of [b] is the trace of [a] followed by effects that all
    satisfy [P]. *)
Definition extendsBy (P : Effect -> Prop) (a b : State) : Prop :=
  exists new, trace b = trace a ++ new /\ List.Forall P new.

(** The only cache key [createOrder] may delete. *)
Definition kitchenDeleteOnly (e : Effect) : Prop :=
  forall key, e = CacheDelete key -> key = KITCHEN_ORDERS_CACHE.

(** The order collection of [b] is that of [a] (used for the handlers that
    never write an order), idem for bills. *)
Definition sameBills (a b : State) : Prop := bills b = bills a.

Definition takeAwayReq (orderType : string) : CreateOrder.req :=
  CreateOrder.mk None twoLines None None None None None (Some orderType) None
    true.

Definition staleLines : list ItemReq.t :=
  [ItemReq.mk (Some "m1") (Some 2%float) None;
   ItemReq.mk (Some "m9") (Some 1%float) None].

(** The Redis store after the cache deletions recorded in [new] have been
    applied to [store], in order. *)
Definition replay (new : list Effect) (store : gmap string string)
  : gmap string string :=
  fold_left (fun s e => match e with
                        | CacheDelete key => delete key s
                        | _ => s
                        end) new store.

(** Between [a] and [b] the trace grew by some effects, Redis lost exactly
    the keys whose deletion was recorded, and its availability is the same. *)
Definition replays (a b : State) : Prop :=
  exists new,
    trace b = trace a ++ new
    /\ Redis.store (redis b) = replay new (Redis.store (redis a))
    /\ Redis.connected (redis b) = Redis.connected (redis a).

Definition prepareO1 : UpdateStatus.req :=
  UpdateStatus.mk "o1" (Some "preparing") true.

Definition offline (st : State) : State :=
  set_redis (Redis.mk false (Redis.store (redis st))) st.

(** The sample restaurant with stale entries in the cache. *)
Definition cachedRestaurant : State :=
  set_redis
    (Redis.mk true
       {[ KITCHEN_SOCKET_KEY := "sock9";
          "order:details:o1" := "stale";
          "order:user:u1" := "stale";
          "order:session:s1" := "stale";
          "kitchen:active_orders" := "stale" ]})
    restaurant.

Definition settleB1 (paymentStatus : string) : SettleBill.req :=
  SettleBill.mk "b1" (Some paymentStatus) (Some "card") (Some "u1").

(** A socket handler refused the request: the caller got one [error] event
    and nothing was written. *)
Definition refused (st st' : State) : Prop :=
  sameData st st'
  /\ exists message sessionId tableId,
       trace st' = trace st ++ [Emit to_caller (ev_error message sessionId tableId)].


(** ** Theorems *)

Example createOrder_scenario :
  let '(reply, st) := createOrder 200 "o2" (dineInReq (Some "s1")) restaurant in
  (exists o, reply = Json 201 (b_order "Order created successfully" o)
     /\ Order.subtotal o = 13.5%float /\ Order.deliveryFee o = 0%float
     /\ Order.total o = 13.5%float)
  /\ option_map TableSession.orders (findById TableSession._id "s1" (sessions st))
     = Some ["o1"; "o2"].
Proof. vm_compute. split; [eexists; repeat split|reflexivity]. Qed.

(** *** Collections *)

Section CollectionFacts.
Context {D : Type} (key : D -> Id).

Lemma findById_key (id : Id) (c : list D) (d : D) :
  findById key id c = Some d -> key d = id.
Proof.
  unfold findById, findOne. intros H.
  apply find_some in H as [_ H]. now apply String.eqb_eq.
Qed.

Lemma findById_In (id : Id) (c : list D) (d : D) :
  findById key id c = Some d -> In d c.
Proof.
  unfold findById, findOne. intros H. now apply find_some in H.
Qed.

Lemma findById_none_existsb (id : Id) (c : list D) :
  findById key id c = None ->
  existsb (fun x => String.eqb (key x) id) c = false.
Proof.
  unfold findById, findOne. induction c as [|x c IH]; cbn; [easy|].
  destruct (String.eqb (key x) id); [discriminate|]. exact IH.
Qed.

Lemma findById_app_fresh (id : Id) (c : list D) (d : D) :
  findById key id c = None -> key d = id ->
  findById key id (c ++ [d]) = Some d.
Proof.
  unfold findById, findOne. intros Hnone Hk.
  induction c as [|x c IH]; cbn in *.
  - rewrite Hk, String.eqb_refl. reflexivity.
  - destruct (String.eqb (key x) id); [discriminate|]. now apply IH.
Qed.

Lemma findById_map_replace (c : list D) (d : D) :
  existsb (fun x => String.eqb (key x) (key d)) c = true ->
  findById key (key d)
    (map (fun x => if String.eqb (key x) (key d) then d else x) c) = Some d.
Proof.
  unfold findById, findOne. induction c as [|x c IH]; cbn; [discriminate|].
  destruct (String.eqb (key x) (key d)) eqn:E; cbn.
  - intros _. now rewrite String.eqb_refl.
  - intros H. rewrite E. now apply IH.
Qed.

(** Reading back what was just saved. *)
Lemma findById_save (d : D) (c : list D) :
  findById key (key d) (save key d c) = Some d.
Proof.
  unfold save.
  destruct (existsb (fun x => String.eqb (key x) (key d)) c) eqn:E.
  - now apply findById_map_replace.
  - apply findById_app_fresh; [|reflexivity].
    unfold findById, findOne.
    destruct (find (fun x => String.eqb (key x) (key d)) c) eqn:F; [|reflexivity].
    apply find_some in F as [Hin Hk].
    assert (existsb (fun x => String.eqb (key x) (key d)) c = true)
      by (apply existsb_exists; eauto).
    congruence.
Qed.

(** Saving one document leaves the others as they were. *)
Lemma findById_save_other (id : Id) (d : D) (c : list D) :
  key d <> id -> findById key id (save key d c) = findById key id c.
Proof.
  intros Hne. unfold save, findById, findOne.
  destruct (existsb (fun x => String.eqb (key x) (key d)) c).
  - induction c as [|x c IH]; cbn; [reflexivity|].
    destruct (String.eqb (key x) (key d)) eqn:E.
    + apply String.eqb_eq in E.
      assert (String.eqb (key d) id = false) as -> by now apply String.eqb_neq.
      assert (String.eqb (key x) id = false) as -> by (apply String.eqb_neq; congruence).
      exact IH.
    + destruct (String.eqb (key x) id); [reflexivity|exact IH].
  - induction c as [|x c IH]; cbn.
    + assert (String.eqb (key d) id = false) as -> by now apply String.eqb_neq.
      reflexivity.
    + destruct (String.eqb (key x) id); [reflexivity|exact IH].
Qed.

Lemma In_save (x d : D) (c : list D) :
  In x (save key d c) -> x = d \/ In x c.
Proof.
  unfold save.
  destruct (existsb (fun x => String.eqb (key x) (key d)) c).
  - intros H. apply in_map_iff in H as (y & Hy & Hin).
    destruct (String.eqb (key y) (key d)); [left; congruence|right; congruence].
  - intros H. apply in_app_or in H as [H|[H|[]]]; [now right|now left].
Qed.

Lemma Forall_save (P : D -> Prop) (d : D) (c : list D) :
  List.Forall P c -> P d -> List.Forall P (save key d c).
Proof.
  intros Hc Hd. apply List.Forall_forall. intros x Hx.
  apply In_save in Hx as [->|Hx]; [exact Hd|].
  now apply (proj1 (List.Forall_forall P c) Hc).
Qed.

End CollectionFacts.

(** *** The handler monad *)

Section Respects.
Context (rel : State -> State -> Prop).
Hypothesis rel_refl : forall st, rel st st.
Hypothesis rel_trans : forall a b c, rel a b -> rel b c -> rel a c.

Lemma respects_ret {R A} (a : A) : respects rel (@ret R A a).
Proof. intros st. apply rel_refl. Qed.

Lemma respects_exit {R A} (r : R) : respects rel (@exit R A r).
Proof. intros st. apply rel_refl. Qed.

Lemma respects_throw {R A} (e : Error) : respects rel (@throw R A e).
Proof. intros st. apply rel_refl. Qed.

Lemma respects_gets {R A} (f : State -> A) : respects rel (@gets R A f).
Proof. intros st. apply rel_refl. Qed.

Lemma respects_modify {R} (f : State -> State) :
  (forall st, rel st (f st)) -> respects rel (@modify R f).
Proof. intros H st. apply H. Qed.

Lemma respects_bind {R A B} (m : Handler R A) (k : A -> Handler R B) :
  respects rel m -> (forall a, respects rel (k a)) -> respects rel (bind m k).
Proof.
  intros Hm Hk st. unfold bind. specialize (Hm st).
  destruct (m st) as [[a|r|e] st1]; cbn in *; [|exact Hm|exact Hm].
  eapply rel_trans; [exact Hm|apply Hk].
Qed.

Lemma respects_when {R} (b : bool) (m : Handler R unit) :
  respects rel m -> respects rel (when b m).
Proof. intros H. destruct b; [exact H|apply respects_ret]. Qed.

Lemma respects_try_catch (body : Handler Reply Reply) (catch : Error -> Reply) :
  respects rel body -> forall st, rel st (snd (try_catch body catch st)).
Proof.
  intros H st. unfold try_catch. specialize (H st).
  destruct (body st) as [[a|r|e] st1]; exact H.
Qed.

Lemma respects_try_socket (body : Handler unit unit)
    (catch : Error -> Handler unit unit) :
  respects rel body -> (forall e, respects rel (catch e)) ->
  forall st, rel st (try_socket body catch st).
Proof.
  intros H Hc st. unfold try_socket. specialize (H st).
  destruct (body st) as [[a|r|e] st1]; cbn in *; [exact H|exact H|].
  eapply rel_trans; [exact H|apply Hc].
Qed.

End Respects.

Ltac unfold_ops :=
  unfold saveOrder, saveSession, saveTable, saveBill, deleteCache, isConnected,
    getValue, emit, log, releaseTable, findSessionByIdAndUpdate,
    findOrCreateBill, socketError, notifyKitchenAboutNewOrder,
    notifyKitchenAboutOrderUpdate, invalidateKitchen.

(** Walks through a handler: binds, guards and branches are split, the
    leaves are given to [leaf]. *)
Ltac respects_with Hrefl Htrans leaf :=
  repeat first
    [ apply (respects_ret _ Hrefl)
    | apply (respects_exit _ Hrefl)
    | apply (respects_throw _ Hrefl)
    | apply (respects_gets _ Hrefl)
    | apply (respects_when _ Hrefl)
    | apply (respects_bind _ Htrans); [|intros ?]
    | apply respects_modify; intros ?; leaf
    | match goal with
      | |- respects _ (match ?x with _ => _ end) => destruct x
      | |- respects _ (let _ := _ in _) => cbv zeta
      end ].

(** *** Pricing the lines *)

Lemma orderLines_pure (items : list ItemReq.t) :
  forall subtotal orderItems, respects eq (orderLines items subtotal orderItems).
Proof.
  induction items as [|item rest IH]; intros subtotal orderItems; cbn.
  - now apply respects_ret.
  - respects_with (@eq_refl State) (@eq_trans State) idtac. apply IH.
Qed.

Lemma orderLines_ok (items : list ItemReq.t) :
  forall subtotal orderItems st subtotal' lines st',
    orderLines items subtotal orderItems st = (Ok (subtotal', lines), st') ->
    exists new,
      lines = orderItems ++ new
      /\ Forall2 (lineOf st) items new
      /\ subtotal' = sumTotals subtotal new.
Proof.
  induction items as [|item rest IH]; intros subtotal orderItems st subtotal' lines st'.
  - cbn. unfold ret. intros [= <- <- <-]. exists []. rewrite app_nil_r.
    repeat split. constructor.
  - cbn [orderLines].
    destruct (ItemReq.menuItemId item) as [menuItemId|] eqn:Hid;
      [|unfold exit; discriminate].
    destruct (ItemReq.quantity item) as [quantity|] eqn:Hq;
      [|unfold exit; discriminate].
    destruct (negb (truthy (Some menuItemId)) || negb (truthyNum (Some quantity)));
      [unfold exit; discriminate|].
    unfold bind at 1, gets at 1.
    destruct (findById MenuItem._id menuItemId (menuItems st)) as [m|] eqn:Hm;
      [|unfold exit; discriminate].
    destruct (negb (MenuItem.isAvailable m)); [unfold exit; discriminate|].
    intros H. apply IH in H as (new & -> & Hall & ->).
    eexists (_ :: new). rewrite <- app_assoc. cbn. repeat split.
    constructor; [|exact Hall].
    exists menuItemId, quantity, m. cbn. repeat split; assumption.
Qed.

(** Case analysis on the innermost stuck test of the goal. *)
Ltac innermost_match :=
  match goal with
  | |- context [match ?x with _ => _ end] =>
      lazymatch x with
      | context [match _ with _ => _ end] => fail
      | _ => destruct x eqn:?
      end
  end.

Ltac known_match :=
  match goal with
  | H : ?x = _ |- context [match ?x with _ => _ end] => rewrite H
  end.

Ltac crunch :=
  repeat (unfold_ops; unfold bind, when, gets, modify, ret, exit, throw; cbn;
          repeat known_match; try innermost_match).

(** *** createOrder *)

Lemma sameOrders_refl st : sameOrders st st.
Proof. reflexivity. Qed.

Lemma sameOrders_trans a b c : sameOrders a b -> sameOrders b c -> sameOrders a c.
Proof. unfold sameOrders. congruence. Qed.

Lemma prepareOrder_pure now newId req : respects eq (prepareOrder now newId req).
Proof.
  unfold prepareOrder.
  respects_with (@eq_refl State) (@eq_trans State) idtac.
  apply orderLines_pure.
Qed.

Lemma attachAndNotify_orders req order : respects sameOrders (attachAndNotify req order).
Proof.
  unfold attachAndNotify. unfold_ops.
  respects_with sameOrders_refl sameOrders_trans ltac:(reflexivity).
Qed.

Lemma attachAndNotify_reply req order st :
  fst (attachAndNotify req order st)
    = Ok (Json 201 (b_order "Order created successfully" order))
  \/ fst (attachAndNotify req order st)
    = Exit (Json 404 (b_message "Session not found")).
Proof.
  unfold attachAndNotify. crunch; auto.
Qed.

Lemma prepareOrder_ok now newId req st o st' :
  prepareOrder now newId req st = (Ok o, st') ->
  st' = st
  /\ exists tableDbId subtotal lines,
       o = newOrder now newId req tableDbId subtotal lines
       /\ orderLines (CreateOrder.items req) 0%float [] st
          = (Ok (subtotal, lines), st).
Proof.
  intros H. split.
  - pose proof (prepareOrder_pure now newId req st) as P. now rewrite H in P.
  - revert H. unfold prepareOrder.
    destruct (_ || negb (truthy (CreateOrder.orderType req))); [discriminate|].
    destruct (_ && negb (truthy (CreateOrder.deviceId req))); [discriminate|].
    unfold when at 1 2. unfold bind at 1 2. unfold ret at 1 2.
    assert (U : forall s,
      when (truthy (CreateOrder.userId req))
        (do user <- gets (fun st0 =>
              findById User._id (orElse (CreateOrder.userId req) "") (users st0));
         match user with
         | Some _ => ret tt
         | None => @exit Reply unit (Json 404 (b_message "User not found"))
         end) s = (Ok tt, s)
      \/ exists r, when (truthy (CreateOrder.userId req))
        (do user <- gets (fun st0 =>
              findById User._id (orElse (CreateOrder.userId req) "") (users st0));
         match user with
         | Some _ => ret tt
         | None => @exit Reply unit (Json 404 (b_message "User not found"))
         end) s = (Exit r, s)).
    { intros s. crunch; eauto. }
    unfold bind at 1. destruct (U st) as [-> | [r ->]]; [|discriminate].
    unfold bind at 1.
    pose proof (orderLines_pure (CreateOrder.items req) 0%float [] st) as P.
    destruct (orderLines (CreateOrder.items req) 0%float [] st)
      as [[[subtotal lines]|r|e] st1]; cbn in P; subst st1; try discriminate.
    destruct (truthy (CreateOrder.tableId req)); cbn; intros [= <- <-]; eauto.
Qed.

Lemma newOrder_money now newId req st tableDbId subtotal lines st' :
  orderLines (CreateOrder.items req) 0%float [] st = (Ok (subtotal, lines), st') ->
  moneyInvariant st req
    (Order.with_updatedAt now (newOrder now newId req tableDbId subtotal lines)).
Proof.
  intros H. apply orderLines_ok in H as (new & -> & Hall & ->).
  unfold moneyInvariant, newOrder, deliveryFeeOf. cbn. auto.
Qed.

(** The early returns of the validation are 400 or 404 answers. *)
Lemma orderLines_exit (items : list ItemReq.t) :
  forall subtotal orderItems st r st',
    orderLines items subtotal orderItems st = (Exit r, st') ->
    exists msg, r = Json 400 (b_message msg) \/ r = Json 404 (b_message msg).
Proof.
  induction items as [|item rest IH]; intros subtotal orderItems st r st'.
  - cbn. discriminate.
  - cbn [orderLines].
    destruct (ItemReq.menuItemId item) as [menuItemId|];
      [|unfold exit; intros [= <- <-]; eauto].
    destruct (ItemReq.quantity item) as [quantity|];
      [|unfold exit; intros [= <- <-]; eauto].
    destruct (negb (truthy (Some menuItemId)) || negb (truthyNum (Some quantity)));
      [unfold exit; intros [= <- <-]; eauto|].
    unfold bind at 1, gets at 1.
    destruct (findById MenuItem._id menuItemId (menuItems st)) as [m|];
      [|unfold exit; intros [= <- <-]; eauto].
    destruct (negb (MenuItem.isAvailable m));
      [unfold exit; intros [= <- <-]; eauto|].
    apply IH.
Qed.

Lemma prepareOrder_exit now newId req st r st' :
  prepareOrder now newId req st = (Exit r, st') ->
  exists msg, r = Json 400 (b_message msg) \/ r = Json 404 (b_message msg).
Proof.
  unfold prepareOrder.
  destruct (_ || negb (truthy (CreateOrder.orderType req)));
    [cbn; intros [= <- <-]; eauto|].
  destruct (_ && negb (truthy (CreateOrder.deviceId req)));
    [cbn; intros [= <- <-]; eauto|].
  unfold when at 1 2. unfold bind at 1 2. unfold ret at 1 2.
  unfold bind at 1.
  destruct (truthy (CreateOrder.userId req)).
  - unfold when at 1. unfold bind at 1. unfold gets at 1.
    destruct (findById User._id _ (users st));
      [|cbn; intros [= <- <-]; eauto].
    unfold ret at 1. unfold bind at 1.
    destruct (orderLines (CreateOrder.items req) 0%float [] st)
      as [[[subtotal lines]|r0|e] st1] eqn:Hl.
    + destruct (truthy (CreateOrder.tableId req)); cbn; discriminate.
    + intros [= <- <-]. eapply orderLines_exit. exact Hl.
    + discriminate.
  - unfold when at 1. unfold ret at 1. unfold bind at 1.
    destruct (orderLines (CreateOrder.items req) 0%float [] st)
      as [[[subtotal lines]|r0|e] st1] eqn:Hl.
    + destruct (truthy (CreateOrder.tableId req)); cbn; discriminate.
    + intros [= <- <-]. eapply orderLines_exit. exact Hl.
    + discriminate.
Qed.

(** C4.  Whatever the request, [createOrder] either leaves the order
    collection as it was (and does not answer 201), or saves exactly one
    order, under the new id: every line of it carries the menu item's price
    in the store at order time, the requested quantity and their product as
    its total; its subtotal is the sum of the line totals; its delivery fee
    is 2.0 for a Delivery order and 0 otherwise; its total is subtotal plus
    delivery fee.  A 201 answer carries that order. *)
Theorem createOrder_money_invariant now newId req st :
  let '(reply, st') := createOrder now newId req st in
  (orders st' = orders st /\ forall b, reply <> Json 201 b)
  \/ exists o,
       orders st' = save Order._id o (orders st)
       /\ findById Order._id newId (orders st') = Some o
       /\ moneyInvariant st req o
       /\ forall b, reply = Json 201 b ->
                    b = b_order "Order created successfully" o.
Proof.
  unfold createOrder, try_catch, createOrder_body.
  unfold bind at 1.
  destruct (prepareOrder now newId req st) as [[draft|r|e] st1] eqn:Hprep.
  - apply prepareOrder_ok in Hprep as (-> & tableDbId & subtotal & lines & -> & Hlines).
    unfold bind at 1. unfold saveOrder.
    destruct (validateOrder _) as [path|] eqn:Hval.
    + cbn. left. split; [reflexivity|]. intros b. discriminate.
    + unfold bind, modify, log, ret; cbn.
      match goal with
      | |- context [attachAndNotify req ?o ?s] =>
          pose proof (attachAndNotify_orders req o s) as Hsame;
          pose proof (attachAndNotify_reply req o s) as Hreply;
          destruct (attachAndNotify req o s) as [out st2] eqn:Hrest
      end.
      unfold sameOrders in Hsame. cbn in Hsame, Hreply.
      assert (F : findById Order._id newId (orders st2)
                  = Some (Order.with_updatedAt now
                            (newOrder now newId req tableDbId subtotal lines))).
      { rewrite Hsame.
        apply (findById_save Order._id
                 (Order.with_updatedAt now
                    (newOrder now newId req tableDbId subtotal lines))). }
      pose proof (newOrder_money now newId req st tableDbId subtotal lines st Hlines)
        as Hmoney.
      destruct Hreply as [-> | ->]; cbn; right; eexists;
        (split; [exact Hsame|split; [exact F|split; [exact Hmoney|]]]).
      * intros b [= <-]. reflexivity.
      * intros b. discriminate.
  - pose proof (prepareOrder_pure now newId req st) as P. rewrite Hprep in P.
    cbn in P. subst st1. left. split; [reflexivity|].
    intros b ->. apply prepareOrder_exit in Hprep as [msg [H|H]]; discriminate.
  - pose proof (prepareOrder_pure now newId req st) as P. rewrite Hprep in P.
    cbn in P. subst st1. left. split; [reflexivity|]. intros b.
    destruct e. discriminate.
Qed.

(** C10.  A request that passes the validation of [createOrder] and names a
    session that does not exist is answered 404 "Session not found", and yet
    the order built from it has been written: it is in the order collection
    under the new id, the write is the only effect of the call, and no
    session has changed. *)
Theorem createOrder_session_not_found now newId req st draft sid :
  fst (prepareOrder now newId req st) = Ok draft ->
  validateOrder draft = None ->
  CreateOrder.sessionId req = Some sid ->
  truthy (Some sid) = true ->
  findById TableSession._id sid (sessions st) = None ->
  let '(reply, st') := createOrder now newId req st in
  reply = Json 404 (b_message "Session not found")
  /\ findById Order._id newId (orders st') = Some (Order.with_updatedAt now draft)
  /\ orders st' = save Order._id (Order.with_updatedAt now draft) (orders st)
  /\ trace st' = trace st ++ [DbWrite "orders" newId]
  /\ sessions st' = sessions st.
Proof.
  intros Hprep Hval Hsid Htruthy Hnone.
  destruct (prepareOrder now newId req st) as [out st1] eqn:E.
  cbn in Hprep. subst out.
  pose proof (prepareOrder_ok _ _ _ _ _ _ E) as (-> & tableDbId & subtotal & lines & Hd & _).
  assert (Hid : Order._id draft = newId) by (subst draft; reflexivity).
  unfold createOrder, try_catch, createOrder_body.
  unfold bind at 1. rewrite E.
  unfold bind at 1. unfold saveOrder. rewrite Hval.
  unfold attachAndNotify. rewrite Hsid. rewrite Htruthy.
  unfold_ops. unfold bind, when, gets, modify, ret, exit. cbn.
  rewrite Hnone. cbn. rewrite Hid.
  repeat split.
  rewrite <- Hid.
  apply (findById_save Order._id (Order.with_updatedAt now draft)).
Qed.

Lemma createOrder_session_not_found_witness :
  let '(reply, st') :=
    createOrder 200 "o2" (dineInReq (Some "nosuch")) restaurant in
  reply = Json 404 (b_message "Session not found")
  /\ findById Order._id "o2" (orders st')
     = Some (Order.with_updatedAt 200
               (newOrder 200 "o2" (dineInReq (Some "nosuch")) (Some "t2")
                  13.5%float
                  [OrderItem.mk "m1" "Burger" 5%float 2%float 10%float ""
                     "prod_Burger";
                   OrderItem.mk "m2" "Soda" 3.5%float 1%float 3.5%float ""
                     "prod_Soda"]))
  /\ orders st'
     = save Order._id
         (Order.with_updatedAt 200
            (newOrder 200 "o2" (dineInReq (Some "nosuch")) (Some "t2")
               13.5%float
               [OrderItem.mk "m1" "Burger" 5%float 2%float 10%float ""
                  "prod_Burger";
                OrderItem.mk "m2" "Soda" 3.5%float 1%float 3.5%float ""
                  "prod_Soda"]))
         (orders restaurant)
  /\ trace st' = trace restaurant ++ [DbWrite "orders" "o2"]
  /\ sessions st' = sessions restaurant.
Proof.
  apply (createOrder_session_not_found 200 "o2" (dineInReq (Some "nosuch"))
           restaurant _ "nosuch"); vm_compute; reflexivity.
Defined.

(** *** Attaching an order to a session *)

Lemma occurrences_app id l1 l2 :
  occurrences id (l1 ++ l2) = occurrences id l1 + occurrences id l2.
Proof. unfold occurrences. now rewrite List.filter_app, length_app. Qed.

Lemma attach_orders id s :
  TableSession.orders (attach id s) = TableSession.orders s ++ [id].
Proof. reflexivity. Qed.

Lemma attach_occurrences id s :
  occurrences id (TableSession.orders (attach id s))
  = S (occurrences id (TableSession.orders s)).
Proof.
  rewrite attach_orders, occurrences_app. unfold occurrences. cbn.
  rewrite String.eqb_refl. cbn. lia.
Qed.

(** C8, as stated, fails: attaching an order id that the session already
    holds leaves two occurrences of it, and attaching twice differs from
    attaching once. *)
Lemma attach_twice_duplicates :
  TableSession.orders (attach "o1" session1) = ["o1"; "o1"]
  /\ occurrences "o1" (TableSession.orders (attach "o1" session1)) = 2
  /\ attach "o2" (attach "o2" session1) <> attach "o2" session1.
Proof. repeat split. discriminate. Qed.

(** C8, amended.  [createOrder] attaches by an unconditional push: when the
    request passes validation and names an existing session, the session is
    written back with the new order's id appended at the end of its order
    list, which adds one occurrence of that id to those the list already
    had. *)
Theorem createOrder_attach_appends now newId req st draft sid session :
  fst (prepareOrder now newId req st) = Ok draft ->
  validateOrder draft = None ->
  CreateOrder.sessionId req = Some sid ->
  truthy (Some sid) = true ->
  findById TableSession._id sid (sessions st) = Some session ->
  exists session',
    findById TableSession._id sid (sessions (snd (createOrder now newId req st)))
      = Some session'
    /\ session' = attach newId session
    /\ TableSession.orders session' = TableSession.orders session ++ [newId]
    /\ occurrences newId (TableSession.orders session')
       = S (occurrences newId (TableSession.orders session)).
Proof.
  intros Hprep Hval Hsid Htruthy Hsome.
  destruct (prepareOrder now newId req st) as [out st1] eqn:E.
  cbn in Hprep. subst out.
  pose proof (prepareOrder_ok _ _ _ _ _ _ E) as (-> & tableDbId & subtotal & lines & Hd & _).
  assert (Hid : Order._id draft = newId) by (subst draft; reflexivity).
  pose proof (findById_key _ _ _ _ Hsome) as Hkey.
  exists (attach newId session).
  split; [|split; [reflexivity|split; [reflexivity|apply attach_occurrences]]].
  assert (F : forall c, findById TableSession._id sid
                (save TableSession._id (attach newId session) c)
              = Some (attach newId session)).
  { intros c. rewrite <- Hkey at 1.
    apply (findById_save TableSession._id (attach newId session)). }
  unfold createOrder, try_catch, createOrder_body.
  unfold bind at 1. rewrite E.
  unfold bind at 1. unfold saveOrder. rewrite Hval.
  unfold attachAndNotify. rewrite Hsid. rewrite Htruthy.
  unfold_ops. unfold bind, when, gets, modify, ret, exit. cbn.
  rewrite Hsome. cbn. rewrite Hid.
  crunch; apply F.
Qed.

Lemma createOrder_attach_appends_witness :
  exists session',
    findById TableSession._id "s1"
      (sessions (snd (createOrder 200 "o2" (dineInReq (Some "s1")) restaurant)))
      = Some session'
    /\ session' = attach "o2" session1
    /\ TableSession.orders session' = TableSession.orders session1 ++ ["o2"]
    /\ occurrences "o2" (TableSession.orders session')
       = S (occurrences "o2" (TableSession.orders session1)).
Proof.
  apply (createOrder_attach_appends 200 "o2" (dineInReq (Some "s1")) restaurant
           (newOrder 200 "o2" (dineInReq (Some "s1")) (Some "t2") 13.5%float
              [OrderItem.mk "m1" "Burger" 5%float 2%float 10%float ""
                 "prod_Burger";
               OrderItem.mk "m2" "Soda" 3.5%float 1%float 3.5%float ""
                 "prod_Soda"])
           "s1" session1); vm_compute; reflexivity.
Defined.

(** *** Bill generation *)

(** C3, as stated, fails on the end-session path: for a closed session that
    has a bill, the request is refused with 400 "Session is already closed"
    and the answer carries no bill id. *)
Lemma endSessionAndGenerateBill_closed_hides_bill :
  billOfSession "s1" (billed "closed") = Some bill1
  /\ endSessionAndGenerateBill "b2" "s1" (billed "closed")
     = (Json 400 (b_message "Session is already closed"), billed "closed").
Proof. split; reflexivity. Qed.

(** C3, amended.  For a session that already has a bill:
    [generateBillForSession] answers 400 with the existing bill's id and
    changes nothing; [endSessionAndGenerateBill] never touches the bill
    collection, and when the session exists and is not closed it answers
    200 with the existing bill's id, total and payment status.  In both
    cases no second bill is created and the stored total is unchanged. *)
Theorem bill_generation_idempotent newId sid st bill :
  billOfSession sid st = Some bill ->
  generateBillForSession newId sid st
    = (Json 400 (b_bill_exists "Bill already exists for this session"
                   (Bill._id bill)), st)
  /\ bills (snd (endSessionAndGenerateBill newId sid st)) = bills st
  /\ forall session,
       findById TableSession._id sid (sessions st) = Some session ->
       String.eqb (TableSession.status session) "closed" = false ->
       fst (endSessionAndGenerateBill newId sid st)
       = Json 200 (b_bill "Session ended and bill generated successfully"
                     (Bill._id bill) (Bill.total bill) (Bill.paymentStatus bill)).
Proof.
  intros Hbill. split; [|split].
  - unfold generateBillForSession, try_catch, generateBillForSession_body.
    unfold bind, gets, exit. now rewrite Hbill.
  - unfold endSessionAndGenerateBill, try_catch, endSessionAndGenerateBill_body.
    unfold_ops. unfold bind, gets, exit, modify, ret. cbn.
    destruct (findById TableSession._id sid (sessions st)); [|reflexivity].
    destruct (String.eqb (TableSession.status t) "closed"); [reflexivity|].
    cbn. rewrite Hbill. reflexivity.
  - intros session Hs Hopen.
    unfold endSessionAndGenerateBill, try_catch, endSessionAndGenerateBill_body.
    unfold_ops. unfold bind, gets, exit, modify, ret. cbn.
    rewrite Hs, Hopen. cbn. rewrite Hbill. reflexivity.
Qed.

Lemma bill_generation_idempotent_witness :
  generateBillForSession "b2" "s1" (billed "payment_pending")
    = (Json 400 (b_bill_exists "Bill already exists for this session" "b1"),
       billed "payment_pending")
  /\ bills (snd (endSessionAndGenerateBill "b2" "s1" (billed "payment_pending")))
     = [bill1]
  /\ forall session,
       findById TableSession._id "s1" (sessions (billed "payment_pending"))
         = Some session ->
       String.eqb (TableSession.status session) "closed" = false ->
       fst (endSessionAndGenerateBill "b2" "s1" (billed "payment_pending"))
       = Json 200 (b_bill "Session ended and bill generated successfully"
                     "b1" 10%float "pending").
Proof.
  apply (bill_generation_idempotent "b2" "s1" (billed "payment_pending") bill1).
  reflexivity.
Defined.

(** *** Starting a session *)

Lemma startSessionSocket_conflict viaQr now newId tableId userId st ev :
  truthy (Some tableId) = true ->
  truthy (Some userId) = true ->
  Conflict st tableId userId ev ->
  startSessionSocket viaQr now newId (Some tableId) (Some userId) st
  = (Exit tt, logged st (Emit to_caller ev)).
Proof.
  intros Ht Hu Hc. unfold startSessionSocket.
  rewrite Ht, Hu. cbn in Ht, Hu.
  apply negb_true_iff in Ht, Hu.
  unfold orElse. rewrite Ht, Hu.
  unfold when at 1. unfold bind at 1. unfold ret at 1.
  unfold bind at 1. unfold gets at 1. cbn [negb orb].
  destruct Hc as [table message Htable Hmsg | table user existing Htable Hmsg Huser Hex];
    rewrite Htable; unfold tableConflict in Hmsg.
  - destruct (negb (Table.isActive table)).
    + injection Hmsg as <-. reflexivity.
    + destruct (negb (String.eqb (Table.status table) "available"));
        [|discriminate].
      injection Hmsg as <-. reflexivity.
  - destruct (negb (Table.isActive table)); [discriminate|].
    destruct (negb (String.eqb (Table.status table) "available"));
      [discriminate|].
    unfold when, bind, ret, gets. rewrite Huser, Hex. reflexivity.
Qed.

(** C6, as stated, fails: the HTTP handler refuses an inactive table with
    status 400, not 409. *)
Lemma startTableSession_inactive_is_400 :
  findById Table._id "t3" (tables restaurant) = Some table3
  /\ Table.isActive table3 = false
  /\ startTableSession 200 "s2" "t3" restaurant
     = (Json 400 (b_message "Table is not active"), restaurant)
  /\ forall b, fst (startTableSession 200 "s2" "t3" restaurant) <> Json 409 b.
Proof. repeat split. intros b. discriminate. Qed.

(** C6, amended.  A start-session request that meets a conflict creates no
    session and leaves the table unchanged.  Over HTTP ([startTableSession],
    which names no client) a table that is not active or not available is
    refused with status 400 and the state is untouched.  Over the socket
    ([initiate_session], [scan_qr_code]) the caller receives an [error]
    event and the only change is that emission; when the table is free and
    the client already holds an active session, the event carries that
    session's id. *)
Theorem session_start_conflicts now newId st :
  (forall tableId table message,
     findById Table._id tableId (tables st) = Some table ->
     tableConflict table = Some message ->
     startTableSession now newId tableId st
     = (Json 400 (b_message message), st))
  /\ (forall tableId userId ev,
        truthy (Some tableId) = true ->
        truthy (Some userId) = true ->
        Conflict st tableId userId ev ->
        initiate_session now newId (Some tableId) (Some userId) st
          = logged st (Emit to_caller ev)
        /\ scan_qr_code now newId (Some tableId) (Some userId) st
          = logged st (Emit to_caller ev)).
Proof.
  split.
  - intros tableId table message Htable Hmsg.
    unfold startTableSession, try_catch, startTableSession_body.
    unfold bind at 1. unfold gets at 1. rewrite Htable.
    unfold tableConflict in Hmsg.
    destruct (negb (Table.isActive table)).
    + injection Hmsg as <-. reflexivity.
    + destruct (negb (String.eqb (Table.status table) "available"));
        [|discriminate].
      injection Hmsg as <-. reflexivity.
  - intros tableId userId ev Ht Hu Hc.
    unfold initiate_session, scan_qr_code, try_socket.
    now rewrite !(startSessionSocket_conflict _ now newId tableId userId st ev Ht Hu Hc).
Qed.

Lemma session_start_conflicts_witness :
  startTableSession 200 "s2" "t2" restaurant
    = (Json 400 (b_message "Table is not available"), restaurant)
  /\ initiate_session 200 "s2" (Some "T1") (Some "u1") restaurant
     = logged restaurant
         (Emit to_caller
            (ev_error "You already have an active session at another table"
               (Some "s1") (Some "t2"))).
Proof.
  destruct (session_start_conflicts 200 "s2" restaurant) as [Hhttp Hsocket].
  split.
  - apply (Hhttp "t2" table2 "Table is not available"); reflexivity.
  - apply (Hsocket "T1" "u1"
             (ev_error "You already have an active session at another table"
                (Some (TableSession._id session1))
                (TableSession.tableId session1)));
      [reflexivity|reflexivity|].
    apply (client_conflict restaurant "T1" "u1" table1 (User.mk "u1" (Some "Ada"))
             session1); reflexivity.
Defined.

(** *** The table invariant *)

Lemma keepsTablesInv_refl st : keepsTablesInv st st.
Proof. intros H. exact H. Qed.

Lemma keepsTablesInv_trans a b c :
  keepsTablesInv a b -> keepsTablesInv b c -> keepsTablesInv a c.
Proof. unfold keepsTablesInv. auto. Qed.

Lemma tableInv_released t :
  tableInv (Table.with_currentSession None (Table.with_status "cleaning" t)).
Proof. unfold tableInv. cbn. split; [congruence|discriminate]. Qed.

Lemma tableInv_claimed t sid :
  tableInv (Table.with_currentSession (Some sid) (Table.with_status "occupied" t)).
Proof. unfold tableInv. cbn. split; [reflexivity|discriminate]. Qed.

Lemma tablesInv_saveTable st t :
  tableInv t -> tablesInv st ->
  tablesInv (set_tables (save Table._id t (tables st)) st).
Proof. intros Ht Hst. unfold tablesInv. cbn. now apply Forall_save. Qed.

(** A write to another collection, to Redis or to the trace keeps the
    tables; a table written by the session handlers is either released or
    claimed. *)
Ltac tables_leaf :=
  first
    [ intros H; exact H
    | intros H; apply tablesInv_saveTable;
      [first [apply tableInv_released | apply tableInv_claimed]|exact H] ].

Ltac keeps_tables :=
  unfold_ops;
  respects_with keepsTablesInv_refl keepsTablesInv_trans tables_leaf.

Lemma startTableSession_keeps now newId tableId :
  respects keepsTablesInv (startTableSession_body now newId tableId).
Proof. unfold startTableSession_body. keeps_tables. Qed.

Lemma endTableSession_keeps now sessionId :
  respects keepsTablesInv (endTableSession_body now sessionId).
Proof. unfold endTableSession_body. keeps_tables. Qed.

Lemma startSessionSocket_keeps viaQr now newId tableId userId :
  respects keepsTablesInv (startSessionSocket viaQr now newId tableId userId).
Proof. unfold startSessionSocket. keeps_tables. Qed.

Lemma end_session_keeps now newId sessionId tableId :
  respects keepsTablesInv (end_session_body now newId sessionId tableId).
Proof. unfold end_session_body. keeps_tables. Qed.

Lemma updatePaymentStatus_keeps now req :
  respects keepsTablesInv (updatePaymentStatus_body now req).
Proof. unfold updatePaymentStatus_body. keeps_tables. Qed.

Lemma updateBillPaymentStatus_keeps now req :
  respects keepsTablesInv (updateBillPaymentStatus_body now req).
Proof. unfold updateBillPaymentStatus_body. keeps_tables. Qed.

Lemma tablesInv_lookup st tableId table :
  tablesInv st -> findById Table._id tableId (tables st) = Some table ->
  tableInv table.
Proof.
  intros Hst Hfind. apply findById_In in Hfind.
  exact (proj1 (List.Forall_forall _ _) Hst _ Hfind).
Qed.

Lemma updateTableStatus_keeps now st tableId status table :
  tablesInv st ->
  findById Table._id tableId (tables st) = Some table ->
  status = "available"
  \/ (status = "occupied" <-> Table.status table = "occupied") ->
  tablesInv (snd (updateTableStatus now tableId (Some status) st)).
Proof.
  intros Hst Hfind Hside.
  pose proof (tablesInv_lookup _ _ _ Hst Hfind) as Hinv.
  unfold updateTableStatus, try_catch, updateTableStatus_body.
  destruct (truthy (Some status)) eqn:Htruthy; [|exact Hst].
  assert (Hor : orElse (Some status) "" = status).
  { cbn in *. now destruct (String.eqb status ""). }
  rewrite Hor.
  unfold when at 1. unfold bind at 1. cbn [negb]. unfold ret at 1.
  unfold bind at 1. unfold gets at 1. rewrite Hfind.
  unfold tableInv in Hinv.
  destruct (Table.currentSession table) as [cs|] eqn:Hcs.
  - destruct (String.eqb status "available") eqn:Hav.
    + apply String.eqb_eq in Hav. subst status.
      unfold_ops. unfold bind, gets, modify, ret.
      destruct (findById TableSession._id cs (sessions st)); cbn;
        (apply Forall_save; [exact Hst|]);
        unfold tableInv; cbn; (split; [congruence|discriminate]).
    + apply String.eqb_neq in Hav.
      unfold_ops. unfold bind, gets, modify, ret. cbn.
      apply Forall_save; [exact Hst|].
      unfold tableInv. cbn. rewrite Hcs.
      destruct Hside as [Heq|Hiff]; [contradiction|].
      split; [intros _|discriminate].
      apply Hiff, Hinv. discriminate.
  - unfold_ops. unfold bind, gets, modify, ret. cbn.
    apply Forall_save; [exact Hst|].
    unfold tableInv. cbn. rewrite Hcs.
    split; [congruence|]. intros Hocc. exfalso.
    destruct Hside as [Heq|Hiff]; [subst status; discriminate|].
    apply Hiff in Hocc. apply Hinv in Hocc. congruence.
Qed.

(** C2, as stated, fails for [updateTableStatus]: an occupied table moved to
    cleaning keeps its session reference. *)
Lemma updateTableStatus_breaks_invariant :
  tablesInv restaurant
  /\ exists t,
       findById Table._id "t2"
         (tables (snd (updateTableStatus 200 "t2" (Some "cleaning") restaurant)))
       = Some t
       /\ Table.status t = "cleaning"
       /\ Table.currentSession t = Some "s1"
       /\ ~ tableInv t.
Proof.
  split.
  - unfold tablesInv, restaurant, tableInv. cbn.
    repeat constructor; cbn; try congruence; discriminate.
  - eexists. split; [vm_compute; reflexivity|].
    repeat split. unfold tableInv. cbn. intros [H _].
    assert (E : "cleaning" = "occupied") by (apply H; discriminate).
    discriminate.
Qed.

(** C2, amended.  Starting a session (HTTP or socket), ending a session
    (HTTP or socket) and the payment and bill cascades keep the invariant
    that every table has a current session exactly when it is occupied.
    [updateTableStatus] keeps it when the requested status is [available]
    (the session reference is cleared first), or when the request leaves the
    table on the same side of [occupied]; otherwise the status is written
    and the session reference is left as it was. *)
Theorem table_invariant_preserved now newId st :
  tablesInv st ->
  (forall tableId, tablesInv (snd (startTableSession now newId tableId st)))
  /\ (forall sessionId, tablesInv (snd (endTableSession now sessionId st)))
  /\ (forall tableId userId,
        tablesInv (initiate_session now newId tableId userId st)
        /\ tablesInv (scan_qr_code now newId tableId userId st))
  /\ (forall sessionId tableId,
        tablesInv (end_session now newId sessionId tableId st))
  /\ (forall req, tablesInv (snd (updatePaymentStatus now req st)))
  /\ (forall req, tablesInv (snd (updateBillPaymentStatus now req st)))
  /\ (forall tableId status table,
        findById Table._id tableId (tables st) = Some table ->
        status = "available"
        \/ (status = "occupied" <-> Table.status table = "occupied") ->
        tablesInv (snd (updateTableStatus now tableId (Some status) st))).
Proof.
  intros Hst. repeat split.
  - intros tableId.
    exact (respects_try_catch _ _ _ (startTableSession_keeps now newId tableId) st Hst).
  - intros sessionId.
    exact (respects_try_catch _ _ _ (endTableSession_keeps now sessionId) st Hst).
  - refine (respects_try_socket _ keepsTablesInv_trans _ _
              (startSessionSocket_keeps false now newId tableId userId) _ st Hst).
    intros e. keeps_tables.
  - refine (respects_try_socket _ keepsTablesInv_trans _ _
              (startSessionSocket_keeps true now newId tableId userId) _ st Hst).
    intros e. keeps_tables.
  - intros sessionId tableId.
    refine (respects_try_socket _ keepsTablesInv_trans _ _
              (end_session_keeps now newId sessionId tableId) _ st Hst).
    intros e. keeps_tables.
  - intros req.
    exact (respects_try_catch _ _ _ (updatePaymentStatus_keeps now req) st Hst).
  - intros req.
    exact (respects_try_catch _ _ _ (updateBillPaymentStatus_keeps now req) st Hst).
  - intros tableId status table Hfind Hside.
    exact (updateTableStatus_keeps now st tableId status table Hst Hfind Hside).
Qed.

Lemma table_invariant_preserved_witness :
  (forall tableId, tablesInv (snd (startTableSession 200 "s2" tableId restaurant)))
  /\ (forall sessionId, tablesInv (snd (endTableSession 200 sessionId restaurant)))
  /\ (forall tableId userId,
        tablesInv (initiate_session 200 "s2" tableId userId restaurant)
        /\ tablesInv (scan_qr_code 200 "s2" tableId userId restaurant))
  /\ (forall sessionId tableId,
        tablesInv (end_session 200 "s2" sessionId tableId restaurant))
  /\ (forall req, tablesInv (snd (updatePaymentStatus 200 req restaurant)))
  /\ (forall req, tablesInv (snd (updateBillPaymentStatus 200 req restaurant)))
  /\ (forall tableId status table,
        findById Table._id tableId (tables restaurant) = Some table ->
        status = "available"
        \/ (status = "occupied" <-> Table.status table = "occupied") ->
        tablesInv (snd (updateTableStatus 200 tableId (Some status) restaurant))).
Proof.
  apply (table_invariant_preserved 200 "s2" restaurant).
  unfold tablesInv, restaurant, tableInv. cbn.
  repeat constructor; cbn; try congruence; discriminate.
Defined.

(** *** The payment cascade *)

Lemma countUnpaid_after_payment ids orderId paid (l : list Order.t) :
  Order._id paid = orderId ->
  Order.paymentStatus paid = "paid" ->
  length (List.filter
            (fun o => includes ids (Order._id o)
                      && negb (String.eqb (Order.paymentStatus o) "paid"))
            (map (fun x => if String.eqb (Order._id x) (Order._id paid)
                           then paid else x) l))
  = length (List.filter
              (fun o => includes ids (Order._id o)
                        && negb (String.eqb (Order._id o) orderId)
                        && negb (String.eqb (Order.paymentStatus o) "paid"))
              l).
Proof.
  intros <- Hpaid. induction l as [|x l IH]; [reflexivity|].
  cbn [map List.filter].
  destruct (String.eqb (Order._id x) (Order._id paid)) eqn:E.
  - rewrite Hpaid. change (String.eqb "paid" "paid") with true.
    cbn [negb]. rewrite !andb_false_r. cbn [andb]. exact IH.
  - cbn [negb]. rewrite andb_true_r.
    destruct (_ && _); cbn [length]; now rewrite IH.
Qed.

Lemma save_existing {D} (key : D -> Id) (d x : D) (c : list D) :
  findById key (key d) c = Some x ->
  save key d c = map (fun y => if String.eqb (key y) (key d) then d else y) c.
Proof.
  intros H. unfold save.
  assert (E : existsb (fun y => String.eqb (key y) (key d)) c = true).
  { apply existsb_exists. exists x. split.
    - eapply findById_In. exact H.
    - apply String.eqb_eq. eapply findById_key. exact H. }
  now rewrite E.
Qed.

(** C1.  Let the order belong to a session in status [payment_pending] and
    let [updatePaymentStatus] set it to [paid].  If no other attached order
    is unpaid, the session is stored as [closed] with [endTime] set to the
    time of the call and the session's table is stored with status
    [cleaning] and no current session.  If another attached order is still
    unpaid, the sessions and the tables are left as they were. *)
Theorem payment_cascade now req st order session :
  UpdatePayment.paymentStatus req = Some "paid" ->
  findById Order._id (UpdatePayment.orderId req) (orders st) = Some order ->
  sessionOfOrder (UpdatePayment.orderId req) st = Some session ->
  TableSession.status session = "payment_pending" ->
  let '(reply, st') := updatePaymentStatus now req st in
  (unpaidOthers (UpdatePayment.orderId req) session st = 0 ->
     findById TableSession._id (TableSession._id session) (sessions st')
       = Some (TableSession.with_endTime (Some now)
                 (TableSession.with_status "closed" session))
     /\ (forall table,
           lookupTable (TableSession.tableId session) st = Some table ->
           findById Table._id (Table._id table) (tables st')
             = Some (Table.with_currentSession None
                       (Table.with_status "cleaning" table)))
     /\ exists paymentId,
          reply = Json 200 (b_payment "Payment status updated successfully"
                              (UpdatePayment.orderId req) "paid" paymentId true))
  /\ (unpaidOthers (UpdatePayment.orderId req) session st <> 0 ->
        sessions st' = sessions st
        /\ tables st' = tables st
        /\ exists paymentId,
             reply = Json 200 (b_payment "Payment status updated successfully"
                                 (UpdatePayment.orderId req) "paid" paymentId
                                 false)).
Proof.
  intros Hpaid Hfind Hsession Hpending.
  pose proof (findById_key _ _ _ _ Hfind) as Hkey.
  unfold updatePaymentStatus, try_catch, updatePaymentStatus_body.
  rewrite Hpaid. cbn [truthy orElse negb String.eqb Ascii.eqb Bool.eqb].
  unfold when at 1. unfold bind at 1. unfold ret at 1.
  unfold bind at 1. unfold gets at 1. rewrite Hfind.
  unfold bind at 1. unfold saveOrder.
  set (paidOrder := Order.with_updatedAt now
         (if truthy (UpdatePayment.paymentId req)
          then Order.with_paymentId (UpdatePayment.paymentId req)
                 (Order.with_paymentStatus "paid" order)
          else Order.with_paymentStatus "paid" order)).
  assert (Hpid : Order._id paidOrder = UpdatePayment.orderId req).
  { unfold paidOrder. now destruct (truthy (UpdatePayment.paymentId req)). }
  assert (Hps : Order.paymentStatus paidOrder = "paid").
  { unfold paidOrder. now destruct (truthy (UpdatePayment.paymentId req)). }
  assert (Hval : validatePayment
            (if truthy (UpdatePayment.paymentId req)
             then Order.with_paymentId (UpdatePayment.paymentId req)
                    (Order.with_paymentStatus "paid" order)
             else Order.with_paymentStatus "paid" order) = None).
  { now destruct (truthy (UpdatePayment.paymentId req)). }
  rewrite Hval. clearbody paidOrder.
  assert (Hsave : save Order._id paidOrder (orders st)
                  = map (fun y => if String.eqb (Order._id y) (Order._id paidOrder)
                                  then paidOrder else y) (orders st)).
  { apply (save_existing Order._id paidOrder order). now rewrite Hpid. }
  unfold_ops. unfold bind, when, gets, modify, ret.
  unfold sessionOfOrder, countUnpaid, lookupTable, unpaidOthers in *.
  cbn. rewrite Hsession, Hpending. cbn.
  rewrite Hsave.
  rewrite (countUnpaid_after_payment (TableSession.orders session)
             (UpdatePayment.orderId req) paidOrder (orders st) Hpid Hps).
  destruct (length _) as [|n] eqn:Hcount; cbn [Nat.eqb].
  - assert (Hs : forall c,
              findById TableSession._id (TableSession._id session)
                (save TableSession._id
                   (TableSession.with_endTime (Some now)
                      (TableSession.with_status "closed" session)) c)
              = Some (TableSession.with_endTime (Some now)
                        (TableSession.with_status "closed" session))).
    { intros c.
      apply (findById_save TableSession._id
               (TableSession.with_endTime (Some now)
                  (TableSession.with_status "closed" session))). }
    assert (Ht : forall table c,
              findById Table._id (Table._id table)
                (save Table._id
                   (Table.with_currentSession None
                      (Table.with_status "cleaning" table)) c)
              = Some (Table.with_currentSession None
                        (Table.with_status "cleaning" table))).
    { intros table c.
      apply (findById_save Table._id
               (Table.with_currentSession None
                  (Table.with_status "cleaning" table))). }
    crunch.
    all: (split; [intros _|intros ?; congruence]).
    all: rewrite ?Hpid, ?Hps.
    all: repeat split; eauto.
    all: try (intros table [= <-]; apply Ht).
    all: try (intros table; discriminate).
  - crunch.
    all: (split; [intros ?; congruence|intros _]).
    all: rewrite ?Hpid, ?Hps.
    all: repeat split; eauto.
Qed.

Lemma payment_cascade_witness :
  let '(reply, st') := updatePaymentStatus 200 payO2 (awaiting "paid") in
  (unpaidOthers "o2" awaitingSession (awaiting "paid") = 0 ->
     findById TableSession._id "s1" (sessions st')
       = Some (TableSession.with_endTime (Some 200%Z)
                 (TableSession.with_status "closed" awaitingSession))
     /\ (forall table,
           lookupTable (Some "t2") (awaiting "paid") = Some table ->
           findById Table._id (Table._id table) (tables st')
             = Some (Table.with_currentSession None
                       (Table.with_status "cleaning" table)))
     /\ exists paymentId,
          reply = Json 200 (b_payment "Payment status updated successfully"
                              "o2" "paid" paymentId true))
  /\ (unpaidOthers "o2" awaitingSession (awaiting "paid") <> 0 ->
        sessions st' = sessions (awaiting "paid")
        /\ tables st' = tables (awaiting "paid")
        /\ exists paymentId,
             reply = Json 200 (b_payment "Payment status updated successfully"
                                 "o2" "paid" paymentId false)).
Proof.
  apply (payment_cascade 200 payO2 (awaiting "paid")
           (sampleOrder "o2" "ready_for_pickup" "pending") awaitingSession);
    reflexivity.
Defined.

(** The two sides of the cascade on the sample session: paying the last
    unpaid order closes the session and releases the table, paying one of
    two unpaid orders changes neither. *)
Example cascade_on_last_order :
  unpaidOthers "o2" awaitingSession (awaiting "paid") = 0
  /\ option_map TableSession.status
       (findById TableSession._id "s1"
          (sessions (snd (updatePaymentStatus 200 payO2 (awaiting "paid")))))
     = Some "closed"
  /\ findById Table._id "t2"
       (tables (snd (updatePaymentStatus 200 payO2 (awaiting "paid"))))
     = Some (Table.mk "t2" "T2" None "cleaning" true None).
Proof. repeat split. Qed.

Example no_cascade_while_unpaid :
  unpaidOthers "o2" awaitingSession (awaiting "pending") = 1
  /\ sessions (snd (updatePaymentStatus 200 payO2 (awaiting "pending")))
     = sessions (awaiting "pending")
  /\ tables (snd (updatePaymentStatus 200 payO2 (awaiting "pending")))
     = tables (awaiting "pending").
Proof. repeat split. Qed.

(** *** updateOrderStatus *)

Lemma includes_In l s : includes l s = true <-> In s l.
Proof.
  unfold includes. rewrite existsb_exists. split.
  - intros (x & Hin & Heq). apply String.eqb_eq in Heq. now subst.
  - intros Hin. exists s. split; [exact Hin|apply String.eqb_refl].
Qed.

Lemma statusEnum_truthy status :
  includes statusEnum status = true -> truthy (Some status) = true.
Proof.
  intros H. cbn. destruct (String.eqb status "") eqn:E; [|reflexivity].
  apply String.eqb_eq in E. subst. discriminate.
Qed.

Lemma statusEnum_relevant status :
  includes statusEnum status = true ->
  includes kitchenRelevantStatuses status = true.
Proof.
  intros H. apply includes_In in H. apply includes_In.
  cbn in *. intuition.
Qed.

Lemma sameData_refl st : sameData st st.
Proof. repeat split. Qed.

Lemma sameData_trans a b c : sameData a b -> sameData b c -> sameData a c.
Proof. unfold sameData. intuition congruence. Qed.

Lemma performs_bind {R A B} (m : Handler R A) (k : A -> Handler R B) st a b e1 e2 :
  performs m st a e1 ->
  performs (k a) (snd (m st)) b e2 ->
  performs (bind m k) st b (e1 ++ e2).
Proof.
  unfold performs, bind. intros (Hf & Hd & Ht) (Hf2 & Hd2 & Ht2).
  destruct (m st) as [o s1]. cbn in *. subst o.
  repeat split; try apply (sameData_trans _ _ _ Hd Hd2); try exact Hf2.
  now rewrite Ht2, Ht, app_assoc.
Qed.

Lemma deleteCache_performs {R} key st :
  performs (@deleteCache R key) st tt
    (if Redis.connected (redis st) then [CacheDelete key] else []).
Proof.
  unfold performs, deleteCache, isConnected, log, bind, when, gets, modify, ret.
  cbn. destruct (Redis.connected (redis st)) eqn:E; cbn.
  - repeat split. now rewrite E.
  - repeat split. now rewrite app_nil_r.
Qed.

Lemma invalidateKitchen_performs {R} previousStatus status st :
  performs (@invalidateKitchen R previousStatus status) st tt
    (if Redis.connected (redis st)
     then map CacheDelete (kitchenKeys previousStatus status) else []).
Proof.
  unfold invalidateKitchen, kitchenKeys.
  destruct (_ || _).
  - pose proof (performs_bind (@deleteCache R KITCHEN_ORDERS_CACHE)
                  (fun _ => deleteCache COMPLETED_ORDERS_CACHE) st tt tt _ _
                  (deleteCache_performs _ st) (deleteCache_performs _ _)) as H.
    destruct (deleteCache_performs (R:=R) KITCHEN_ORDERS_CACHE st)
      as (_ & (_ & _ & _ & _ & Hc) & _).
    rewrite Hc in H. destruct (Redis.connected (redis st)); exact H.
  - destruct (_ && _).
    + pose proof (deleteCache_performs (R:=R) KITCHEN_ORDERS_CACHE st) as H.
      destruct (Redis.connected (redis st)); exact H.
    + destruct (_ && _).
      * pose proof (deleteCache_performs (R:=R) COMPLETED_ORDERS_CACHE st) as H.
        destruct (Redis.connected (redis st)); exact H.
      * unfold performs, ret. cbn.
        destruct (Redis.connected (redis st)); cbn; rewrite app_nil_r;
          repeat split.
Qed.

Lemma invalidateOrderCaches_performs {R} orderId order previousStatus status st :
  Order._id order = orderId ->
  performs (@invalidateOrderCaches R orderId order previousStatus status) st tt
    (map CacheDelete (statusUpdateKeys st order previousStatus status)).
Proof.
  intros <-.
  unfold performs, sameData, invalidateOrderCaches, statusUpdateKeys, kitchenKeys,
    sessionOfOrder.
  crunch; repeat split; rewrite <- ?app_assoc; try reflexivity;
    try congruence; try (now rewrite app_nil_r).
Qed.

Lemma statusUpdateKeys_sameData a b order previousStatus status :
  sameData a b ->
  statusUpdateKeys b order previousStatus status
  = statusUpdateKeys a order previousStatus status.
Proof.
  intros (_ & Hs & _ & _ & Hc). unfold statusUpdateKeys, sessionOfOrder.
  now rewrite Hc, Hs.
Qed.

Lemma notifyKitchenAboutOrderUpdate_performs {R} order previousStatus st :
  exists b,
    performs (@notifyKitchenAboutOrderUpdate R order previousStatus) st b
      (kitchenNotice true st
         (ev_order_status_updated (Order._id order) (Order.status order)
            previousStatus (Order.updatedAt order))).
Proof.
  unfold performs, sameData, notifyKitchenAboutOrderUpdate, kitchenNotice,
    kitchenSocket.
  unfold_ops. unfold bind, when, gets, modify, ret. cbn.
  destruct (Redis.connected (redis st)) eqn:E; cbn.
  - destruct (truthy (Redis.store (redis st) !! KITCHEN_SOCKET_KEY)); cbn.
    + rewrite E. cbn. exists true.
      repeat split; rewrite <- ?app_assoc; try reflexivity; congruence.
    + exists false.
      repeat split; rewrite ?app_nil_r; try reflexivity; congruence.
  - exists false.
    repeat split; rewrite ?app_nil_r; try reflexivity; congruence.
Qed.

Lemma notifyKitchenAboutNewOrder_performs {R} order st :
  exists b,
    performs (@notifyKitchenAboutNewOrder R order) st b
      (kitchenNotice true st
         (ev_new_kitchen_order (Order._id order) (Order.items order)
            (Order.orderType order) (kitchenTableId order)
            (Order.status order))).
Proof.
  unfold performs, sameData, notifyKitchenAboutNewOrder, kitchenNotice,
    kitchenSocket.
  unfold_ops. unfold bind, when, gets, modify, ret. cbn.
  destruct (Redis.connected (redis st)) eqn:E; cbn.
  - destruct (truthy (Redis.store (redis st) !! KITCHEN_SOCKET_KEY)); cbn.
    + rewrite E. cbn. exists true.
      repeat split; rewrite <- ?app_assoc; try reflexivity; congruence.
    + exists false.
      repeat split; rewrite ?app_nil_r; try reflexivity; congruence.
  - exists false.
    repeat split; rewrite ?app_nil_r; try reflexivity; congruence.
Qed.

Lemma ret_performs {R A} (a : A) st : performs (@ret R A a) st a [].
Proof. unfold performs, ret. cbn. rewrite app_nil_r. repeat split. Qed.

Lemma when_notify_performs {R} io order previousStatus st :
  performs (@when R io
              (do _ <- notifyKitchenAboutOrderUpdate order previousStatus; ret tt))
    st tt
    (kitchenNotice io st
       (ev_order_status_updated (Order._id order) (Order.status order)
          previousStatus (Order.updatedAt order))).
Proof.
  destruct io; cbn [when].
  - destruct (notifyKitchenAboutOrderUpdate_performs (R:=R) order previousStatus st)
      as [b Hb].
    pose proof (performs_bind _ (fun _ => ret tt) st b tt _ _ Hb
                  (ret_performs tt _)) as H.
    now rewrite app_nil_r in H.
  - apply ret_performs.
Qed.

(** A committed status update: the reply, the stored order and the effects
    in program order. *)
Lemma updateOrderStatus_committed now req st order status :
  UpdateStatus.status req = Some status ->
  findById Order._id (UpdateStatus.orderId req) (orders st) = Some order ->
  Order.status order <> status ->
  includes statusEnum status = true ->
  let order' := Order.with_updatedAt now (Order.with_status status order) in
  exists st',
    updateOrderStatus now req st
      = (Json 200 (b_order "Order status updated successfully" order'), st')
    /\ tables st' = tables st
    /\ sessions st' = sessions st
    /\ orders st' = save Order._id order' (orders st)
    /\ trace st'
       = trace st
         ++ DbWrite "orders" (UpdateStatus.orderId req)
            :: kitchenNotice (UpdateStatus.io req) st
                 (ev_order_status_updated (UpdateStatus.orderId req) status
                    (Order.status order) now)
            ++ map CacheDelete
                 (statusUpdateKeys st order (Order.status order) status).
Proof.
  intros Hstatus Hfind Hne Henum order'.
  pose proof (findById_key _ _ _ _ Hfind) as Hkey.
  pose proof (statusEnum_truthy _ Henum) as Htruthy.
  pose proof (statusEnum_relevant _ Henum) as Hrel.
  apply String.eqb_neq in Hne.
  unfold updateOrderStatus, try_catch, updateOrderStatus_body.
  rewrite Hstatus, Htruthy.
  assert (Hor : orElse (Some status) "" = status).
  { cbn in *. now destruct (String.eqb status ""). }
  rewrite Hor.
  unfold when at 1. unfold bind at 1. cbn [negb]. unfold ret at 1.
  unfold bind at 1. unfold gets at 1. rewrite Hfind, Hne.
  unfold bind at 1. unfold saveOrder, validateStatus.
  cbn [Order.status Order.with_status Order.with_updatedAt].
  rewrite Henum, Hrel, orb_true_r, andb_true_r.
  unfold bind at 1 2. unfold modify at 1, log at 1, modify at 1, ret at 1.
  cbn [fst snd set_orders tables sessions orders bills menuItems users redis
       trace Order._id Order.with_updatedAt].
  change (Order.with_updatedAt now
            (Order.with_updatedAt now (Order.with_status status order)))
    with order'.
  match goal with
  | |- context [bind ?m ?k ?s] => set (s1 := s)
  end.
  pose proof (when_notify_performs (R:=Reply) (UpdateStatus.io req) order'
                (Order.status order) s1) as H1.
  set (m1 := when (UpdateStatus.io req)
               (do _ <- notifyKitchenAboutOrderUpdate order' (Order.status order);
                ret tt)) in *.
  pose proof (invalidateOrderCaches_performs (R:=Reply) (UpdateStatus.orderId req)
                order' (Order.status order) status (snd (m1 s1)) Hkey) as H2.
  pose proof (performs_bind _
                (fun _ => ret (Json 200
                   (b_order "Order status updated successfully" order')))
                (snd (m1 s1)) tt _ _ _ H2 (ret_performs _ _)) as H3.
  pose proof (performs_bind m1
                (fun _ =>
                   run invalidateOrderCaches (UpdateStatus.orderId req) order'
                         (Order.status order) status;
                   ret (Json 200
                          (b_order "Order status updated successfully" order')))
                s1 tt _ _ _ H1 H3) as (Hf & Hd & Ht).
  destruct H1 as (_ & Hd1 & _).
  rewrite (statusUpdateKeys_sameData _ _ _ _ _ Hd1) in Ht.
  match type of Hf with
  | fst (?t s1) = _ => destruct (t s1) as [o s2] eqn:E
  end.
  cbn in Hf, Hd, Ht. subst o.
  exists s2. destruct Hd as (Htab & Hses & Hord & _).
  split; [reflexivity|]. split; [exact Htab|]. split; [exact Hses|].
  split; [exact Hord|].
  rewrite Ht. subst s1. cbn. rewrite Hkey, app_nil_r, <- app_assoc.
  reflexivity.
Qed.

(** X4.  The parts of the status-update rule that hold: a missing status is
    refused, a missing order is not found, the current status is a no-op
    without any effect, a change to a status of the schema's enumeration
    is written, and a change to any other status is rejected by the save
    without a write. *)
Lemma updateOrderStatus_semantics now req st :
  (truthy (UpdateStatus.status req) = false ->
   updateOrderStatus now req st
   = (Json 400 (b_failure "New status is required"), st))
  /\ (forall status,
        UpdateStatus.status req = Some status -> truthy (Some status) = true ->
        findById Order._id (UpdateStatus.orderId req) (orders st) = None ->
        updateOrderStatus now req st
        = (Json 404 (b_failure "Order not found"), st))
  /\ (forall status order,
        UpdateStatus.status req = Some status -> truthy (Some status) = true ->
        findById Order._id (UpdateStatus.orderId req) (orders st) = Some order ->
        Order.status order = status ->
        updateOrderStatus now req st
        = (Json 200 (b_order ("Order status is already " ++ status) order), st))
  /\ (forall status order,
        UpdateStatus.status req = Some status ->
        findById Order._id (UpdateStatus.orderId req) (orders st) = Some order ->
        Order.status order <> status ->
        includes statusEnum status = true ->
        fst (updateOrderStatus now req st)
        = Json 200 (b_order "Order status updated successfully"
                      (Order.with_updatedAt now (Order.with_status status order)))
        /\ findById Order._id (UpdateStatus.orderId req)
             (orders (snd (updateOrderStatus now req st)))
           = Some (Order.with_updatedAt now (Order.with_status status order)))
  /\ (forall status order,
        UpdateStatus.status req = Some status -> truthy (Some status) = true ->
        findById Order._id (UpdateStatus.orderId req) (orders st) = Some order ->
        Order.status order <> status ->
        includes statusEnum status = false ->
        updateOrderStatus now req st = (Next (ValidationError "status"), st)).
Proof.
  split; [|split; [|split; [|split]]].
  - unfold updateOrderStatus, try_catch, updateOrderStatus_body.
    intros ->. reflexivity.
  - unfold updateOrderStatus, try_catch, updateOrderStatus_body.
    intros status -> Ht Hnone. rewrite Ht.
    unfold bind, when, gets, ret, exit. cbn. now rewrite Hnone.
  - unfold updateOrderStatus, try_catch, updateOrderStatus_body.
    intros status order -> Ht Hfind <-.
    assert (Hor : orElse (Some (Order.status order)) "" = Order.status order).
    { cbn in *. now destruct (String.eqb (Order.status order) ""). }
    rewrite Ht, Hor.
    unfold bind, when, gets, ret, exit. cbn. rewrite Hfind.
    now rewrite String.eqb_refl.
  - intros status order Hs Hfind Hne Henum.
    destruct (updateOrderStatus_committed now req st order status Hs Hfind Hne Henum)
      as (st' & E & _ & _ & Ho & _).
    rewrite E. cbn [fst snd]. split; [reflexivity|]. rewrite Ho.
    rewrite <- (findById_key _ _ _ _ Hfind).
    apply (findById_save Order._id
             (Order.with_updatedAt now (Order.with_status status order))).
  - unfold updateOrderStatus, try_catch, updateOrderStatus_body.
    intros status order -> Ht Hfind Hne Henum.
    apply String.eqb_neq in Hne.
    assert (Hor : orElse (Some status) "" = status).
    { cbn in *. now destruct (String.eqb status ""). }
    rewrite Ht, Hor.
    unfold bind, when, gets, ret, exit. cbn. rewrite Hfind, Hne.
    unfold saveOrder, validateStatus. cbn. now rewrite Henum.
Qed.

(** C7, the failing input: an order that is ready for pickup cannot be set
    to [delivered].  The schema's enumeration of statuses lacks [delivered]
    (and [completed]), [order.save()] rejects the document, the handler
    passes the validation error on and nothing is written. *)
Theorem updateOrderStatus_delivered_rejected :
  option_map Order.status (findById Order._id "o1" (orders (awaiting "paid")))
    = Some "ready_for_pickup"
  /\ updateOrderStatus 200 deliverO1 (awaiting "paid")
     = (Next (ValidationError "status"), awaiting "paid")
  /\ updateOrderStatus 200 (UpdateStatus.mk "o1" (Some "completed") true)
       (awaiting "paid")
     = (Next (ValidationError "status"), awaiting "paid").
Proof. repeat split. Qed.

(** *** Which kitchen aggregates a status update drops *)

Lemma active_not_completed s :
  includes activeStatuses s = true -> includes completedStatuses s = false.
Proof.
  intros H. apply includes_In in H. cbn in H.
  destruct H as [<-|[<-|[<-|[]]]]; reflexivity.
Qed.

Lemma completed_not_active s :
  includes completedStatuses s = true -> includes activeStatuses s = false.
Proof.
  intros H. apply includes_In in H. cbn in H.
  destruct H as [<-|[<-|[<-|[]]]]; reflexivity.
Qed.

Lemma kitchenKeys_crossing previousStatus status :
  crosses previousStatus status = true ->
  kitchenKeys previousStatus status
  = [KITCHEN_ORDERS_CACHE; COMPLETED_ORDERS_CACHE].
Proof. unfold crosses, kitchenKeys. now intros ->. Qed.

Lemma kitchenKeys_active previousStatus status :
  includes activeStatuses previousStatus = true ->
  includes activeStatuses status = true ->
  kitchenKeys previousStatus status = [KITCHEN_ORDERS_CACHE].
Proof.
  intros Hp Hs. unfold kitchenKeys.
  now rewrite Hp, Hs, (active_not_completed _ Hp), (active_not_completed _ Hs).
Qed.

Lemma kitchenKeys_completed previousStatus status :
  includes completedStatuses previousStatus = true ->
  includes completedStatuses status = true ->
  kitchenKeys previousStatus status = [COMPLETED_ORDERS_CACHE].
Proof.
  intros Hp Hs. unfold kitchenKeys.
  now rewrite Hp, Hs, (completed_not_active _ Hp), (completed_not_active _ Hs).
Qed.

(** The per-order, per-user and per-session keys are not kitchen keys. *)
Lemma kitchen_key_in_statusUpdateKeys key st order previousStatus status :
  key = KITCHEN_ORDERS_CACHE \/ key = COMPLETED_ORDERS_CACHE ->
  Redis.connected (redis st) = true ->
  In key (statusUpdateKeys st order previousStatus status)
  <-> In key (kitchenKeys previousStatus status).
Proof.
  intros Hkey Hc. unfold statusUpdateKeys. rewrite Hc.
  split.
  - intros [H|H].
    + destruct Hkey as [-> | ->]; discriminate H.
    + apply in_app_or in H as [H|H].
      * destruct (Order.user order); [|destruct H].
        destruct H as [H|[]]. destruct Hkey as [-> | ->]; discriminate H.
      * apply in_app_or in H as [H|H]; [|exact H].
        destruct (sessionOfOrder (Order._id order) st); [|destruct H].
        destruct H as [H|[]]. destruct Hkey as [-> | ->]; discriminate H.
  - intros H. right. apply in_or_app. right. apply in_or_app. now right.
Qed.

Lemma dropped_after_update key id io st ev keys :
  dropped key (DbWrite "orders" id :: kitchenNotice io st ev ++ map CacheDelete keys)
  <-> (key = KITCHEN_ORDERS_CACHE /\ io && truthy (kitchenSocket st) = true)
      \/ In key keys.
Proof.
  unfold dropped, kitchenNotice. split.
  - intros [H|H]; [discriminate H|].
    apply in_app_or in H as [H|H].
    + destruct (io && truthy (kitchenSocket st)); [|destruct H].
      destruct H as [H|[H|[]]]; [discriminate H|].
      injection H as <-. now left.
    + right. apply in_map_iff in H as (k & [= ->] & Hin). exact Hin.
  - intros [[-> Hn]|H]; right; apply in_or_app.
    + left. rewrite Hn. right. now left.
    + right. apply in_map_iff. now exists key.
Qed.

(** C5, as stated, fails: a change within the completed side (ready for
    pickup to cancelled) with a kitchen display registered also drops the
    active-orders aggregate, which the notifier deletes after its emission. *)
Lemma completed_side_update_drops_active_key :
  option_map Order.status (findById Order._id "o1" (orders (awaiting "paid")))
    = Some "ready_for_pickup"
  /\ includes completedStatuses "ready_for_pickup" = true
  /\ includes completedStatuses "cancelled" = true
  /\ dropped KITCHEN_ORDERS_CACHE
       (trace (snd (updateOrderStatus 200 cancelO1 (awaiting "paid")))).
Proof. repeat split. vm_compute. tauto. Qed.

(** C5, amended.  For a status change that is written while Redis is
    connected, with the sides as the controller lists them (active: pending,
    confirmed, preparing; completed: ready_for_pickup, completed,
    cancelled): a change that crosses the boundary drops both kitchen
    aggregates; a change within the active side drops the active aggregate
    and not the completed one; a change within the completed side drops the
    completed aggregate, and the active one as well exactly when the kitchen
    is notified, that is when [req.io] is there and a kitchen socket is
    registered. *)
Theorem kitchen_invalidation now req st order status :
  UpdateStatus.status req = Some status ->
  findById Order._id (UpdateStatus.orderId req) (orders st) = Some order ->
  Order.status order <> status ->
  includes statusEnum status = true ->
  Redis.connected (redis st) = true ->
  exists new,
    trace (snd (updateOrderStatus now req st)) = trace st ++ new
    /\ (crosses (Order.status order) status = true ->
        dropped KITCHEN_ORDERS_CACHE new /\ dropped COMPLETED_ORDERS_CACHE new)
    /\ (includes activeStatuses (Order.status order) = true ->
        includes activeStatuses status = true ->
        dropped KITCHEN_ORDERS_CACHE new /\ ~ dropped COMPLETED_ORDERS_CACHE new)
    /\ (includes completedStatuses (Order.status order) = true ->
        includes completedStatuses status = true ->
        dropped COMPLETED_ORDERS_CACHE new
        /\ (dropped KITCHEN_ORDERS_CACHE new
            <-> UpdateStatus.io req && truthy (kitchenSocket st) = true)).
Proof.
  intros Hs Hfind Hne Henum Hc.
  destruct (updateOrderStatus_committed now req st order status Hs Hfind Hne Henum)
    as (st' & E & _ & _ & _ & Ht).
  rewrite E. cbn [snd]. eexists. split; [exact Ht|].
  assert (K : forall key,
            key = KITCHEN_ORDERS_CACHE \/ key = COMPLETED_ORDERS_CACHE ->
            dropped key
              (DbWrite "orders" (UpdateStatus.orderId req)
               :: kitchenNotice (UpdateStatus.io req) st
                    (ev_order_status_updated (UpdateStatus.orderId req) status
                       (Order.status order) now)
               ++ map CacheDelete
                    (statusUpdateKeys st order (Order.status order) status))
            <-> (key = KITCHEN_ORDERS_CACHE
                 /\ UpdateStatus.io req && truthy (kitchenSocket st) = true)
                \/ In key (kitchenKeys (Order.status order) status)).
  { intros key Hkey. rewrite dropped_after_update.
    now rewrite (kitchen_key_in_statusUpdateKeys key st order _ _ Hkey Hc). }
  split; [|split].
  - intros Hx. rewrite !K by auto. rewrite (kitchenKeys_crossing _ _ Hx).
    split; right; cbn; auto.
  - intros Hp Hn. rewrite !K by auto. rewrite (kitchenKeys_active _ _ Hp Hn).
    split; [right; cbn; auto|].
    intros [[H _]|[H|[]]]; discriminate H.
  - intros Hp Hn. rewrite !K by auto. rewrite (kitchenKeys_completed _ _ Hp Hn).
    split; [right; cbn; auto|].
    split.
    + intros [[_ H]|[H|[]]]; [exact H|discriminate H].
    + intros H. left. now split.
Qed.

Lemma kitchen_invalidation_witness :
  exists new,
    trace (snd (updateOrderStatus 200 cancelO1 (awaiting "paid")))
      = trace (awaiting "paid") ++ new
    /\ (crosses "ready_for_pickup" "cancelled" = true ->
        dropped KITCHEN_ORDERS_CACHE new /\ dropped COMPLETED_ORDERS_CACHE new)
    /\ (includes activeStatuses "ready_for_pickup" = true ->
        includes activeStatuses "cancelled" = true ->
        dropped KITCHEN_ORDERS_CACHE new /\ ~ dropped COMPLETED_ORDERS_CACHE new)
    /\ (includes completedStatuses "ready_for_pickup" = true ->
        includes completedStatuses "cancelled" = true ->
        dropped COMPLETED_ORDERS_CACHE new
        /\ (dropped KITCHEN_ORDERS_CACHE new
            <-> true && truthy (kitchenSocket (awaiting "paid")) = true)).
Proof.
  apply (kitchen_invalidation 200 cancelO1 (awaiting "paid")
           (sampleOrder "o1" "ready_for_pickup" "paid") "cancelled");
    try reflexivity.
  discriminate.
Defined.

(** *** The order of the side effects *)

(** In a trace made of a write, a kitchen notice and cache deletions, no
    deletion comes before the emission. *)
Lemma deletion_never_precedes_emission id io st ev keys key target ev' :
  ~ precedes (CacheDelete key) (Emit target ev')
      (DbWrite "orders" id :: kitchenNotice io st ev ++ map CacheDelete keys).
Proof.
  intros (l1 & l2 & l3 & H).
  (* the emission, if any, is the second effect; deletions start after it *)
  assert (Hshape : forall l,
            l = DbWrite "orders" id :: kitchenNotice io st ev ++ map CacheDelete keys ->
            forall n m a b,
              nth_error l n = Some (CacheDelete a) ->
              nth_error l m = Some (Emit target b) -> m < n).
  { intros l -> n m a b Hn Hm. unfold kitchenNotice in *.
    destruct (io && truthy (kitchenSocket st)).
    - destruct m as [|[|m]]; cbn in Hm; try discriminate Hm.
      + destruct n as [|[|n]]; cbn in Hn; try discriminate Hn. lia.
      + destruct m; cbn in Hm; [discriminate Hm|].
        apply nth_error_In in Hm. apply in_map_iff in Hm as (k & Hk & _).
        discriminate Hk.
    - destruct m as [|m]; cbn in Hm; [discriminate Hm|].
      apply nth_error_In in Hm. apply in_map_iff in Hm as (k & Hk & _).
      discriminate Hk. }
  specialize (Hshape _ eq_refl (length l1) (length l1 + S (length l2)) key ev').
  rewrite H in Hshape.
  assert (H1 : nth_error (l1 ++ CacheDelete key :: l2 ++ Emit target ev' :: l3)
                 (length l1) = Some (CacheDelete key)).
  { rewrite nth_error_app2 by lia. now rewrite Nat.sub_diag. }
  assert (H2 : nth_error (l1 ++ CacheDelete key :: l2 ++ Emit target ev' :: l3)
                 (length l1 + S (length l2)) = Some (Emit target ev')).
  { rewrite nth_error_app2 by lia.
    replace (length l1 + S (length l2) - length l1) with (S (length l2)) by lia.
    cbn. rewrite nth_error_app2 by lia. now rewrite Nat.sub_diag. }
  specialize (Hshape H1 H2). lia.
Qed.

(** C9, as stated, fails: in a committed status update the kitchen is
    notified before any cache key is dropped; the order-details, user-orders
    and session-orders keys are deleted only after the emission. *)
Lemma notification_precedes_invalidation :
  trace (snd (updateOrderStatus 200 cancelO1 (awaiting "paid")))
  = [DbWrite "orders" "o1";
     Emit (to_room "sock9")
       (ev_order_status_updated "o1" "cancelled" "ready_for_pickup" 200);
     CacheDelete "kitchen:active_orders";
     CacheDelete "order:details:o1";
     CacheDelete "order:user:u1";
     CacheDelete "order:session:s1";
     CacheDelete "kitchen:completed_orders"]
  /\ precedes
       (Emit (to_room "sock9")
          (ev_order_status_updated "o1" "cancelled" "ready_for_pickup" 200))
       (CacheDelete "order:details:o1")
       (trace (snd (updateOrderStatus 200 cancelO1 (awaiting "paid"))))
  /\ ~ precedes
       (CacheDelete "order:details:o1")
       (Emit (to_room "sock9")
          (ev_order_status_updated "o1" "cancelled" "ready_for_pickup" 200))
       (trace (snd (updateOrderStatus 200 cancelO1 (awaiting "paid")))).
Proof.
  split; [reflexivity|]. split.
  - exists [DbWrite "orders" "o1"], [CacheDelete "kitchen:active_orders"],
      [CacheDelete "order:user:u1"; CacheDelete "order:session:s1";
       CacheDelete "kitchen:completed_orders"].
    reflexivity.
  - change (trace (snd (updateOrderStatus 200 cancelO1 (awaiting "paid"))))
      with (DbWrite "orders" "o1"
            :: kitchenNotice true (awaiting "paid")
                 (ev_order_status_updated "o1" "cancelled" "ready_for_pickup" 200)
            ++ map CacheDelete
                 ["order:details:o1"; "order:user:u1"; "order:session:s1";
                  "kitchen:completed_orders"]).
    apply deletion_never_precedes_emission.
Qed.

(** C9, amended.  The effects of a committed status update come in this
    order: the store write, then the kitchen notification if there is one
    (followed at once by the notifier's own deletion of the active-orders
    key), then the cache deletions of the controller.  So every deletion
    comes after the write, and none comes before the notification: a client
    that has seen the notification can still read the keys that are about to
    be dropped.  The notifier of new orders emits before it deletes as
    well. *)
Theorem side_effect_order now req st order status :
  UpdateStatus.status req = Some status ->
  findById Order._id (UpdateStatus.orderId req) (orders st) = Some order ->
  Order.status order <> status ->
  includes statusEnum status = true ->
  (exists notice keys,
     let new := DbWrite "orders" (UpdateStatus.orderId req)
                :: notice ++ map CacheDelete keys in
     trace (snd (updateOrderStatus now req st)) = trace st ++ new
     /\ (notice = []
         \/ exists room ev,
              notice = [Emit (to_room room) ev; CacheDelete KITCHEN_ORDERS_CACHE])
     /\ (forall key,
           dropped key new ->
           precedes (DbWrite "orders" (UpdateStatus.orderId req))
             (CacheDelete key) new)
     /\ (forall key target ev,
           ~ precedes (CacheDelete key) (Emit target ev) new))
  /\ (forall newOrder s,
        exists b,
          performs (@notifyKitchenAboutNewOrder Reply newOrder) s b
            (kitchenNotice true s
               (ev_new_kitchen_order (Order._id newOrder) (Order.items newOrder)
                  (Order.orderType newOrder) (kitchenTableId newOrder)
                  (Order.status newOrder)))).
Proof.
  intros Hs Hfind Hne Henum.
  split; [|intros newOrder s; apply notifyKitchenAboutNewOrder_performs].
  destruct (updateOrderStatus_committed now req st order status Hs Hfind Hne Henum)
    as (st' & E & _ & _ & _ & Ht).
  rewrite E. cbn [snd].
  exists (kitchenNotice (UpdateStatus.io req) st
            (ev_order_status_updated (UpdateStatus.orderId req) status
               (Order.status order) now)),
         (statusUpdateKeys st order (Order.status order) status).
  cbv zeta. split; [exact Ht|]. split; [|split].
  - unfold kitchenNotice.
    destruct (UpdateStatus.io req && truthy (kitchenSocket st)); eauto.
  - intros key [H|H]; [discriminate H|].
    apply in_split in H as (l2 & l3 & ->).
    now exists [], l2, l3.
  - intros key target ev. apply deletion_never_precedes_emission.
Qed.

Lemma side_effect_order_witness :
  (exists notice keys,
     let new := DbWrite "orders" "o1" :: notice ++ map CacheDelete keys in
     trace (snd (updateOrderStatus 200 cancelO1 (awaiting "paid")))
       = trace (awaiting "paid") ++ new
     /\ (notice = []
         \/ exists room ev,
              notice = [Emit (to_room room) ev; CacheDelete KITCHEN_ORDERS_CACHE])
     /\ (forall key,
           dropped key new ->
           precedes (DbWrite "orders" "o1") (CacheDelete key) new)
     /\ (forall key target ev,
           ~ precedes (CacheDelete key) (Emit target ev) new))
  /\ (forall newOrder s,
        exists b,
          performs (@notifyKitchenAboutNewOrder Reply newOrder) s b
            (kitchenNotice true s
               (ev_new_kitchen_order (Order._id newOrder) (Order.items newOrder)
                  (Order.orderType newOrder) (kitchenTableId newOrder)
                  (Order.status newOrder)))).
Proof.
  apply (side_effect_order 200 cancelO1 (awaiting "paid")
           (sampleOrder "o1" "ready_for_pickup" "paid") "cancelled");
    try reflexivity.
  discriminate.
Defined.

(** ** Further properties of the handlers *)

(** *** createOrder: what is refused, and what it never deletes *)

Lemma orderLines_acceptable (items : list ItemReq.t) :
  forall subtotal orderItems st out st',
    orderLines items subtotal orderItems st = (Ok out, st') ->
    forallb (lineAcceptable st) items = true.
Proof.
  induction items as [|item rest IH]; intros subtotal orderItems st out st';
    [reflexivity|].
  cbn [orderLines forallb]. unfold lineAcceptable at 1.
  destruct (ItemReq.menuItemId item) as [menuItemId|];
    [|unfold exit; discriminate].
  destruct (ItemReq.quantity item) as [quantity|];
    [|unfold exit; discriminate].
  destruct (truthy (Some menuItemId)); cbn [negb orb andb];
    [|unfold exit; discriminate].
  destruct (truthyNum (Some quantity)); cbn [negb orb andb];
    [|unfold exit; discriminate].
  unfold bind at 1, gets at 1.
  destruct (findById MenuItem._id menuItemId (menuItems st)) as [m|];
    [|unfold exit; discriminate].
  destruct (MenuItem.isAvailable m); cbn [negb];
    [|unfold exit; discriminate].
  apply IH.
Qed.

Lemma orderLines_no_throw (items : list ItemReq.t) :
  forall subtotal orderItems st e st',
    orderLines items subtotal orderItems st <> (Throw e, st').
Proof.
  induction items as [|item rest IH]; intros subtotal orderItems st e st'.
  - cbn. discriminate.
  - cbn [orderLines].
    destruct (ItemReq.menuItemId item) as [menuItemId|];
      [|unfold exit; discriminate].
    destruct (ItemReq.quantity item) as [quantity|];
      [|unfold exit; discriminate].
    destruct (negb (truthy (Some menuItemId)) || negb (truthyNum (Some quantity)));
      [unfold exit; discriminate|].
    unfold bind at 1, gets at 1.
    destruct (findById MenuItem._id menuItemId (menuItems st)) as [m|];
      [|unfold exit; discriminate].
    destruct (negb (MenuItem.isAvailable m)); [unfold exit; discriminate|].
    apply IH.
Qed.

Lemma prepareOrder_no_throw now newId req st e st' :
  prepareOrder now newId req st <> (Throw e, st').
Proof.
  unfold prepareOrder.
  destruct (_ || negb (truthy (CreateOrder.orderType req)));
    [cbn; discriminate|].
  destruct (_ && negb (truthy (CreateOrder.deviceId req)));
    [cbn; discriminate|].
  unfold when at 1 2. unfold bind at 1 2. unfold ret at 1 2.
  unfold bind at 1.
  destruct (truthy (CreateOrder.userId req)).
  - unfold when at 1. unfold bind at 1. unfold gets at 1.
    destruct (findById User._id _ (users st)); [|cbn; discriminate].
    unfold ret at 1. unfold bind at 1.
    destruct (orderLines (CreateOrder.items req) 0%float [] st)
      as [[[subtotal lines]|r0|e0] st1] eqn:Hl.
    + destruct (truthy (CreateOrder.tableId req)); cbn; discriminate.
    + discriminate.
    + now apply orderLines_no_throw in Hl.
  - unfold when at 1. unfold ret at 1. unfold bind at 1.
    destruct (orderLines (CreateOrder.items req) 0%float [] st)
      as [[[subtotal lines]|r0|e0] st1] eqn:Hl.
    + destruct (truthy (CreateOrder.tableId req)); cbn; discriminate.
    + discriminate.
    + now apply orderLines_no_throw in Hl.
Qed.

(** X1.  [createOrder] is all-or-nothing on its lines: if any line has a
    falsy menu item id or quantity, or names a menu item that is missing or
    not available, the request is answered 400 or 404 with a message and the
    state is exactly as before, whatever the other lines are. *)
Theorem createOrder_line_rejected now newId req st :
  forallb (lineAcceptable st) (CreateOrder.items req) = false ->
  exists message,
    createOrder now newId req st = (Json 400 (b_message message), st)
    \/ createOrder now newId req st = (Json 404 (b_message message), st).
Proof.
  intros Hbad.
  pose proof (prepareOrder_pure now newId req st) as P.
  destruct (prepareOrder now newId req st) as [[draft|r|e] st1] eqn:Hprep;
    cbn in P; subst st1.
  - apply prepareOrder_ok in Hprep as (_ & tableDbId & subtotal & lines & _ & Hl).
    apply orderLines_acceptable in Hl. congruence.
  - assert (E : createOrder now newId req st = (r, st)).
    { unfold createOrder, try_catch, createOrder_body, bind.
      now rewrite Hprep. }
    rewrite E.
    apply prepareOrder_exit in Hprep as [msg [-> | ->]]; exists msg; auto.
  - now apply prepareOrder_no_throw in Hprep.
Qed.

Lemma createOrder_line_rejected_witness :
  exists message,
    createOrder 200 "o2"
      (CreateOrder.mk None staleLines None None None None None
         (Some "Take Away") None true) restaurant
    = (Json 400 (b_message message), restaurant)
    \/ createOrder 200 "o2"
         (CreateOrder.mk None staleLines None None None None None
            (Some "Take Away") None true) restaurant
       = (Json 404 (b_message message), restaurant).
Proof.
  apply (createOrder_line_rejected 200 "o2"
           (CreateOrder.mk None staleLines None None None None None
              (Some "Take Away") None true) restaurant).
  reflexivity.
Defined.

Lemma validateOrder_orderType o :
  includes orderTypeEnum (Order.orderType o) = false ->
  exists path, validateOrder o = Some path.
Proof.
  intros H. unfold validateOrder. rewrite H. cbn [negb].
  repeat match goal with
         | |- context [if ?b then _ else _] => destruct b; eauto
         end.
Qed.

(** X2.  The order types are those of the schema, [Take Away], [Delivery]
    and [Dine In]: a request that passes the checks of the controller with
    any other order type is refused by the save with 400 "Validation Error"
    and nothing is written. *)
Theorem createOrder_unknown_order_type now newId req st draft :
  fst (prepareOrder now newId req st) = Ok draft ->
  includes orderTypeEnum (orElse (CreateOrder.orderType req) "") = false ->
  exists path,
    createOrder now newId req st = (Json 400 (b_validation_error path), st).
Proof.
  intros Hprep Htype.
  destruct (prepareOrder now newId req st) as [out st1] eqn:E.
  cbn in Hprep. subst out.
  pose proof (prepareOrder_ok _ _ _ _ _ _ E)
    as (-> & tableDbId & subtotal & lines & Hd & _).
  destruct (validateOrder_orderType draft) as [path Hpath].
  { subst draft. exact Htype. }
  exists path.
  unfold createOrder, try_catch, createOrder_body.
  unfold bind at 1. rewrite E.
  unfold bind at 1. unfold saveOrder. rewrite Hpath. reflexivity.
Qed.

Lemma createOrder_unknown_order_type_witness :
  exists path,
    createOrder 200 "o2" (takeAwayReq "TakeAway") restaurant
    = (Json 400 (b_validation_error path), restaurant).
Proof.
  apply (createOrder_unknown_order_type 200 "o2" (takeAwayReq "TakeAway")
           restaurant
           (newOrder 200 "o2" (takeAwayReq "TakeAway") None 13.5%float
              [OrderItem.mk "m1" "Burger" 5%float 2%float 10%float ""
                 "prod_Burger";
               OrderItem.mk "m2" "Soda" 3.5%float 1%float 3.5%float ""
                 "prod_Soda"])); reflexivity.
Defined.

Lemma extendsBy_refl P st : extendsBy P st st.
Proof. exists []. split; [now rewrite app_nil_r|constructor]. Qed.

Lemma extendsBy_trans P a b c :
  extendsBy P a b -> extendsBy P b c -> extendsBy P a c.
Proof.
  intros (n1 & H1 & F1) (n2 & H2 & F2). exists (n1 ++ n2). split.
  - now rewrite H2, H1, app_assoc.
  - apply List.Forall_app. now split.
Qed.

(** A step that leaves the trace alone, or adds one effect for which
    [solve_effect] proves the property. *)
Ltac extends_leaf solve_effect :=
  first
    [ exists []; split; [cbn; now rewrite app_nil_r|constructor]
    | eexists [_]; split;
      [reflexivity|constructor; [solve_effect|constructor]] ].

Ltac extends_with P solve_effect :=
  unfold_ops;
  respects_with (extendsBy_refl P) (extendsBy_trans P)
    ltac:(extends_leaf solve_effect).

Ltac kitchen_only :=
  first [ intros ? ?; discriminate | intros ? [= <-]; reflexivity ].

Lemma respects_weaken {R A} (m : Handler R A) (rel rel' : State -> State -> Prop) :
  (forall a b, rel a b -> rel' a b) -> respects rel m -> respects rel' m.
Proof. intros H Hm st. apply H, Hm. Qed.

Lemma createOrder_body_kitchen_only now newId req :
  respects (extendsBy kitchenDeleteOnly) (createOrder_body now newId req).
Proof.
  unfold createOrder_body.
  apply (respects_bind _ (extendsBy_trans _)).
  - apply (respects_weaken _ eq); [|apply prepareOrder_pure].
    intros a b <-. apply extendsBy_refl.
  - intros draft. unfold attachAndNotify. extends_with kitchenDeleteOnly kitchen_only.
Qed.

Lemma createOrder_trace_kitchen_only now newId req st :
  exists new,
    trace (snd (createOrder now newId req st)) = trace st ++ new
    /\ forall key, dropped key new -> key = KITCHEN_ORDERS_CACHE.
Proof.
  destruct (respects_try_catch _ (createOrder_body now newId req)
              (fun e => match e with
                        | ValidationError path => Json 400 (b_validation_error path)
                        end)
              (createOrder_body_kitchen_only now newId req) st)
    as (new & Ht & Hall).
  exists new. split; [exact Ht|].
  intros key Hin. exact (proj1 (List.Forall_forall _ _) Hall _ Hin key eq_refl).
Qed.

(** *** updateOrderStatus: refusals, fail-open and cache coherence *)

Lemma updateOrderStatus_semantics_witness :
  updateOrderStatus 200 (UpdateStatus.mk "o1" (Some "pending") true) restaurant
  = (Json 200 (b_order ("Order status is already " ++ "pending")
                 (sampleOrder "o1" "pending" "pending")), restaurant).
Proof.
  destruct (updateOrderStatus_semantics 200
              (UpdateStatus.mk "o1" (Some "pending") true) restaurant)
    as (_ & _ & Hsame & _).
  apply (Hsame "pending" (sampleOrder "o1" "pending" "pending")); reflexivity.
Defined.

(** X5.  Fail-open: while Redis is not connected a status change is still
    written and answered 200, and the write is its only effect: the kitchen
    is not notified and no cache key is deleted. *)
Theorem updateOrderStatus_fail_open now req st order status :
  UpdateStatus.status req = Some status ->
  findById Order._id (UpdateStatus.orderId req) (orders st) = Some order ->
  Order.status order <> status ->
  includes statusEnum status = true ->
  Redis.connected (redis st) = false ->
  fst (updateOrderStatus now req st)
    = Json 200 (b_order "Order status updated successfully"
                  (Order.with_updatedAt now (Order.with_status status order)))
  /\ trace (snd (updateOrderStatus now req st))
     = trace st ++ [DbWrite "orders" (UpdateStatus.orderId req)]
  /\ findById Order._id (UpdateStatus.orderId req)
       (orders (snd (updateOrderStatus now req st)))
     = Some (Order.with_updatedAt now (Order.with_status status order)).
Proof.
  intros Hs Hfind Hne Henum Hoff.
  destruct (updateOrderStatus_committed now req st order status Hs Hfind Hne Henum)
    as (st' & E & _ & _ & Ho & Ht).
  rewrite E. cbn [fst snd]. split; [reflexivity|]. split.
  - rewrite Ht. unfold kitchenNotice, kitchenSocket, statusUpdateKeys.
    rewrite Hoff. cbn [truthy]. rewrite andb_false_r. reflexivity.
  - rewrite Ho. rewrite <- (findById_key _ _ _ _ Hfind).
    apply (findById_save Order._id
             (Order.with_updatedAt now (Order.with_status status order))).
Qed.

Lemma updateOrderStatus_fail_open_witness :
  fst (updateOrderStatus 200 prepareO1 (offline restaurant))
    = Json 200 (b_order "Order status updated successfully"
                  (Order.with_updatedAt 200
                     (Order.with_status "preparing"
                        (sampleOrder "o1" "pending" "pending"))))
  /\ trace (snd (updateOrderStatus 200 prepareO1 (offline restaurant)))
     = trace (offline restaurant) ++ [DbWrite "orders" "o1"]
  /\ findById Order._id "o1"
       (orders (snd (updateOrderStatus 200 prepareO1 (offline restaurant))))
     = Some (Order.with_updatedAt 200
               (Order.with_status "preparing"
                  (sampleOrder "o1" "pending" "pending"))).
Proof.
  apply (updateOrderStatus_fail_open 200 prepareO1 (offline restaurant)
           (sampleOrder "o1" "pending" "pending") "preparing");
    try reflexivity.
  discriminate.
Defined.

Lemma replay_app l1 l2 s : replay (l1 ++ l2) s = replay l2 (replay l1 s).
Proof. unfold replay. apply fold_left_app. Qed.

Lemma replay_keeps_absent new : forall (s : gmap string string) key,
  s !! key = None -> replay new s !! key = None.
Proof.
  induction new as [|e new IH]; intros s key H; [exact H|].
  cbn. apply IH. destruct e; try exact H.
  destruct (decide (key0 = key)) as [->|Hne].
  - apply lookup_delete_eq.
  - now rewrite lookup_delete_ne.
Qed.

(** A key whose deletion is recorded is absent after the replay. *)
Lemma replay_absent new : forall (s : gmap string string) key,
  In (CacheDelete key) new -> replay new s !! key = None.
Proof.
  induction new as [|e new IH]; intros s key H; [destruct H|].
  destruct H as [H|H].
  - subst e. cbn. apply replay_keeps_absent, lookup_delete_eq.
  - cbn. now apply IH.
Qed.

Lemma replays_refl st : replays st st.
Proof. exists []. now rewrite app_nil_r. Qed.

Lemma replays_trans a b c : replays a b -> replays b c -> replays a c.
Proof.
  intros (n1 & T1 & S1 & C1) (n2 & T2 & S2 & C2). exists (n1 ++ n2).
  rewrite T2, T1, S2, S1, C2, C1, app_assoc, replay_app. auto.
Qed.

Lemma deleteCache_replays {R} key : respects replays (@deleteCache R key).
Proof.
  intros st. unfold deleteCache, isConnected, log, bind, when, gets, modify, ret.
  cbn. destruct (Redis.connected (redis st)) eqn:E; cbn.
  - exists [CacheDelete key]. cbn. now rewrite E.
  - apply replays_refl.
Qed.

Ltac replays_leaf :=
  first
    [ exists []; cbn; now rewrite app_nil_r
    | eexists [_]; cbn; repeat split ].

(** As [respects_with], with [deleteCache] taken as one step. *)
Ltac replays_walk :=
  repeat first
    [ apply deleteCache_replays
    | apply (respects_ret _ replays_refl)
    | apply (respects_exit _ replays_refl)
    | apply (respects_throw _ replays_refl)
    | apply (respects_gets _ replays_refl)
    | apply (respects_when _ replays_refl)
    | apply (respects_bind _ replays_trans); [|intros ?]
    | apply respects_modify; intros ?; replays_leaf
    | match goal with
      | |- respects _ (match ?x with _ => _ end) => destruct x
      | |- respects _ (let _ := _ in _) => cbv zeta
      end
    | progress unfold saveOrder, saveSession, saveTable, saveBill, isConnected,
        getValue, emit, log, releaseTable, findSessionByIdAndUpdate,
        findOrCreateBill, socketError, notifyKitchenAboutNewOrder,
        notifyKitchenAboutOrderUpdate, invalidateKitchen,
        invalidateOrderCaches ].

Lemma updateOrderStatus_replays now req :
  respects replays (updateOrderStatus_body now req).
Proof. unfold updateOrderStatus_body. replays_walk. Qed.

Lemma updatePaymentStatus_replays now req :
  respects replays (updatePaymentStatus_body now req).
Proof. unfold updatePaymentStatus_body. replays_walk. Qed.

Lemma updateOrderStatus_drops now req st order status key :
  UpdateStatus.status req = Some status ->
  findById Order._id (UpdateStatus.orderId req) (orders st) = Some order ->
  Order.status order <> status ->
  includes statusEnum status = true ->
  In key (statusUpdateKeys st order (Order.status order) status) ->
  Redis.store (redis (snd (updateOrderStatus now req st))) !! key = None.
Proof.
  intros Hs Hfind Hne Henum Hin.
  destruct (respects_try_catch _ _ Next (updateOrderStatus_replays now req) st)
    as (new & Ht & Hstore & _).
  fold (updateOrderStatus now req st) in Ht, Hstore.
  destruct (updateOrderStatus_committed now req st order status Hs Hfind Hne Henum)
    as (st' & E & _ & _ & _ & Ht').
  rewrite E in *. cbn [snd] in *. rewrite Ht in Ht'.
  apply app_inv_head in Ht'. subst new. rewrite Hstore.
  apply replay_absent. right. apply in_or_app. right.
  apply in_map_iff. now exists key.
Qed.

(** X6.  Cache coherence of a status change: when the change is written
    while Redis is connected, Redis afterwards holds no entry under the
    order-details key of the order, the user-orders key of its user or the
    session-orders key of its session, so that the next read of any of them
    goes to the store. *)
Theorem updateOrderStatus_cache_coherent now req st order status :
  UpdateStatus.status req = Some status ->
  findById Order._id (UpdateStatus.orderId req) (orders st) = Some order ->
  Order.status order <> status ->
  includes statusEnum status = true ->
  Redis.connected (redis st) = true ->
  let store' := Redis.store (redis (snd (updateOrderStatus now req st))) in
  store' !! (ORDER_DETAILS_CACHE_PREFIX +:+ UpdateStatus.orderId req) = None
  /\ (forall user,
        Order.user order = Some user ->
        store' !! (USER_ORDERS_CACHE_PREFIX +:+ user) = None)
  /\ (forall session,
        sessionOfOrder (UpdateStatus.orderId req) st = Some session ->
        store' !! (SESSION_ORDERS_CACHE_PREFIX +:+ TableSession._id session)
        = None).
Proof.
  intros Hs Hfind Hne Henum Hc store'. subst store'.
  pose proof (findById_key _ _ _ _ Hfind) as Hkey.
  split; [|split].
  - apply (updateOrderStatus_drops now req st order status _ Hs Hfind Hne Henum).
    unfold statusUpdateKeys. rewrite Hc, Hkey. now left.
  - intros user Hu.
    apply (updateOrderStatus_drops now req st order status _ Hs Hfind Hne Henum).
    unfold statusUpdateKeys. rewrite Hc, Hu. right. now left.
  - intros session Hsess.
    apply (updateOrderStatus_drops now req st order status _ Hs Hfind Hne Henum).
    unfold statusUpdateKeys. rewrite Hc, Hkey, Hsess.
    right. apply in_or_app. right. now left.
Qed.

Lemma updateOrderStatus_cache_coherent_witness :
  let store' :=
    Redis.store (redis (snd (updateOrderStatus 200 prepareO1 cachedRestaurant))) in
  store' !! (ORDER_DETAILS_CACHE_PREFIX +:+ "o1") = None
  /\ (forall user,
        Some "u1" = Some user ->
        store' !! (USER_ORDERS_CACHE_PREFIX +:+ user) = None)
  /\ (forall session,
        sessionOfOrder "o1" cachedRestaurant = Some session ->
        store' !! (SESSION_ORDERS_CACHE_PREFIX +:+ TableSession._id session)
        = None).
Proof.
  apply (updateOrderStatus_cache_coherent 200 prepareO1 cachedRestaurant
           (sampleOrder "o1" "pending" "pending") "preparing");
    try reflexivity.
  discriminate.
Defined.

(** The stale entries of the sample cache are there before the update. *)
Example cachedRestaurant_is_stale :
  Redis.store (redis cachedRestaurant) !! "order:details:o1" = Some "stale"
  /\ Redis.store (redis cachedRestaurant) !! "order:session:s1" = Some "stale".
Proof. split; reflexivity. Qed.

(** *** createOrder and the cache *)

Lemma replay_other new : forall (s : gmap string string) key,
  (forall key', In (CacheDelete key') new -> key' <> key) ->
  replay new s !! key = s !! key.
Proof.
  induction new as [|e new IH]; intros s key H; [reflexivity|].
  cbn. rewrite IH by (intros k Hk; apply H; now right).
  destruct e; try reflexivity.
  apply lookup_delete_ne. apply H. now left.
Qed.

Lemma createOrder_replays now newId req :
  respects replays (createOrder_body now newId req).
Proof.
  unfold createOrder_body.
  apply (respects_bind _ replays_trans).
  - apply (respects_weaken _ eq); [|apply prepareOrder_pure].
    intros a b <-. apply replays_refl.
  - intros draft. unfold attachAndNotify. replays_walk.
Qed.

(** X3.  Whatever the request, [createOrder] touches no cache entry other
    than the kitchen's active-orders aggregate: every other key, the
    session-orders aggregate of the session it appends to among them, holds
    after the call what it held before. *)
Theorem createOrder_keeps_other_cache_entries now newId req st key :
  key <> KITCHEN_ORDERS_CACHE ->
  Redis.store (redis (snd (createOrder now newId req st))) !! key
  = Redis.store (redis st) !! key.
Proof.
  intros Hne.
  destruct (respects_try_catch _ (createOrder_body now newId req)
              (fun e => match e with
                        | ValidationError path => Json 400 (b_validation_error path)
                        end)
              (createOrder_replays now newId req) st)
    as (new & Ht & Hstore & _).
  fold (createOrder now newId req st) in Ht, Hstore.
  destruct (createOrder_trace_kitchen_only now newId req st) as (new' & Ht' & Hk).
  rewrite Ht in Ht'. apply app_inv_head in Ht'. subst new'.
  rewrite Hstore. apply replay_other.
  intros key' Hin ->. apply Hne. now apply Hk.
Qed.

Lemma createOrder_keeps_other_cache_entries_witness :
  Redis.store
    (redis (snd (createOrder 200 "o2" (dineInReq (Some "s1")) cachedRestaurant)))
    !! "order:session:s1"
  = Redis.store (redis cachedRestaurant) !! "order:session:s1".
Proof.
  apply (createOrder_keeps_other_cache_entries 200 "o2" (dineInReq (Some "s1"))
           cachedRestaurant "order:session:s1").
  discriminate.
Defined.

(** *** updatePaymentStatus: refusals and the gate of the cascade *)

(** X7.  [updatePaymentStatus] refuses without touching anything: a missing
    payment status is a 400, an unknown order a 404, and a payment status
    outside the schema's [pending], [paid], [failed] is rejected by the save
    and passed on as a validation error. *)
Theorem updatePaymentStatus_refusals now req st :
  (truthy (UpdatePayment.paymentStatus req) = false ->
   updatePaymentStatus now req st
   = (Json 400 (b_message "Payment status is required"), st))
  /\ (truthy (UpdatePayment.paymentStatus req) = true ->
      findById Order._id (UpdatePayment.orderId req) (orders st) = None ->
      updatePaymentStatus now req st
      = (Json 404 (b_message "Order not found"), st))
  /\ (forall order,
        truthy (UpdatePayment.paymentStatus req) = true ->
        findById Order._id (UpdatePayment.orderId req) (orders st) = Some order ->
        includes paymentStatusEnum (orElse (UpdatePayment.paymentStatus req) "")
        = false ->
        updatePaymentStatus now req st
        = (Next (ValidationError "paymentStatus"), st)).
Proof.
  unfold updatePaymentStatus, try_catch, updatePaymentStatus_body.
  split; [|split].
  - intros ->. reflexivity.
  - intros -> Hnone. unfold bind, when, gets, ret, exit. cbn. now rewrite Hnone.
  - intros order -> Hfind Henum.
    unfold bind, when, gets, ret, exit. cbn [negb]. rewrite Hfind.
    unfold saveOrder, validatePayment.
    destruct (truthy (UpdatePayment.paymentId req)); cbn; now rewrite Henum.
Qed.

Lemma updatePaymentStatus_refusals_witness :
  updatePaymentStatus 200 (UpdatePayment.mk "o1" (Some "refunded") None)
    (awaiting "pending")
  = (Next (ValidationError "paymentStatus"), awaiting "pending").
Proof.
  destruct (updatePaymentStatus_refusals 200
              (UpdatePayment.mk "o1" (Some "refunded") None) (awaiting "pending"))
    as (_ & _ & H).
  apply (H (sampleOrder "o1" "ready_for_pickup" "pending")); reflexivity.
Defined.

Lemma In_saved {D} (key : D -> Id) (d : D) (c : list D) : In d (save key d c).
Proof.
  unfold save.
  destruct (existsb (fun x => String.eqb (key x) (key d)) c) eqn:E.
  - apply existsb_exists in E as (x & Hin & Hk).
    apply in_map_iff. exists x. now rewrite Hk.
  - apply in_or_app. right. now left.
Qed.

Lemma sessionOfOrder_includes orderId st session :
  sessionOfOrder orderId st = Some session ->
  includes (TableSession.orders session) orderId = true.
Proof.
  unfold sessionOfOrder, findOne. intros H. now apply find_some in H.
Qed.

(** X8.  The cascade of [updatePaymentStatus] has two gates.  A payment
    status other than [paid] never closes a session, since the order itself
    then counts as unpaid; and a session that is not [payment_pending] is
    never closed, even when all its orders are paid.  In both cases the
    order is written, the sessions and the tables are left as they were and
    the answer says [sessionUpdated: false]. *)
Theorem updatePaymentStatus_cascade_gate now req st order status :
  UpdatePayment.paymentStatus req = Some status ->
  includes paymentStatusEnum status = true ->
  findById Order._id (UpdatePayment.orderId req) (orders st) = Some order ->
  status <> "paid"
  \/ (forall session,
        sessionOfOrder (UpdatePayment.orderId req) st = Some session ->
        TableSession.status session <> "payment_pending") ->
  let '(reply, st') := updatePaymentStatus now req st in
  sessions st' = sessions st
  /\ tables st' = tables st
  /\ exists paymentId,
       reply = Json 200 (b_payment "Payment status updated successfully"
                           (UpdatePayment.orderId req) status paymentId false).
Proof.
  intros Hstatus Henum Hfind Hgate.
  pose proof (findById_key _ _ _ _ Hfind) as Hkey.
  assert (Htruthy : truthy (Some status) = true).
  { cbn. destruct (String.eqb status "") eqn:E; [|reflexivity].
    apply String.eqb_eq in E. subst. discriminate. }
  assert (Hor : orElse (Some status) "" = status).
  { cbn in *. now destruct (String.eqb status ""). }
  unfold updatePaymentStatus, try_catch, updatePaymentStatus_body.
  rewrite Hstatus, Htruthy, Hor.
  unfold when at 1. unfold bind at 1. cbn [negb]. unfold ret at 1.
  unfold bind at 1. unfold gets at 1. rewrite Hfind.
  unfold bind at 1. unfold saveOrder.
  set (written := Order.with_updatedAt now
         (if truthy (UpdatePayment.paymentId req)
          then Order.with_paymentId (UpdatePayment.paymentId req)
                 (Order.with_paymentStatus status order)
          else Order.with_paymentStatus status order)).
  assert (Hwid : Order._id written = UpdatePayment.orderId req).
  { unfold written. now destruct (truthy (UpdatePayment.paymentId req)). }
  assert (Hws : Order.paymentStatus written = status).
  { unfold written. now destruct (truthy (UpdatePayment.paymentId req)). }
  assert (Hval : validatePayment
            (if truthy (UpdatePayment.paymentId req)
             then Order.with_paymentId (UpdatePayment.paymentId req)
                    (Order.with_paymentStatus status order)
             else Order.with_paymentStatus status order) = None).
  { unfold validatePayment.
    destruct (truthy (UpdatePayment.paymentId req)); cbn; now rewrite Henum. }
  assert (Hcount : forall session,
            sessionOfOrder (UpdatePayment.orderId req) st = Some session ->
            status <> "paid" ->
            Nat.eqb (length (List.filter
                       (fun o => includes (TableSession.orders session) (Order._id o)
                                 && negb (String.eqb (Order.paymentStatus o) "paid"))
                       (save Order._id written (orders st)))) 0 = false).
  { intros session Hsess Hnp.
    assert (Hin : In written
              (List.filter
                 (fun o => includes (TableSession.orders session) (Order._id o)
                           && negb (String.eqb (Order.paymentStatus o) "paid"))
                 (save Order._id written (orders st)))).
    { apply filter_In. split; [apply In_saved|].
      rewrite Hwid, Hws, (sessionOfOrder_includes _ _ _ Hsess).
      apply String.eqb_neq in Hnp. now rewrite Hnp. }
    destruct (List.filter _ _); [destruct Hin|reflexivity]. }
  rewrite Hval. clearbody written.
  unfold countUnpaid, lookupTable in *.
  destruct (sessionOfOrder (UpdatePayment.orderId req) st) as [session|] eqn:Hsess.
  - destruct (String.eqb (TableSession.status session) "payment_pending") eqn:Hpend.
    + destruct Hgate as [Hnp|Hns].
      * specialize (Hcount session eq_refl Hnp).
        unfold_ops. unfold bind, when, gets, modify, ret. cbn.
        unfold sessionOfOrder in *. cbn. rewrite Hsess, Hpend. cbn.
        rewrite Hcount.
        crunch; rewrite ?Hwid, ?Hws; repeat split; eauto.
      * apply String.eqb_eq in Hpend. now destruct (Hns session eq_refl).
    + unfold_ops. unfold bind, when, gets, modify, ret. cbn.
      unfold sessionOfOrder in *. cbn. rewrite Hsess, Hpend. cbn.
      crunch; rewrite ?Hwid, ?Hws; repeat split; eauto.
  - unfold_ops. unfold bind, when, gets, modify, ret. cbn.
    unfold sessionOfOrder in *. cbn. rewrite Hsess. cbn.
    crunch; rewrite ?Hwid, ?Hws; repeat split; eauto.
Qed.

Lemma updatePaymentStatus_cascade_gate_witness :
  let '(reply, st') :=
    updatePaymentStatus 200 (UpdatePayment.mk "o2" (Some "failed") None)
      (awaiting "paid") in
  sessions st' = sessions (awaiting "paid")
  /\ tables st' = tables (awaiting "paid")
  /\ exists paymentId,
       reply = Json 200 (b_payment "Payment status updated successfully"
                           "o2" "failed" paymentId false).
Proof.
  apply (updatePaymentStatus_cascade_gate 200
           (UpdatePayment.mk "o2" (Some "failed") None) (awaiting "paid")
           (sampleOrder "o2" "ready_for_pickup" "pending") "failed");
    try reflexivity.
  left. discriminate.
Defined.

(** *** Bills: settlement, generation and the total *)

Lemma updateBillPaymentStatus_paid now req st bill session :
  SettleBill.paymentStatus req = Some "paid" ->
  findById Bill._id (SettleBill.billId req) (bills st) = Some bill ->
  findById TableSession._id (Bill.tableSessionId bill) (sessions st)
    = Some session ->
  TableSession.status session <> "closed" ->
  let '(reply, st') := updateBillPaymentStatus now req st in
  (exists paymentMethod,
     reply = Json 200 (b_bill_payment "Bill payment status updated successfully"
                         (Bill._id bill) "paid" paymentMethod)
     /\ findById Bill._id (SettleBill.billId req) (bills st')
        = Some (Bill.mk (Bill._id bill) (Bill.tableSessionId bill)
                  (Bill.total bill) "paid" paymentMethod (SettleBill.userId req)))
  /\ findById TableSession._id (Bill.tableSessionId bill) (sessions st')
     = Some (TableSession.with_endTime (Some now)
               (TableSession.with_status "closed" session))
  /\ forall table,
       lookupTable (TableSession.tableId session) st = Some table ->
       findById Table._id (Table._id table) (tables st')
       = Some (Table.with_currentSession None
                 (Table.with_status "cleaning" table)).
Proof.
  intros Hpaid Hbill Hsess Hopen.
  pose proof (findById_key _ _ _ _ Hbill) as Hbk.
  pose proof (findById_key _ _ _ _ Hsess) as Hsk.
  apply String.eqb_neq in Hopen.
  assert (Hb : forall b c, Bill._id b = SettleBill.billId req ->
            findById Bill._id (SettleBill.billId req) (save Bill._id b c) = Some b).
  { intros b c <-. apply (findById_save Bill._id b). }
  assert (Hs : forall c,
            findById TableSession._id (Bill.tableSessionId bill)
              (save TableSession._id
                 (TableSession.with_endTime (Some now)
                    (TableSession.with_status "closed" session)) c)
            = Some (TableSession.with_endTime (Some now)
                      (TableSession.with_status "closed" session))).
  { intros c. rewrite <- Hsk at 1.
    apply (findById_save TableSession._id
             (TableSession.with_endTime (Some now)
                (TableSession.with_status "closed" session))). }
  assert (Ht : forall table c,
            findById Table._id (Table._id table)
              (save Table._id
                 (Table.with_currentSession None
                    (Table.with_status "cleaning" table)) c)
            = Some (Table.with_currentSession None
                      (Table.with_status "cleaning" table))).
  { intros table c.
    apply (findById_save Table._id
             (Table.with_currentSession None
                (Table.with_status "cleaning" table))). }
  unfold updateBillPaymentStatus, try_catch, updateBillPaymentStatus_body.
  rewrite Hpaid. unfold lookupTable in *.
  unfold_ops. unfold bind, when, gets, modify, ret. cbn.
  rewrite Hbill. cbn. rewrite Hsess, Hopen. cbn.
  destruct (TableSession.tableId session) as [tid|]; cbn.
  - destruct (findById Table._id tid (tables st)) as [table|] eqn:Htable; cbn.
    + repeat split; eauto. intros t [= <-]. apply Ht.
    + repeat split; eauto. intros t. discriminate.
  - repeat split; eauto. intros t. discriminate.
Qed.

(** X9.  Settling a bill as [paid] closes its session, whatever the state of
    the session (unless it is closed already) and whatever the payment
    status of its orders: the bill is stored as paid with the caller as
    [processedBy], the session is stored as [closed] with [endTime] set and
    the session's table is stored as [cleaning] with no current session. *)
Theorem bill_settlement_closes_session now req st bill session :
  SettleBill.paymentStatus req = Some "paid" ->
  findById Bill._id (SettleBill.billId req) (bills st) = Some bill ->
  findById TableSession._id (Bill.tableSessionId bill) (sessions st)
    = Some session ->
  TableSession.status session <> "closed" ->
  let '(reply, st') := updateBillPaymentStatus now req st in
  (exists paymentMethod,
     reply = Json 200 (b_bill_payment "Bill payment status updated successfully"
                         (Bill._id bill) "paid" paymentMethod)
     /\ findById Bill._id (SettleBill.billId req) (bills st')
        = Some (Bill.mk (Bill._id bill) (Bill.tableSessionId bill)
                  (Bill.total bill) "paid" paymentMethod (SettleBill.userId req)))
  /\ findById TableSession._id (Bill.tableSessionId bill) (sessions st')
     = Some (TableSession.with_endTime (Some now)
               (TableSession.with_status "closed" session))
  /\ forall table,
       lookupTable (TableSession.tableId session) st = Some table ->
       findById Table._id (Table._id table) (tables st')
       = Some (Table.with_currentSession None
                 (Table.with_status "cleaning" table)).
Proof. exact (updateBillPaymentStatus_paid now req st bill session). Qed.

Lemma bill_settlement_closes_session_witness :
  let '(reply, st') := updateBillPaymentStatus 200 (settleB1 "paid") (awaiting "pending") in
  (exists paymentMethod,
     reply = Json 200 (b_bill_payment "Bill payment status updated successfully"
                         "b1" "paid" paymentMethod)
     /\ findById Bill._id "b1" (bills st')
        = Some (Bill.mk "b1" "s1" 10%float "paid" paymentMethod (Some "u1")))
  /\ findById TableSession._id "s1" (sessions st')
     = Some (TableSession.with_endTime (Some 200%Z)
               (TableSession.with_status "closed" awaitingSession))
  /\ forall table,
       lookupTable (Some "t2") (awaiting "pending") = Some table ->
       findById Table._id (Table._id table) (tables st')
       = Some (Table.with_currentSession None
                 (Table.with_status "cleaning" table)).
Proof.
  apply (bill_settlement_closes_session 200 (settleB1 "paid") (awaiting "pending")
           bill1 awaitingSession); try reflexivity.
  discriminate.
Defined.

(** X10.  Settling a bill with a status other than [paid], or for a session
    that is already closed or missing, only writes the bill: sessions and
    tables are left as they were.  A missing status is a 400 and an unknown
    bill a 404, both without any write. *)
Theorem bill_settlement_without_cascade now req st :
  (truthy (SettleBill.paymentStatus req) = false ->
   updateBillPaymentStatus now req st
   = (Json 400 (b_message "Payment status is required"), st))
  /\ (truthy (SettleBill.paymentStatus req) = true ->
      findById Bill._id (SettleBill.billId req) (bills st) = None ->
      updateBillPaymentStatus now req st
      = (Json 404 (b_message "Bill not found"), st))
  /\ (forall bill,
        truthy (SettleBill.paymentStatus req) = true ->
        findById Bill._id (SettleBill.billId req) (bills st) = Some bill ->
        SettleBill.paymentStatus req <> Some "paid"
        \/ (forall session,
              findById TableSession._id (Bill.tableSessionId bill) (sessions st)
                = Some session ->
              TableSession.status session = "closed") ->
        sessions (snd (updateBillPaymentStatus now req st)) = sessions st
        /\ tables (snd (updateBillPaymentStatus now req st)) = tables st).
Proof.
  unfold updateBillPaymentStatus, try_catch, updateBillPaymentStatus_body.
  split; [|split].
  - intros ->. reflexivity.
  - intros -> Hnone. unfold bind, when, gets, ret, exit. cbn. now rewrite Hnone.
  - intros bill -> Hbill Hgate.
    unfold_ops. unfold bind, when, gets, modify, ret, exit. cbn.
    rewrite Hbill. cbn.
    destruct (String.eqb (orElse (SettleBill.paymentStatus req) "") "paid") eqn:Hp;
      cbn; [|split; reflexivity].
    destruct (findById TableSession._id (Bill.tableSessionId bill) (sessions st))
      as [session|] eqn:Hs; cbn; [|split; reflexivity].
    destruct (String.eqb (TableSession.status session) "closed") eqn:Hc;
      cbn; [split; reflexivity|].
    exfalso. destruct Hgate as [Hnp|Hclosed].
    + apply Hnp. apply String.eqb_eq in Hp.
      destruct (SettleBill.paymentStatus req) as [s|]; cbn in Hp.
      * destruct (String.eqb s ""); subst; [discriminate|reflexivity].
      * discriminate.
    + specialize (Hclosed session eq_refl). apply String.eqb_neq in Hc.
      contradiction.
Qed.

Lemma bill_settlement_without_cascade_witness :
  sessions (snd (updateBillPaymentStatus 200 (settleB1 "failed") (awaiting "pending")))
  = sessions (awaiting "pending")
  /\ tables (snd (updateBillPaymentStatus 200 (settleB1 "failed") (awaiting "pending")))
     = tables (awaiting "pending").
Proof.
  destruct (bill_settlement_without_cascade 200 (settleB1 "failed")
              (awaiting "pending")) as (_ & _ & H).
  apply (H bill1); [reflexivity|reflexivity|].
  left. discriminate.
Defined.

Lemma findOne_save_fresh {D} (key : D -> Id) (p : D -> bool) (d : D) (c : list D) :
  findOne p c = None -> p d = true -> findOne p (save key d c) = Some d.
Proof.
  unfold findOne, save. intros Hnone Hd.
  destruct (existsb (fun x => String.eqb (key x) (key d)) c) eqn:E.
  - induction c as [|x c IH]; [discriminate E|].
    cbn in *. destruct (p x) eqn:Hx; [discriminate|].
    destruct (String.eqb (key x) (key d)) eqn:Hk; cbn in *.
    + now rewrite Hd.
    + rewrite Hx. now apply IH.
  - clear E. induction c as [|x c IH]; cbn in *.
    + now rewrite Hd.
    + destruct (p x); [discriminate|]. now apply IH.
Qed.

Lemma generateBillForSession_created newId sid st session :
  billOfSession sid st = None ->
  findById TableSession._id sid (sessions st) = Some session ->
  let bill := Bill.mk newId sid (sessionTotal (TableSession.orders session) st)
                "pending" None None in
  exists st',
    generateBillForSession newId sid st
    = (Json 201 (b_bill "Bill generated successfully" newId
                   (sessionTotal (TableSession.orders session) st) "pending"),
       st')
    /\ billOfSession sid st' = Some bill
    /\ findById Bill._id newId (bills st') = Some bill
    /\ findById TableSession._id sid (sessions st')
       = Some (TableSession.with_status "payment_pending" session)
    /\ tables st' = tables st /\ orders st' = orders st.
Proof.
  intros Hnone Hsess bill.
  pose proof (findById_key _ _ _ _ Hsess) as Hsk.
  unfold generateBillForSession, try_catch, generateBillForSession_body.
  unfold_ops. unfold bind, when, gets, modify, ret, exit. cbn.
  rewrite Hnone, Hsess. cbn. eexists. split; [reflexivity|]. cbn.
  unfold billOfSession in *. cbn.
  split; [|split; [|split]].
  - apply (findOne_save_fresh Bill._id _ bill); [exact Hnone|].
    cbn. apply String.eqb_refl.
  - apply (findById_save Bill._id bill).
  - rewrite <- Hsk at 1.
    apply (findById_save TableSession._id
             (TableSession.with_status "payment_pending" session)).
  - split; reflexivity.
Qed.

(** X11.  Generating a bill and asking again: for a session without a bill,
    [generateBillForSession] answers 201 with a pending bill whose total is
    the sum of the totals of the session's stored orders and moves the
    session to [payment_pending]; a second request, by either path, then
    carries the id and the total of that same bill and creates nothing. *)
Theorem generateBill_then_again newId newId' sid st session :
  billOfSession sid st = None ->
  findById TableSession._id sid (sessions st) = Some session ->
  let total := sessionTotal (TableSession.orders session) st in
  let st1 := snd (generateBillForSession newId sid st) in
  fst (generateBillForSession newId sid st)
    = Json 201 (b_bill "Bill generated successfully" newId total "pending")
  /\ findById TableSession._id sid (sessions st1)
     = Some (TableSession.with_status "payment_pending" session)
  /\ generateBillForSession newId' sid st1
     = (Json 400 (b_bill_exists "Bill already exists for this session" newId),
        st1)
  /\ fst (endSessionAndGenerateBill newId' sid st1)
     = Json 200 (b_bill "Session ended and bill generated successfully" newId
                   total "pending")
  /\ bills (snd (endSessionAndGenerateBill newId' sid st1)) = bills st1.
Proof.
  intros Hnone Hsess total st1.
  destruct (generateBillForSession_created newId sid st session Hnone Hsess)
    as (st' & E & Hbill & _ & Hs' & _).
  subst st1. rewrite E. cbn [fst snd].
  split; [reflexivity|]. split; [exact Hs'|].
  split; [|split].
  - unfold generateBillForSession, try_catch, generateBillForSession_body.
    unfold bind, gets, exit. now rewrite Hbill.
  - unfold endSessionAndGenerateBill, try_catch, endSessionAndGenerateBill_body.
    unfold_ops. unfold bind, gets, exit, modify, ret. cbn.
    rewrite Hs'. cbn. rewrite Hbill. reflexivity.
  - unfold endSessionAndGenerateBill, try_catch, endSessionAndGenerateBill_body.
    unfold_ops. unfold bind, gets, exit, modify, ret. cbn.
    rewrite Hs'. cbn. rewrite Hbill. reflexivity.
Qed.

Lemma generateBill_then_again_witness :
  let total := sessionTotal ["o1"] restaurant in
  let st1 := snd (generateBillForSession "b7" "s1" restaurant) in
  fst (generateBillForSession "b7" "s1" restaurant)
    = Json 201 (b_bill "Bill generated successfully" "b7" total "pending")
  /\ findById TableSession._id "s1" (sessions st1)
     = Some (TableSession.with_status "payment_pending" session1)
  /\ generateBillForSession "b8" "s1" st1
     = (Json 400 (b_bill_exists "Bill already exists for this session" "b7"),
        st1)
  /\ fst (endSessionAndGenerateBill "b8" "s1" st1)
     = Json 200 (b_bill "Session ended and bill generated successfully" "b7"
                   total "pending")
  /\ bills (snd (endSessionAndGenerateBill "b8" "s1" st1)) = bills st1.
Proof.
  apply (generateBill_then_again "b7" "b8" "s1" restaurant session1);
    reflexivity.
Defined.

Lemma includes_app l1 l2 s : includes (l1 ++ l2) s = includes l1 s || includes l2 s.
Proof. unfold includes. apply existsb_app. Qed.

(** X12.  The total of a bill counts each stored order of the session once:
    attaching an id that the session already holds, or an id for which no
    order is stored, does not change the total that bill generation
    computes. *)
Theorem sessionTotal_attach_again id ids st :
  includes ids id = true \/ findById Order._id id (orders st) = None ->
  sessionTotal (ids ++ [id]) st = sessionTotal ids st.
Proof.
  intros H. unfold sessionTotal. f_equal.
  apply List.filter_ext_in. intros o Hin.
  rewrite includes_app. unfold includes at 2. cbn.
  destruct (String.eqb (Order._id o) id) eqn:E;
    [|now rewrite !orb_false_r].
  apply String.eqb_eq in E. destruct H as [H|H].
  - rewrite E, H. reflexivity.
  - exfalso. apply findById_none_existsb in H.
    assert (existsb (fun x => String.eqb (Order._id x) id) (orders st) = true).
    { apply existsb_exists. exists o. split; [exact Hin|].
      now apply String.eqb_eq. }
    congruence.
Qed.

Lemma sessionTotal_attach_again_witness :
  sessionTotal (["o1"; "o2"] ++ ["o2"]) (awaiting "paid")
  = sessionTotal ["o1"; "o2"] (awaiting "paid").
Proof.
  apply (sessionTotal_attach_again "o2" ["o1"; "o2"] (awaiting "paid")).
  left. reflexivity.
Defined.

Lemma sameBills_refl st : sameBills st st.
Proof. reflexivity. Qed.

Lemma sameBills_trans a b c : sameBills a b -> sameBills b c -> sameBills a c.
Proof. unfold sameBills. congruence. Qed.

Ltac keeps_bills :=
  unfold_ops;
  respects_with sameBills_refl sameBills_trans ltac:(reflexivity).

(** X13.  A bill is a snapshot: none of the order handlers ([createOrder],
    [updateOrderStatus], [updatePaymentStatus]) ever writes the bill
    collection, so orders placed, changed or paid after a bill was generated
    leave its total as it was. *)
Theorem order_handlers_keep_bills now newId st :
  (forall req, bills (snd (createOrder now newId req st)) = bills st)
  /\ (forall req, bills (snd (updateOrderStatus now req st)) = bills st)
  /\ (forall req, bills (snd (updatePaymentStatus now req st)) = bills st).
Proof.
  split; [|split]; intros req.
  - refine (respects_try_catch sameBills _ _ _ st).
    unfold createOrder_body. apply (respects_bind _ sameBills_trans).
    + apply (respects_weaken _ eq); [|apply prepareOrder_pure].
      now intros a b <-.
    + intros draft. unfold attachAndNotify. keeps_bills.
  - refine (respects_try_catch sameBills _ _ _ st).
    unfold updateOrderStatus_body, invalidateOrderCaches. keeps_bills.
  - refine (respects_try_catch sameBills _ _ _ st).
    unfold updatePaymentStatus_body. keeps_bills.
Qed.

Lemma endSessionAndGenerateBill_created newId sid st session :
  billOfSession sid st = None ->
  findById TableSession._id sid (sessions st) = Some session ->
  TableSession.status session <> "closed" ->
  let bill := Bill.mk newId sid (sessionTotal (TableSession.orders session) st)
                "pending" None None in
  exists st',
    endSessionAndGenerateBill newId sid st
    = (Json 200 (b_bill "Session ended and bill generated successfully" newId
                   (sessionTotal (TableSession.orders session) st) "pending"),
       st')
    /\ findById Bill._id newId (bills st') = Some bill
    /\ findById TableSession._id sid (sessions st')
       = Some (TableSession.with_status "payment_pending" session)
    /\ tables st' = tables st.
Proof.
  intros Hnone Hsess Hopen bill.
  pose proof (findById_key _ _ _ _ Hsess) as Hsk.
  apply String.eqb_neq in Hopen.
  unfold endSessionAndGenerateBill, try_catch, endSessionAndGenerateBill_body.
  unfold_ops. unfold bind, when, gets, modify, ret, exit. cbn.
  rewrite Hsess, Hopen. cbn. rewrite Hnone. cbn.
  eexists. split; [reflexivity|]. cbn. split; [|split].
  - apply (findById_save Bill._id bill).
  - rewrite <- Hsk at 1.
    apply (findById_save TableSession._id
             (TableSession.with_status "payment_pending" session)).
  - reflexivity.
Qed.

(** X14.  Ending a session and settling its bill: for an open session
    without a bill, [endSessionAndGenerateBill] followed by
    [updateBillPaymentStatus] with [paid] on the new bill leaves the session
    closed with its end time, the session's table cleaning without a
    current session, and the bill paid with the total computed when it was
    generated. *)
Theorem end_session_then_settle now newId sid st session req :
  billOfSession sid st = None ->
  findById TableSession._id sid (sessions st) = Some session ->
  TableSession.status session <> "closed" ->
  SettleBill.billId req = newId ->
  SettleBill.paymentStatus req = Some "paid" ->
  let st1 := snd (endSessionAndGenerateBill newId sid st) in
  let st2 := snd (updateBillPaymentStatus now req st1) in
  findById TableSession._id sid (sessions st2)
    = Some (TableSession.with_endTime (Some now)
              (TableSession.with_status "closed" session))
  /\ (forall table,
        lookupTable (TableSession.tableId session) st = Some table ->
        findById Table._id (Table._id table) (tables st2)
        = Some (Table.with_currentSession None
                  (Table.with_status "cleaning" table)))
  /\ option_map (fun b => (Bill.total b, Bill.paymentStatus b))
       (findById Bill._id newId (bills st2))
     = Some (sessionTotal (TableSession.orders session) st, "paid").
Proof.
  intros Hnone Hsess Hopen Hid Hpaid st1 st2.
  destruct (endSessionAndGenerateBill_created newId sid st session Hnone Hsess Hopen)
    as (st' & E & Hb & Hs & Ht).
  subst st1 st2. rewrite E. cbn [snd].
  rewrite <- Hid in Hb.
  assert (Hopen' : TableSession.status
                     (TableSession.with_status "payment_pending" session)
                   <> "closed") by (cbn; discriminate).
  pose proof (updateBillPaymentStatus_paid now req st' _ _ Hpaid Hb Hs Hopen') as H.
  destruct (updateBillPaymentStatus now req st') as [reply st2].
  cbn [snd]. destruct H as ((pm & _ & Hb2) & Hs2 & Ht2).
  split; [exact Hs2|]. split.
  - intros table Hl. apply Ht2. unfold lookupTable in *. cbn. now rewrite Ht.
  - rewrite <- Hid, Hb2. reflexivity.
Qed.

Lemma end_session_then_settle_witness :
  let st1 := snd (endSessionAndGenerateBill "b7" "s1" restaurant) in
  let st2 := snd (updateBillPaymentStatus 300
                    (SettleBill.mk "b7" (Some "paid") None None) st1) in
  findById TableSession._id "s1" (sessions st2)
    = Some (TableSession.with_endTime (Some 300%Z)
              (TableSession.with_status "closed" session1))
  /\ (forall table,
        lookupTable (Some "t2") restaurant = Some table ->
        findById Table._id (Table._id table) (tables st2)
        = Some (Table.with_currentSession None
                  (Table.with_status "cleaning" table)))
  /\ option_map (fun b => (Bill.total b, Bill.paymentStatus b))
       (findById Bill._id "b7" (bills st2))
     = Some (sessionTotal ["o1"] restaurant, "paid").
Proof.
  apply (end_session_then_settle 300 "b7" "s1" restaurant session1
           (SettleBill.mk "b7" (Some "paid") None None)); try reflexivity.
  discriminate.
Defined.

(** *** Tables: starting and ending a session, and the way back *)

Lemma startTableSession_started now newId tableId st table :
  findById Table._id tableId (tables st) = Some table ->
  Table.isActive table = true ->
  Table.status table = "available" ->
  exists st',
    startTableSession now newId tableId st
    = (Json 201 (b_session_started "Table session started successfully" newId
                   (Table._id table) (Table.deviceId table) now "active"), st')
    /\ findById TableSession._id newId (sessions st')
       = Some (TableSession.mk newId (Some tableId) None None "active" now None [])
    /\ findById Table._id tableId (tables st')
       = Some (Table.with_currentSession (Some newId)
                 (Table.with_status "occupied" table))
    /\ orders st' = orders st /\ bills st' = bills st.
Proof.
  intros Hfind Hactive Havail.
  pose proof (findById_key _ _ _ _ Hfind) as Hkey.
  unfold startTableSession, try_catch, startTableSession_body.
  unfold_ops. unfold bind, when, gets, modify, ret, exit. cbn.
  rewrite Hfind, Hactive, Havail. cbn.
  eexists. split; [reflexivity|]. cbn. split; [|split; [|split; reflexivity]].
  - apply (findById_save TableSession._id
             (TableSession.mk newId (Some tableId) None None "active" now None [])).
  - rewrite <- Hkey at 1.
    apply (findById_save Table._id
             (Table.with_currentSession (Some newId)
                (Table.with_status "occupied" table))).
Qed.

(** X15.  [startTableSession] on an active, available table answers 201,
    stores a new active session that points to the table and has no orders,
    and stores the table as occupied with that session as its current one;
    an unknown table is a 404 and nothing changes. *)
Theorem startTableSession_outcomes now newId tableId st :
  (findById Table._id tableId (tables st) = None ->
   startTableSession now newId tableId st
   = (Json 404 (b_message "Table not found"), st))
  /\ (forall table,
        findById Table._id tableId (tables st) = Some table ->
        Table.isActive table = true ->
        Table.status table = "available" ->
        fst (startTableSession now newId tableId st)
        = Json 201 (b_session_started "Table session started successfully"
                      newId (Table._id table) (Table.deviceId table) now "active")
        /\ findById TableSession._id newId
             (sessions (snd (startTableSession now newId tableId st)))
           = Some (TableSession.mk newId (Some tableId) None None "active" now
                     None [])
        /\ findById Table._id tableId
             (tables (snd (startTableSession now newId tableId st)))
           = Some (Table.with_currentSession (Some newId)
                     (Table.with_status "occupied" table))).
Proof.
  split.
  - intros Hnone. unfold startTableSession, try_catch, startTableSession_body.
    unfold bind, gets, exit. now rewrite Hnone.
  - intros table Hfind Hactive Havail.
    destruct (startTableSession_started now newId tableId st table Hfind Hactive Havail)
      as (st' & E & Hs & Ht & _).
    rewrite E. cbn [fst snd]. auto.
Qed.

Lemma startTableSession_outcomes_witness :
  fst (startTableSession 200 "s2" "t1" restaurant)
  = Json 201 (b_session_started "Table session started successfully"
                "s2" "t1" None 200 "active")
  /\ findById TableSession._id "s2"
       (sessions (snd (startTableSession 200 "s2" "t1" restaurant)))
     = Some (TableSession.mk "s2" (Some "t1") None None "active" 200 None [])
  /\ findById Table._id "t1"
       (tables (snd (startTableSession 200 "s2" "t1" restaurant)))
     = Some (Table.with_currentSession (Some "s2")
               (Table.with_status "occupied" table1)).
Proof.
  destruct (startTableSession_outcomes 200 "s2" "t1" restaurant) as [_ H].
  apply (H table1); reflexivity.
Defined.

Lemma endTableSession_ended now sid st session :
  findById TableSession._id sid (sessions st) = Some session ->
  TableSession.status session = "active" ->
  exists st',
    endTableSession now sid st
    = (Json 200 (b_session_ended "Table session ended successfully"
                   (TableSession._id session) (TableSession.table session)
                   (Some now) "completed"), st')
    /\ findById TableSession._id sid (sessions st')
       = Some (TableSession.with_endTime (Some now)
                 (TableSession.with_status "completed" session))
    /\ (forall table,
          lookupTable (TableSession.table session) st = Some table ->
          findById Table._id (Table._id table) (tables st')
          = Some (Table.with_currentSession None
                    (Table.with_status "cleaning" table)))
    /\ (lookupTable (TableSession.table session) st = None ->
        tables st' = tables st).
Proof.
  intros Hfind Hactive.
  pose proof (findById_key _ _ _ _ Hfind) as Hkey.
  unfold endTableSession, try_catch, endTableSession_body.
  unfold_ops. unfold bind, when, gets, modify, ret, exit. cbn.
  rewrite Hfind, Hactive. cbn. unfold lookupTable. cbn.
  assert (Hs : forall c,
            findById TableSession._id sid
              (save TableSession._id
                 (TableSession.with_endTime (Some now)
                    (TableSession.with_status "completed" session)) c)
            = Some (TableSession.with_endTime (Some now)
                      (TableSession.with_status "completed" session))).
  { intros c. rewrite <- Hkey at 1.
    apply (findById_save TableSession._id
             (TableSession.with_endTime (Some now)
                (TableSession.with_status "completed" session))). }
  destruct (TableSession.table session) as [tid|]; cbn.
  - destruct (findById Table._id tid (tables st)) as [table|] eqn:Ht; cbn.
    + eexists. split; [reflexivity|]. cbn. split; [apply Hs|]. split.
      * intros t [= <-].
        apply (findById_save Table._id
                 (Table.with_currentSession None
                    (Table.with_status "cleaning" table))).
      * discriminate.
    + eexists. split; [reflexivity|]. cbn. split; [apply Hs|].
      split; [discriminate|reflexivity].
  - eexists. split; [reflexivity|]. cbn. split; [apply Hs|].
    split; [discriminate|reflexivity].
Qed.

(** X16.  [endTableSession] ends active sessions only: an unknown session is
    a 404 and a session in any other status a 400, both without a write; an
    active session is stored as [completed] with its end time and the table
    it was started on is stored as [cleaning] with no current session. *)
Theorem endTableSession_outcomes now sid st :
  (findById TableSession._id sid (sessions st) = None ->
   endTableSession now sid st = (Json 404 (b_message "Session not found"), st))
  /\ (forall session,
        findById TableSession._id sid (sessions st) = Some session ->
        TableSession.status session <> "active" ->
        endTableSession now sid st
        = (Json 400 (b_message "Session is not active"), st))
  /\ (forall session,
        findById TableSession._id sid (sessions st) = Some session ->
        TableSession.status session = "active" ->
        findById TableSession._id sid (sessions (snd (endTableSession now sid st)))
        = Some (TableSession.with_endTime (Some now)
                  (TableSession.with_status "completed" session))
        /\ forall table,
             lookupTable (TableSession.table session) st = Some table ->
             findById Table._id (Table._id table)
               (tables (snd (endTableSession now sid st)))
             = Some (Table.with_currentSession None
                       (Table.with_status "cleaning" table))).
Proof.
  split; [|split].
  - intros Hnone. unfold endTableSession, try_catch, endTableSession_body.
    unfold bind, gets, exit. now rewrite Hnone.
  - intros session Hfind Hne. apply String.eqb_neq in Hne.
    unfold endTableSession, try_catch, endTableSession_body.
    unfold bind, gets, exit. now rewrite Hfind, Hne.
  - intros session Hfind Hactive.
    destruct (endTableSession_ended now sid st session Hfind Hactive)
      as (st' & E & Hs & Ht & _).
    rewrite E. cbn [snd]. auto.
Qed.

Lemma endTableSession_outcomes_witness :
  endTableSession 200 "s1" (awaiting "paid")
  = (Json 400 (b_message "Session is not active"), awaiting "paid").
Proof.
  destruct (endTableSession_outcomes 200 "s1" (awaiting "paid")) as (_ & H & _).
  apply (H awaitingSession); [reflexivity|discriminate].
Defined.

Lemma updateTableStatus_available now tableId st table :
  findById Table._id tableId (tables st) = Some table ->
  exists st',
    updateTableStatus now tableId (Some "available") st
    = (Json 200 (b_table "Table status updated successfully" (Table._id table)
                   (Table.deviceId table) "available"), st')
    /\ findById Table._id tableId (tables st')
       = Some (Table.with_status "available"
                 (Table.with_currentSession None table))
    /\ (forall sid session,
          Table.currentSession table = Some sid ->
          findById TableSession._id sid (sessions st) = Some session ->
          findById TableSession._id sid (sessions st')
          = Some (TableSession.with_endTime (Some now)
                    (TableSession.with_status "completed" session)))
    /\ (Table.currentSession table = None -> sessions st' = sessions st).
Proof.
  intros Hfind. pose proof (findById_key _ _ _ _ Hfind) as Hkey.
  unfold updateTableStatus, try_catch, updateTableStatus_body.
  unfold_ops. unfold bind, when, gets, modify, ret, exit. cbn.
  rewrite Hfind.
  assert (Ht : forall c,
            findById Table._id tableId
              (save Table._id
                 (Table.with_status "available"
                    (Table.with_currentSession None table)) c)
            = Some (Table.with_status "available"
                      (Table.with_currentSession None table))).
  { intros c. rewrite <- Hkey at 1.
    apply (findById_save Table._id
             (Table.with_status "available"
                (Table.with_currentSession None table))). }
  destruct (Table.currentSession table) as [cs|] eqn:Hcs; cbn.
  - destruct (findById TableSession._id cs (sessions st)) as [session|] eqn:Hs;
      cbn; eexists; (split; [reflexivity|]); cbn;
      (split; [apply Ht|]); (split; [|discriminate]).
    + intros sid session' [= <-] Hs'. rewrite Hs in Hs'. injection Hs' as <-.
      rewrite <- (findById_key _ _ _ _ Hs) at 1.
      apply (findById_save TableSession._id
               (TableSession.with_endTime (Some now)
                  (TableSession.with_status "completed" session))).
    + intros sid session' [= <-] Hs'. congruence.
  - eexists. split; [reflexivity|]. cbn.
    split; [|split; [discriminate|reflexivity]].
    replace (Table.with_status "available" table)
      with (Table.with_status "available" (Table.with_currentSession None table)).
    + apply Ht.
    + destruct table. cbn in *. now subst.
Qed.

(** X17.  Setting a table to [available] never leaves a session attached:
    the table is stored as available without a current session, and the
    session it pointed to, if it is stored, is force-completed with the time
    of the call as its end time.  A missing status is a 400 and an unknown
    table a 404, without a write. *)
Theorem updateTableStatus_to_available now tableId st :
  updateTableStatus now tableId None st
    = (Json 400 (b_message "Status is required"), st)
  /\ (findById Table._id tableId (tables st) = None ->
      updateTableStatus now tableId (Some "available") st
      = (Json 404 (b_message "Table not found"), st))
  /\ (forall table,
        findById Table._id tableId (tables st) = Some table ->
        let st' := snd (updateTableStatus now tableId (Some "available") st) in
        findById Table._id tableId (tables st')
        = Some (Table.with_status "available"
                  (Table.with_currentSession None table))
        /\ forall sid session,
             Table.currentSession table = Some sid ->
             findById TableSession._id sid (sessions st) = Some session ->
             findById TableSession._id sid (sessions st')
             = Some (TableSession.with_endTime (Some now)
                       (TableSession.with_status "completed" session))).
Proof.
  split; [reflexivity|]. split.
  - intros Hnone. unfold updateTableStatus, try_catch, updateTableStatus_body.
    unfold bind, when, gets, ret, exit. cbn. now rewrite Hnone.
  - intros table Hfind st'. subst st'.
    destruct (updateTableStatus_available now tableId st table Hfind)
      as (st' & E & Ht & Hs & _).
    rewrite E. cbn [snd]. auto.
Qed.

Lemma updateTableStatus_to_available_witness :
  let st' := snd (updateTableStatus 200 "t2" (Some "available") restaurant) in
  findById Table._id "t2" (tables st')
  = Some (Table.with_status "available" (Table.with_currentSession None table2))
  /\ forall sid session,
       Table.currentSession table2 = Some sid ->
       findById TableSession._id sid (sessions restaurant) = Some session ->
       findById TableSession._id sid (sessions st')
       = Some (TableSession.with_endTime (Some 200%Z)
                 (TableSession.with_status "completed" session)).
Proof.
  destruct (updateTableStatus_to_available 200 "t2" restaurant) as (_ & _ & H).
  apply (H table2). reflexivity.
Defined.

(** X18.  The way round for a table: starting a session on an active,
    available table without a session, ending that session and setting the
    table back to [available] stores the table exactly as it was at the
    start, and leaves the session completed with the time it was ended. *)
Theorem table_round_trip t1 t2 t3 newId tableId st table :
  findById Table._id tableId (tables st) = Some table ->
  Table.isActive table = true ->
  Table.status table = "available" ->
  Table.currentSession table = None ->
  let st1 := snd (startTableSession t1 newId tableId st) in
  let st2 := snd (endTableSession t2 newId st1) in
  let st3 := snd (updateTableStatus t3 tableId (Some "available") st2) in
  findById Table._id tableId (tables st3) = Some table
  /\ findById TableSession._id newId (sessions st3)
     = Some (TableSession.mk newId (Some tableId) None None "completed" t1
               (Some t2) []).
Proof.
  intros Hfind Hactive Havail Hnone st1 st2 st3.
  pose proof (findById_key _ _ _ _ Hfind) as Hkey.
  destruct (startTableSession_started t1 newId tableId st table Hfind Hactive Havail)
    as (s1 & E1 & Hs1 & Ht1 & _).
  subst st3 st2 st1. rewrite E1. cbn [snd].
  destruct (endTableSession_ended t2 newId s1 _ Hs1 eq_refl)
    as (s2 & E2 & Hs2 & Ht2 & _).
  rewrite E2. cbn [snd].
  specialize (Ht2 _ Ht1). cbn in Ht2. rewrite Hkey in Ht2.
  destruct (updateTableStatus_available t3 tableId s2 _ Ht2)
    as (s3 & E3 & Ht3 & _ & Hs3).
  rewrite E3. cbn [snd].
  split.
  - rewrite Ht3. f_equal. destruct table. cbn in *. now subst.
  - rewrite (Hs3 eq_refl). exact Hs2.
Qed.

Lemma table_round_trip_witness :
  let st1 := snd (startTableSession 200 "s2" "t1" restaurant) in
  let st2 := snd (endTableSession 300 "s2" st1) in
  let st3 := snd (updateTableStatus 400 "t1" (Some "available") st2) in
  findById Table._id "t1" (tables st3) = Some table1
  /\ findById TableSession._id "s2" (sessions st3)
     = Some (TableSession.mk "s2" (Some "t1") None None "completed" 200
               (Some 300%Z) []).
Proof.
  apply (table_round_trip 200 300 400 "s2" "t1" restaurant table1); reflexivity.
Defined.

(** *** Sockets: one session per user, one closing per session *)

Lemma socketError_refused message st :
  let st' := snd (socketError message st) in
  fst (socketError message st) = Exit tt /\ refused st st'.
Proof.
  unfold socketError, refused, sameData. unfold_ops.
  unfold bind, modify, exit. cbn. repeat split. eauto.
Qed.

Lemma startSessionSocket_started viaQr now newId tableId userId st table user :
  tableId <> "" -> userId <> "" ->
  findOne (fun t => String.eqb (Table.tableId t) tableId) (tables st) = Some table ->
  Table.isActive table = true ->
  Table.status table = "available" ->
  findById User._id userId (users st) = Some user ->
  activeSessionOf userId st = None ->
  exists st',
    startSessionSocket viaQr now newId (Some tableId) (Some userId) st = (Ok tt, st')
    /\ sessions st'
       = save TableSession._id
           (TableSession.mk newId None (Some (Table._id table)) (Some userId)
              "active" now None []) (sessions st)
    /\ tables st'
       = save Table._id
           (Table.with_currentSession (Some newId)
              (Table.with_status "occupied" table)) (tables st)
    /\ users st' = users st.
Proof.
  intros Ht Hu Htable Hactive Havail Huser Hfree.
  apply String.eqb_neq in Ht, Hu.
  unfold startSessionSocket. unfold_ops.
  unfold bind, when, gets, modify, ret, exit. cbn. rewrite Ht, Hu. cbn.
  rewrite Htable, Hactive, Havail. cbn. rewrite Huser, Hfree. cbn.
  eexists. split; [reflexivity|]. cbn. auto.
Qed.

Lemma startSessionSocket_busy viaQr now newId tableId (userId : string) st existing :
  activeSessionOf userId st = Some existing ->
  let r := startSessionSocket viaQr now newId tableId (Some userId) st in
  fst r = Exit tt /\ refused st (snd r).
Proof.
  intros Hbusy r. subst r.
  unfold startSessionSocket, refused, sameData. unfold_ops.
  unfold bind, when, gets, modify, ret, exit. cbn.
  destruct (String.eqb userId "") eqn:Hu; cbn;
    [rewrite orb_true_r; cbn; repeat split; eauto|].
  destruct (negb (truthy tableId)); cbn; [repeat split; eauto|].
  destruct (findOne _ (tables st)) as [table|]; cbn; [|repeat split; eauto].
  destruct (negb (Table.isActive table)); cbn; [repeat split; eauto|].
  destruct (negb (String.eqb (Table.status table) "available")); cbn;
    [repeat split; eauto|].
  destruct (findById User._id userId (users st)) as [user|]; cbn;
    [|repeat split; eauto].
  rewrite Hbusy. cbn. repeat split; eauto.
Qed.

(** X19.  One active session per user over the socket: once
    [initiate_session] has opened a session for a user who had none, the
    user's active session is the new one, the table is occupied by it, and
    every further [initiate_session] or [scan_qr_code] of that user, at any
    table, is refused with one [error] event and without a write. *)
Theorem socket_one_session_per_user now newId tableId userId st table user :
  tableId <> "" -> userId <> "" ->
  findOne (fun t => String.eqb (Table.tableId t) tableId) (tables st) = Some table ->
  Table.isActive table = true ->
  Table.status table = "available" ->
  findById User._id userId (users st) = Some user ->
  activeSessionOf userId st = None ->
  let st1 := initiate_session now newId (Some tableId) (Some userId) st in
  activeSessionOf userId st1
  = Some (TableSession.mk newId None (Some (Table._id table)) (Some userId)
            "active" now None [])
  /\ findById Table._id (Table._id table) (tables st1)
     = Some (Table.with_currentSession (Some newId)
               (Table.with_status "occupied" table))
  /\ forall now' newId' tableId',
       refused st1 (initiate_session now' newId' tableId' (Some userId) st1)
       /\ refused st1 (scan_qr_code now' newId' tableId' (Some userId) st1).
Proof.
  intros Ht Hu Htable Hactive Havail Huser Hfree st1.
  destruct (startSessionSocket_started false now newId tableId userId st table user
              Ht Hu Htable Hactive Havail Huser Hfree)
    as (s1 & E & Hs & Htb & _).
  assert (E1 : st1 = s1).
  { subst st1. unfold initiate_session, try_socket. now rewrite E. }
  rewrite E1. clear E1 st1.
  assert (Hbusy : activeSessionOf userId s1
                  = Some (TableSession.mk newId None (Some (Table._id table))
                            (Some userId) "active" now None [])).
  { unfold activeSessionOf in *. rewrite Hs.
    apply findOne_save_fresh; [exact Hfree|].
    cbn. now rewrite String.eqb_refl. }
  split; [exact Hbusy|]. split.
  - rewrite Htb.
    apply (findById_save Table._id
             (Table.with_currentSession (Some newId)
                (Table.with_status "occupied" table))).
  - intros now' newId' tableId'.
    split.
    + destruct (startSessionSocket_busy false now' newId' tableId' userId s1 _ Hbusy)
        as [Hexit Href].
      revert Hexit Href. unfold initiate_session, try_socket.
      destruct (startSessionSocket false now' newId' tableId' (Some userId) s1)
        as [[| |] s2]; cbn; intros Hexit Href; try discriminate. exact Href.
    + destruct (startSessionSocket_busy true now' newId' tableId' userId s1 _ Hbusy)
        as [Hexit Href].
      revert Hexit Href. unfold scan_qr_code, try_socket.
      destruct (startSessionSocket true now' newId' tableId' (Some userId) s1)
        as [[| |] s2]; cbn; intros Hexit Href; try discriminate. exact Href.
Qed.

Lemma socket_one_session_per_user_witness :
  let st := set_sessions [] restaurant in
  let st1 := initiate_session 200 "s2" (Some "T1") (Some "u1") st in
  activeSessionOf "u1" st1
  = Some (TableSession.mk "s2" None (Some "t1") (Some "u1") "active" 200 None [])
  /\ findById Table._id "t1" (tables st1)
     = Some (Table.with_currentSession (Some "s2")
               (Table.with_status "occupied" table1))
  /\ forall now' newId' tableId',
       refused st1 (initiate_session now' newId' tableId' (Some "u1") st1)
       /\ refused st1 (scan_qr_code now' newId' tableId' (Some "u1") st1).
Proof.
  apply (socket_one_session_per_user 200 "s2" "T1" "u1"
           (set_sessions [] restaurant) table1 (User.mk "u1" (Some "Ada")));
    first [discriminate | reflexivity].
Defined.

Lemma findOrCreateBill_runs {R} newId sid session st :
  exists bill st',
    @findOrCreateBill R newId sid session st = (Ok bill, st')
    /\ tables st' = tables st /\ sessions st' = sessions st
    /\ orders st' = orders st
    /\ billOfSession sid st' = Some bill
    /\ (forall b, billOfSession sid st = Some b -> bills st' = bills st)
    /\ (billOfSession sid st = None ->
        bill = Bill.mk newId sid (sessionTotal (TableSession.orders session) st)
                 "pending" None None).
Proof.
  unfold findOrCreateBill, saveBill, log. unfold bind, gets, modify, ret. cbn.
  destruct (billOfSession sid st) as [bill|] eqn:Hbill; cbn.
  - exists bill, st. repeat split; try assumption. discriminate.
  - do 2 eexists. split; [reflexivity|]. cbn. repeat split; try discriminate.
    unfold billOfSession. cbn.
    apply findOne_save_fresh; [exact Hbill|]. cbn. apply String.eqb_refl.
Qed.

Lemma end_session_closed now newId sid tableId st session :
  sid <> "" ->
  findById TableSession._id sid (sessions st) = Some session ->
  TableSession.status session <> "closed" ->
  exists st',
    end_session now newId (Some sid) tableId st = st'
    /\ findById TableSession._id sid (sessions st')
       = Some (TableSession.with_endTime (Some now)
                 (TableSession.with_status "closed" session))
    /\ billOfSession sid st' <> None
    /\ (forall b, billOfSession sid st = Some b -> bills st' = bills st)
    /\ (forall table,
          lookupTable (TableSession.tableId session) st = Some table ->
          findById Table._id (Table._id table) (tables st')
          = Some (Table.with_currentSession None
                    (Table.with_status "cleaning" table)))
    /\ orders st' = orders st.
Proof.
  intros Hsid Hfind Hopen.
  apply String.eqb_neq in Hsid, Hopen.
  pose proof (findById_key _ _ _ _ Hfind) as Hkey.
  eexists. split; [reflexivity|].
  unfold end_session, try_socket, end_session_body.
  unfold socketError, emit, log, saveSession, saveTable, releaseTable.
  unfold bind, when, gets, modify, ret, exit. cbn -[findOrCreateBill].
  rewrite Hsid. cbn -[findOrCreateBill].
  rewrite Hfind, Hopen. cbn -[findOrCreateBill].
  destruct (findOrCreateBill_runs (R:=unit) newId sid session st)
    as (bill & s0 & E & Ht0 & Hs0 & Ho0 & Hb0 & Hkeep & _).
  rewrite E. cbn. unfold lookupTable. cbn. rewrite Ht0.
  assert (Hs : forall c,
            findById TableSession._id sid
              (save TableSession._id
                 (TableSession.with_endTime (Some now)
                    (TableSession.with_status "closed" session)) c)
            = Some (TableSession.with_endTime (Some now)
                      (TableSession.with_status "closed" session))).
  { intros c. rewrite <- Hkey at 1.
    apply (findById_save TableSession._id
             (TableSession.with_endTime (Some now)
                (TableSession.with_status "closed" session))). }
  unfold billOfSession in *.
  destruct (TableSession.tableId session) as [tid|] eqn:Htid; cbn;
    [destruct (findById Table._id tid (tables st)) as [table|] eqn:Htable; cbn|];
    destruct (truthy tableId) eqn:Hroom; cbn; rewrite ?Hroom; cbn;
    try (destruct (String.eqb (Table.tableId table) ""); cbn);
    (split; [apply Hs|]);
    (split; [rewrite Hb0; discriminate|]);
    (split; [exact Hkeep|]);
    (split; [|exact Ho0]);
    intros table' Ht'; try discriminate;
    injection Ht' as <-;
    apply (findById_save Table._id
             (Table.with_currentSession None (Table.with_status "cleaning" table))).
Qed.

(** X20.  A session is closed once over the socket: [end_session] on a stored
    session that is not closed marks it closed with the time of the call,
    leaves the session with a bill, and sends its table to cleaning; a second
    [end_session] for it is refused with one [error] event and writes
    nothing, so the closing time and the bill are those of the first call. *)
Theorem end_session_closes_once now newId sid tableId st session :
  sid <> "" ->
  findById TableSession._id sid (sessions st) = Some session ->
  TableSession.status session <> "closed" ->
  let st1 := end_session now newId (Some sid) tableId st in
  findById TableSession._id sid (sessions st1)
  = Some (TableSession.with_endTime (Some now)
            (TableSession.with_status "closed" session))
  /\ billOfSession sid st1 <> None
  /\ (forall table,
        lookupTable (TableSession.tableId session) st = Some table ->
        findById Table._id (Table._id table) (tables st1)
        = Some (Table.with_currentSession None
                  (Table.with_status "cleaning" table)))
  /\ forall now' newId' tableId',
       refused st1 (end_session now' newId' (Some sid) tableId' st1).
Proof.
  intros Hsid Hfind Hopen st1.
  destruct (end_session_closed now newId sid tableId st session Hsid Hfind Hopen)
    as (s1 & E & Hs & Hbill & _ & Ht & _).
  subst st1. rewrite E. clear E.
  split; [exact Hs|]. split; [exact Hbill|]. split; [exact Ht|].
  intros now' newId' tableId'.
  apply String.eqb_neq in Hsid.
  unfold end_session, try_socket, end_session_body, refused, sameData.
  unfold_ops. unfold bind, when, gets, modify, ret, exit. cbn.
  rewrite Hsid. cbn. rewrite Hs. cbn. repeat split. eauto.
Qed.

Lemma end_session_closes_once_witness :
  let st1 := end_session 200 "b1" (Some "s1") None restaurant in
  findById TableSession._id "s1" (sessions st1)
  = Some (TableSession.with_endTime (Some 200%Z)
            (TableSession.with_status "closed" session1))
  /\ billOfSession "s1" st1 <> None
  /\ (forall table,
        lookupTable (TableSession.tableId session1) restaurant = Some table ->
        findById Table._id (Table._id table) (tables st1)
        = Some (Table.with_currentSession None
                  (Table.with_status "cleaning" table)))
  /\ forall now' newId' tableId',
       refused st1 (end_session now' newId' (Some "s1") tableId' st1).
Proof.
  apply (end_session_closes_once 200 "b1" "s1" None restaurant session1);
    first [discriminate | reflexivity].
Defined.
